(** * identity: users, feature flags and their assignment relation

    A shallow embedding of the service layer of the identity backend
    (internal/service), of the repositories it calls
    (internal/repository) and of the pagination helpers
    (internal/service/dto), with the relational store they run on.

    The store is the PostgreSQL schema of db/migrations accessed through
    GORM: three tables, two id sequences, the unique indexes on
    users.email and feature_flags.key, the composite primary key and the
    foreign keys of user_feature_flags, and GORM's soft delete for models
    that carry a [DeletedAt] column. *)

From Stdlib Require Import ZArith NArith List String Bool Lia.
Import ListNotations.

Local Open Scope Z_scope.

(** ** Go's machine integers

    [int] and [int64] are 64-bit two's complement numbers on the
    platforms the service is built for; arithmetic wraps around. *)

Module GoInt.

Definition min_int : Z := - 2 ^ 63.
Definition max_int : Z := 2 ^ 63 - 1.

Definition in_range (z : Z) : Prop := min_int <= z <= max_int.

Definition wrap (z : Z) : Z := (z + 2 ^ 63) mod 2 ^ 64 - 2 ^ 63.

Definition add (a b : Z) : Z := wrap (a + b).
Definition sub (a b : Z) : Z := wrap (a - b).
Definition mul (a b : Z) : Z := wrap (a * b).
(** Go's [/] truncates toward zero and [%] takes the sign of the dividend. *)
Definition quot (a b : Z) : Z := wrap (Z.quot a b).
Definition rem (a b : Z) : Z := Z.rem a b.

End GoInt.

(** ** internal/model

    [uint] identifiers are natural numbers.  [time.Time] is a tick count
    of the store's clock; [0] is Go's zero time. *)

Definition uint := N.
Definition Time := N.

Module User.
Record t := mk {
  ID : uint;
  Name : string;
  Email : string;
  Enabled : bool;
  CreatedAt : Time;
  UpdatedAt : Time;
  DeletedAt : option Time;
  LastLogin : option Time }.
End User.

Module FeatureFlag.
Record t := mk {
  ID : uint;
  Key : string;
  Description : string;
  Enabled : bool;
  CreatedAt : Time;
  UpdatedAt : Time;
  DeletedAt : option Time }.
End FeatureFlag.

Module UserFeatureFlag.
Record t := mk {
  UserID : uint;
  FeatureFlagID : uint;
  CreatedAt : Time }.
End UserFeatureFlag.

(** ** internal/service/dto *)

Module Dto.

Module CreateUserRequest.
Record t := mk { Name : string; Email : string; Enabled : bool }.
End CreateUserRequest.

(** The pointer fields of the update requests are options: [None] is a
    field absent from the payload. *)
Module UpdateUserRequest.
Record t := mk {
  Name : option string; Email : option string; Enabled : option bool }.
End UpdateUserRequest.

Module UserResponse.
Record t := mk {
  ID : uint;
  Name : string;
  Email : string;
  Enabled : bool;
  CreatedAt : Time;
  UpdatedAt : Time;
  LastLogin : option Time }.
End UserResponse.

Module CreateFeatureFlagRequest.
Record t := mk { Key : string; Description : string; Enabled : bool }.
End CreateFeatureFlagRequest.

Module UpdateFeatureFlagRequest.
Record t := mk { Description : option string; Enabled : option bool }.
End UpdateFeatureFlagRequest.

Module FeatureFlagResponse.
Record t := mk {
  ID : uint;
  Key : string;
  Description : string;
  Enabled : bool;
  CreatedAt : Time;
  UpdatedAt : Time }.
End FeatureFlagResponse.

Module UserListResponse.
Record t := mk {
  Users : list UserResponse.t;
  Total : Z;
  Page : Z;
  PageSize : Z;
  TotalPages : Z }.
End UserListResponse.

Module FeatureFlagListResponse.
Record t := mk {
  FeatureFlags : list FeatureFlagResponse.t;
  Total : Z;
  Page : Z;
  PageSize : Z;
  TotalPages : Z }.
End FeatureFlagListResponse.

Record PaginationParams := mkPagination { Page : Z; PageSize : Z }.

(** [GetOffset] normalises the receiver in place and returns the offset;
    the updated receiver is the second component. *)
Definition GetOffset (p : PaginationParams) : Z * PaginationParams :=
  let p := if Page p <? 1 then mkPagination 1 (PageSize p) else p in
  let p := if PageSize p <? 1 then mkPagination (Page p) 10 else p in
  let p := if PageSize p >? 100 then mkPagination (Page p) 100 else p in
  (GoInt.mul (GoInt.sub (Page p) 1) (PageSize p), p).

(** [GetLimit] normalises the page size in place and returns it. *)
Definition GetLimit (p : PaginationParams) : Z * PaginationParams :=
  let p := if PageSize p <? 1 then mkPagination (Page p) 10 else p in
  let p := if PageSize p >? 100 then mkPagination (Page p) 100 else p in
  (PageSize p, p).

Definition CalculateTotalPages (total : Z) (pageSize : Z) : Z :=
  if pageSize =? 0 then 0
  else
    let pages := GoInt.quot total pageSize in
    if GoInt.rem total pageSize >? 0 then GoInt.add pages 1 else pages.


End Dto.

(** ** The store

    The three tables of db/migrations, the sequences behind the two
    [SERIAL] keys, and the clock that stamps rows.  Rows are never removed
    from [users] and [feature_flags]: both models carry a [DeletedAt]
    column, so GORM deletes them by stamping that column.

    [faults] is the store's schedule of failures that do not come from the
    schema: each GORM call consumes the head of the list, and [true] makes
    that call fail without effect (lost connection, cancelled context, and
    the like).  An empty schedule is a store that only fails for the
    reasons modelled below. *)

Record DB := mkDB {
  users : list User.t;
  feature_flags : list FeatureFlag.t;
  user_feature_flags : list UserFeatureFlag.t;
  users_id_seq : N;
  feature_flags_id_seq : N;
  clock : Time;
  faults : list bool }.

Definition set_users (v : list User.t) (db : DB) : DB :=
  mkDB v (feature_flags db) (user_feature_flags db) (users_id_seq db)
       (feature_flags_id_seq db) (clock db) (faults db).
Definition set_feature_flags (v : list FeatureFlag.t) (db : DB) : DB :=
  mkDB (users db) v (user_feature_flags db) (users_id_seq db)
       (feature_flags_id_seq db) (clock db) (faults db).
Definition set_user_feature_flags (v : list UserFeatureFlag.t) (db : DB) : DB :=
  mkDB (users db) (feature_flags db) v (users_id_seq db)
       (feature_flags_id_seq db) (clock db) (faults db).
Definition set_users_id_seq (v : N) (db : DB) : DB :=
  mkDB (users db) (feature_flags db) (user_feature_flags db) v
       (feature_flags_id_seq db) (clock db) (faults db).
Definition set_feature_flags_id_seq (v : N) (db : DB) : DB :=
  mkDB (users db) (feature_flags db) (user_feature_flags db) (users_id_seq db)
       v (clock db) (faults db).
Definition set_faults (v : list bool) (db : DB) : DB :=
  mkDB (users db) (feature_flags db) (user_feature_flags db) (users_id_seq db)
       (feature_flags_id_seq db) (clock db) v.
(** Time passes after a statement has read the clock. *)
Definition tick (db : DB) : DB :=
  mkDB (users db) (feature_flags db) (user_feature_flags db) (users_id_seq db)
       (feature_flags_id_seq db) (N.succ (clock db)) (faults db).

(** A freshly migrated database: empty tables, sequences at 1. *)
Definition empty_db (fs : list bool) : DB := mkDB [] [] [] 1%N 1%N 1%N fs.

(** ** The part of GORM the repositories use *)

Module Gorm.

Inductive error :=
| ErrRecordNotFound        (* gorm.ErrRecordNotFound *)
| ErrUniqueViolation       (* primary key or unique index *)
| ErrForeignKeyViolation   (* a referenced row is missing *)
| ErrOther.                (* any other failure of a call, see [faults] *)

Inductive result (E A : Type) : Type :=
| Ok (a : A)
| Err (e : E).
Arguments Ok {E A} a.
Arguments Err {E A} e.

Definition Stmt (A : Type) : Type := DB -> result error A * DB.

(** One call of a GORM finisher ([Create], [First], [Find], [Count],
    [Save], [Delete]) on the connection. *)
Definition exec {A : Type} (body : Stmt A) : Stmt A := fun db =>
  match faults db with
  | [] => body db
  | false :: fs => body (set_faults fs db)
  | true :: fs => (Err ErrOther, set_faults fs db)
  end.

(** [ORDER BY id LIMIT 1]: the row with the least key. *)
Fixpoint lowest {A : Type} (id : A -> N) (rows : list A) : option A :=
  match rows with
  | [] => None
  | r :: rest =>
      match lowest id rest with
      | None => Some r
      | Some r' => if (id r <=? id r')%N then Some r else Some r'
      end
  end.

(** [First]: the first row by primary key that meets the conditions, or
    [ErrRecordNotFound]. *)
Definition First {A : Type} (id : A -> N) (cond : A -> bool) (rows : list A)
  : result error A :=
  match lowest id (filter cond rows) with
  | Some r => Ok r
  | None => Err ErrRecordNotFound
  end.

(** [Offset(n)] is dropped from the query unless [n > 0]; [Limit(n)]
    unless [n >= 0]. *)
Definition Offset {A : Type} (n : Z) (rows : list A) : list A :=
  if n >? 0 then skipn (Z.to_nat (Z.min n (Z.of_nat (List.length rows)))) rows
  else rows.
Definition Limit {A : Type} (n : Z) (rows : list A) : list A :=
  if n >=? 0 then firstn (Z.to_nat (Z.min n (Z.of_nat (List.length rows)))) rows
  else rows.

End Gorm.
Import Gorm.

(** ** internal/repository: users

    Every query on a model with a [DeletedAt] column carries
    [deleted_at IS NULL]; [Delete] on such a model is an [UPDATE] of that
    column. *)

Module UserRepository.
Import User.

Definition live (u : User.t) : bool :=
  match DeletedAt u with None => true | Some _ => false end.

(** [autoCreateTime] / [autoUpdateTime] on insert: a zero time is replaced
    by the current time. *)
Definition stamp (now t : Time) : Time := if (t =? 0)%N then now else t.

(** The [enabled] column has [default:true]: GORM leaves a zero-valued
    field with a default out of the [INSERT], the column default applies
    and is read back into the struct. *)
Definition enabled_on_insert (b : bool) : bool := if b then true else true.

Definition email_taken (id : uint) (email : string) (rows : list User.t) : bool :=
  existsb (fun r => negb (ID r =? id)%N && (Email r =? email)%string) rows.

(** [db.Create(user)]: a zero [ID] takes the next value of the sequence
    (consumed even when the insert fails); the primary key and the unique
    index on [email] range over all rows, soft-deleted ones included. *)
Definition Create (user : User.t) : Stmt User.t := exec (fun db =>
  let fresh := (ID user =? 0)%N in
  let id := if fresh then users_id_seq db else ID user in
  let db := if fresh then set_users_id_seq (N.succ (users_id_seq db)) db else db in
  if existsb (fun r => (ID r =? id)%N) (users db)
     || existsb (fun r => (Email r =? Email user)%string) (users db)
  then (Err ErrUniqueViolation, db)
  else
    let now := clock db in
    let row := mk id (Name user) (Email user) (enabled_on_insert (Enabled user))
                  (stamp now (CreatedAt user)) (stamp now (UpdatedAt user))
                  (DeletedAt user) (LastLogin user) in
    (Ok row, tick (set_users (users db ++ [row]) db))).

(** [Preload("FeatureFlags")] fills the association slice of the struct,
    which is no column of the row and which the services never read. *)
Definition GetByID (id : uint) : Stmt User.t := exec (fun db =>
  (First ID (fun r => (ID r =? id)%N && live r) (users db), db)).

Definition GetByEmail (email : string) : Stmt User.t := exec (fun db =>
  (First ID (fun r => (Email r =? email)%string && live r) (users db), db)).

(** [Count] then [Limit(limit).Offset(offset).Find]: two calls. *)
Definition GetAll (limit offset : Z) : Stmt (list User.t * Z) := fun db =>
  match exec (fun db =>
          (Ok (Z.of_nat (List.length (filter live (users db)))), db)) db with
  | (Err err, db) => (Err err, db)
  | (Ok total, db) =>
      exec (fun db =>
        (Ok (Limit limit (Offset offset (filter live (users db))), total), db)) db
  end.

(** [db.Save(user)]: with a zero key it is [Create]; otherwise an [UPDATE]
    of every column of the live row with that key, [updated_at] set to the
    current time; when no row was updated GORM retries with
    [INSERT ... ON CONFLICT (id) DO UPDATE], which leaves [created_at] of
    an existing row alone. *)
Definition Update (user : User.t) : Stmt User.t :=
  if (ID user =? 0)%N then Create user
  else exec (fun db =>
    let now := clock db in
    let row := mk (ID user) (Name user) (Email user) (Enabled user)
                  (CreatedAt user) now (DeletedAt user) (LastLogin user) in
    let hit r := (ID r =? ID user)%N && live r in
    if email_taken (ID user) (Email user) (users db)
    then (Err ErrUniqueViolation, db)
    else if existsb hit (users db) then
      (Ok row, tick (set_users (map (fun r => if hit r then row else r) (users db)) db))
    else if existsb (fun r => (ID r =? ID user)%N) (users db) then
      (Ok row,
       tick (set_users
               (map (fun r =>
                       if (ID r =? ID user)%N
                       then mk (ID user) (Name user) (Email user) (Enabled user)
                               (CreatedAt r) now (DeletedAt user) (LastLogin user)
                       else r) (users db)) db))
    else
      let row := mk (ID user) (Name user) (Email user)
                    (enabled_on_insert (Enabled user))
                    (stamp now (CreatedAt user)) now
                    (DeletedAt user) (LastLogin user) in
      (Ok row, tick (set_users (users db ++ [row]) db))).

(** [db.Delete(&model.User{}, id)]:
    [UPDATE users SET deleted_at = now WHERE id = ? AND deleted_at IS NULL].
    No row leaves the table, so no [ON DELETE] action fires. *)
Definition Delete (id : uint) : Stmt unit := exec (fun db =>
  let now := clock db in
  (Ok tt,
   tick (set_users
           (map (fun r =>
                   if (ID r =? id)%N && live r
                   then mk (ID r) (Name r) (Email r) (Enabled r) (CreatedAt r)
                           (UpdatedAt r) (Some now) (LastLogin r)
                   else r) (users db)) db))).

End UserRepository.

(** ** internal/repository: feature flags *)

Module FeatureFlagRepository.
Import FeatureFlag.

Definition live (f : FeatureFlag.t) : bool :=
  match DeletedAt f with None => true | Some _ => false end.

Definition stamp (now t : Time) : Time := if (t =? 0)%N then now else t.

(** [default:false]: the column default of an omitted zero value is the
    zero value. *)
Definition enabled_on_insert (b : bool) : bool := if b then true else false.

Definition key_taken (id : uint) (key : string) (rows : list FeatureFlag.t) : bool :=
  existsb (fun r => negb (ID r =? id)%N && (Key r =? key)%string) rows.

Definition Create (flag : FeatureFlag.t) : Stmt FeatureFlag.t := exec (fun db =>
  let fresh := (ID flag =? 0)%N in
  let id := if fresh then feature_flags_id_seq db else ID flag in
  let db := if fresh
            then set_feature_flags_id_seq (N.succ (feature_flags_id_seq db)) db
            else db in
  if existsb (fun r => (ID r =? id)%N) (feature_flags db)
     || existsb (fun r => (Key r =? Key flag)%string) (feature_flags db)
  then (Err ErrUniqueViolation, db)
  else
    let now := clock db in
    let row := mk id (Key flag) (Description flag) (enabled_on_insert (Enabled flag))
                  (stamp now (CreatedAt flag)) (stamp now (UpdatedAt flag))
                  (DeletedAt flag) in
    (Ok row, tick (set_feature_flags (feature_flags db ++ [row]) db))).

Definition GetByID (id : uint) : Stmt FeatureFlag.t := exec (fun db =>
  (First ID (fun r => (ID r =? id)%N && live r) (feature_flags db), db)).

Definition GetByKey (key : string) : Stmt FeatureFlag.t := exec (fun db =>
  (First ID (fun r => (Key r =? key)%string && live r) (feature_flags db), db)).

Definition GetAll (limit offset : Z) : Stmt (list FeatureFlag.t * Z) := fun db =>
  match exec (fun db =>
          (Ok (Z.of_nat (List.length (filter live (feature_flags db)))), db)) db with
  | (Err err, db) => (Err err, db)
  | (Ok total, db) =>
      exec (fun db =>
        (Ok (Limit limit (Offset offset (filter live (feature_flags db))), total),
         db)) db
  end.

Definition Update (flag : FeatureFlag.t) : Stmt FeatureFlag.t :=
  if (ID flag =? 0)%N then Create flag
  else exec (fun db =>
    let now := clock db in
    let row := mk (ID flag) (Key flag) (Description flag) (Enabled flag)
                  (CreatedAt flag) now (DeletedAt flag) in
    let hit r := (ID r =? ID flag)%N && live r in
    if key_taken (ID flag) (Key flag) (feature_flags db)
    then (Err ErrUniqueViolation, db)
    else if existsb hit (feature_flags db) then
      (Ok row,
       tick (set_feature_flags
               (map (fun r => if hit r then row else r) (feature_flags db)) db))
    else if existsb (fun r => (ID r =? ID flag)%N) (feature_flags db) then
      (Ok row,
       tick (set_feature_flags
               (map (fun r =>
                       if (ID r =? ID flag)%N
                       then mk (ID flag) (Key flag) (Description flag) (Enabled flag)
                               (CreatedAt r) now (DeletedAt flag)
                       else r) (feature_flags db)) db))
    else
      let row := mk (ID flag) (Key flag) (Description flag)
                    (enabled_on_insert (Enabled flag))
                    (stamp now (CreatedAt flag)) now (DeletedAt flag) in
      (Ok row, tick (set_feature_flags (feature_flags db ++ [row]) db))).

Definition Delete (id : uint) : Stmt unit := exec (fun db =>
  let now := clock db in
  (Ok tt,
   tick (set_feature_flags
           (map (fun r =>
                   if (ID r =? id)%N && live r
                   then mk (ID r) (Key r) (Description r) (Enabled r) (CreatedAt r)
                           (UpdatedAt r) (Some now)
                   else r) (feature_flags db)) db))).

End FeatureFlagRepository.

(** ** internal/repository: assignments

    [user_feature_flags] has no [DeletedAt] column: its rows are inserted
    and deleted for real.  The composite primary key rejects a second row
    for a pair, the foreign keys reject a row whose user or flag row is
    not in its table. *)

Module UserFeatureFlagRepository.
Import UserFeatureFlag.

Definition is_pair (userID featureFlagID : uint) (r : UserFeatureFlag.t) : bool :=
  (UserID r =? userID)%N && (FeatureFlagID r =? featureFlagID)%N.

Definition AssignFeatureFlagToUser (userID featureFlagID : uint) : Stmt unit :=
  exec (fun db =>
    if existsb (is_pair userID featureFlagID) (user_feature_flags db)
    then (Err ErrUniqueViolation, db)
    else if negb (existsb (fun u => (User.ID u =? userID)%N) (users db))
            || negb (existsb (fun f => (FeatureFlag.ID f =? featureFlagID)%N)
                             (feature_flags db))
    then (Err ErrForeignKeyViolation, db)
    else
      let assignment := mk userID featureFlagID (clock db) in
      (Ok tt,
       tick (set_user_feature_flags (user_feature_flags db ++ [assignment]) db))).

Definition UnassignFeatureFlagFromUser (userID featureFlagID : uint) : Stmt unit :=
  exec (fun db =>
    (Ok tt,
     set_user_feature_flags
       (filter (fun r => negb (is_pair userID featureFlagID r))
               (user_feature_flags db)) db)).

(** The join of [feature_flags] with the assignment rows of the user; the
    flag model adds [feature_flags.deleted_at IS NULL]. *)
Definition GetUserFeatureFlags (userID : uint) : Stmt (list FeatureFlag.t) :=
  exec (fun db =>
    (Ok (flat_map
           (fun f =>
              map (fun _ => f)
                  (filter (is_pair userID (FeatureFlag.ID f)) (user_feature_flags db)))
           (filter FeatureFlagRepository.live (feature_flags db))),
     db)).

Definition GetFeatureFlagUsers (featureFlagID : uint) : Stmt (list User.t) :=
  exec (fun db =>
    (Ok (flat_map
           (fun u =>
              map (fun _ => u)
                  (filter (is_pair (User.ID u) featureFlagID) (user_feature_flags db)))
           (filter UserRepository.live (users db))),
     db)).

Definition IsFeatureFlagAssignedToUser (userID featureFlagID : uint) : Stmt bool :=
  exec (fun db =>
    let count :=
      Z.of_nat (List.length (filter (is_pair userID featureFlagID)
                                    (user_feature_flags db))) in
    (Ok (count >? 0), db)).

End UserFeatureFlagRepository.

(** ** internal/service

    [errors.New(msg)] and [fmt.Errorf(msg + ": %w", err)] are the two
    shapes of error the services return.  A service call maps the store to
    a result and the store after it. *)

Module Service.
Import Dto.

Inductive error :=
| New (msg : string)
| Errorf (msg : string) (err : Gorm.error).

Definition Svc (A : Type) : Type := DB -> result error A * DB.

Definition toFeatureFlagResponse (flag : FeatureFlag.t) : FeatureFlagResponse.t :=
  FeatureFlagResponse.mk
    (FeatureFlag.ID flag) (FeatureFlag.Key flag) (FeatureFlag.Description flag)
    (FeatureFlag.Enabled flag) (FeatureFlag.CreatedAt flag)
    (FeatureFlag.UpdatedAt flag).

Definition toUserResponse (user : User.t) : UserResponse.t :=
  let lastLogin :=
    match User.LastLogin user with
    | Some t => Some t
    | None => None
    end in
  UserResponse.mk
    (User.ID user) (User.Name user) (User.Email user) (User.Enabled user)
    (User.CreatedAt user) (User.UpdatedAt user) lastLogin.

(** *** featureFlagService *)

Definition CreateFeatureFlag (req : CreateFeatureFlagRequest.t)
  : Svc FeatureFlagResponse.t := fun db =>
  let (existingFlag, db) :=
    FeatureFlagRepository.GetByKey (CreateFeatureFlagRequest.Key req) db in
  match existingFlag with
  | Ok _ => (Err (New "feature flag key already exists"), db)
  | Err _ =>
      let flag :=
        FeatureFlag.mk 0%N (CreateFeatureFlagRequest.Key req)
          (CreateFeatureFlagRequest.Description req)
          (CreateFeatureFlagRequest.Enabled req) 0%N 0%N None in
      match FeatureFlagRepository.Create flag db with
      | (Err err, db) => (Err (Errorf "failed to create feature flag" err), db)
      | (Ok flag, db) => (Ok (toFeatureFlagResponse flag), db)
      end
  end.

Definition GetFeatureFlag (id : uint) : Svc FeatureFlagResponse.t := fun db =>
  match FeatureFlagRepository.GetByID id db with
  | (Err ErrRecordNotFound, db) => (Err (New "feature flag not found"), db)
  | (Err err, db) => (Err (Errorf "failed to get feature flag" err), db)
  | (Ok flag, db) => (Ok (toFeatureFlagResponse flag), db)
  end.

Definition GetFeatureFlagByKey (key : string) : Svc FeatureFlagResponse.t := fun db =>
  match FeatureFlagRepository.GetByKey key db with
  | (Err ErrRecordNotFound, db) => (Err (New "feature flag not found"), db)
  | (Err err, db) => (Err (Errorf "failed to get feature flag" err), db)
  | (Ok flag, db) => (Ok (toFeatureFlagResponse flag), db)
  end.

(** The arguments of [GetAll] are evaluated left to right: [GetLimit]
    first, then [GetOffset], both on the caller's [pagination]. *)
Definition GetFeatureFlags (pagination : PaginationParams)
  : Svc FeatureFlagListResponse.t := fun db =>
  let (limit, pagination) := GetLimit pagination in
  let (offset, pagination) := GetOffset pagination in
  match FeatureFlagRepository.GetAll limit offset db with
  | (Err err, db) => (Err (Errorf "failed to get feature flags" err), db)
  | (Ok (flags, total), db) =>
      (Ok (FeatureFlagListResponse.mk
             (map toFeatureFlagResponse flags) total
             (Page pagination) (PageSize pagination)
             (CalculateTotalPages total (PageSize pagination))), db)
  end.

Definition UpdateFeatureFlag (id : uint) (req : UpdateFeatureFlagRequest.t)
  : Svc FeatureFlagResponse.t := fun db =>
  match FeatureFlagRepository.GetByID id db with
  | (Err ErrRecordNotFound, db) => (Err (New "feature flag not found"), db)
  | (Err err, db) => (Err (Errorf "failed to get feature flag" err), db)
  | (Ok flag, db) =>
      let flag :=
        match UpdateFeatureFlagRequest.Description req with
        | Some d =>
            FeatureFlag.mk (FeatureFlag.ID flag) (FeatureFlag.Key flag) d
              (FeatureFlag.Enabled flag) (FeatureFlag.CreatedAt flag)
              (FeatureFlag.UpdatedAt flag) (FeatureFlag.DeletedAt flag)
        | None => flag
        end in
      let flag :=
        match UpdateFeatureFlagRequest.Enabled req with
        | Some e =>
            FeatureFlag.mk (FeatureFlag.ID flag) (FeatureFlag.Key flag)
              (FeatureFlag.Description flag) e (FeatureFlag.CreatedAt flag)
              (FeatureFlag.UpdatedAt flag) (FeatureFlag.DeletedAt flag)
        | None => flag
        end in
      match FeatureFlagRepository.Update flag db with
      | (Err err, db) => (Err (Errorf "failed to update feature flag" err), db)
      | (Ok flag, db) => (Ok (toFeatureFlagResponse flag), db)
      end
  end.

Definition DeleteFeatureFlag (id : uint) : Svc unit := fun db =>
  match FeatureFlagRepository.GetByID id db with
  | (Err ErrRecordNotFound, db) => (Err (New "feature flag not found"), db)
  | (Err err, db) => (Err (Errorf "failed to get feature flag" err), db)
  | (Ok _, db) =>
      match FeatureFlagRepository.Delete id db with
      | (Err err, db) => (Err (Errorf "failed to delete feature flag" err), db)
      | (Ok _, db) => (Ok tt, db)
      end
  end.

(** *** userService *)

Definition CreateUser (req : CreateUserRequest.t) : Svc UserResponse.t := fun db =>
  let (existingUser, db) :=
    UserRepository.GetByEmail (CreateUserRequest.Email req) db in
  match existingUser with
  | Ok _ => (Err (New "email already exists"), db)
  | Err _ =>
      let user :=
        User.mk 0%N (CreateUserRequest.Name req) (CreateUserRequest.Email req)
          (CreateUserRequest.Enabled req) 0%N 0%N None None in
      match UserRepository.Create user db with
      | (Err err, db) => (Err (Errorf "failed to create user" err), db)
      | (Ok user, db) => (Ok (toUserResponse user), db)
      end
  end.

Definition GetUser (id : uint) : Svc UserResponse.t := fun db =>
  match UserRepository.GetByID id db with
  | (Err ErrRecordNotFound, db) => (Err (New "user not found"), db)
  | (Err err, db) => (Err (Errorf "failed to get user" err), db)
  | (Ok user, db) => (Ok (toUserResponse user), db)
  end.

Definition GetUsers (pagination : PaginationParams) : Svc UserListResponse.t :=
  fun db =>
  let (limit, pagination) := GetLimit pagination in
  let (offset, pagination) := GetOffset pagination in
  match UserRepository.GetAll limit offset db with
  | (Err err, db) => (Err (Errorf "failed to get users" err), db)
  | (Ok (users, total), db) =>
      (Ok (UserListResponse.mk
             (map toUserResponse users) total
             (Page pagination) (PageSize pagination)
             (CalculateTotalPages total (PageSize pagination))), db)
  end.

Definition set_Name (v : string) (user : User.t) : User.t :=
  User.mk (User.ID user) v (User.Email user) (User.Enabled user)
    (User.CreatedAt user) (User.UpdatedAt user) (User.DeletedAt user)
    (User.LastLogin user).
Definition set_Email (v : string) (user : User.t) : User.t :=
  User.mk (User.ID user) (User.Name user) v (User.Enabled user)
    (User.CreatedAt user) (User.UpdatedAt user) (User.DeletedAt user)
    (User.LastLogin user).
Definition set_Enabled (v : bool) (user : User.t) : User.t :=
  User.mk (User.ID user) (User.Name user) (User.Email user) v
    (User.CreatedAt user) (User.UpdatedAt user) (User.DeletedAt user)
    (User.LastLogin user).

(** The tail of [UpdateUser] after the email step. *)
Definition UpdateUser_save (req : UpdateUserRequest.t) (user : User.t)
  : Svc UserResponse.t := fun db =>
  let user :=
    match UpdateUserRequest.Enabled req with
    | Some e => set_Enabled e user
    | None => user
    end in
  match UserRepository.Update user db with
  | (Err err, db) => (Err (Errorf "failed to update user" err), db)
  | (Ok user, db) => (Ok (toUserResponse user), db)
  end.

Definition UpdateUser (id : uint) (req : UpdateUserRequest.t)
  : Svc UserResponse.t := fun db =>
  match UserRepository.GetByID id db with
  | (Err ErrRecordNotFound, db) => (Err (New "user not found"), db)
  | (Err err, db) => (Err (Errorf "failed to get user" err), db)
  | (Ok user, db) =>
      let user :=
        match UpdateUserRequest.Name req with
        | Some n => set_Name n user
        | None => user
        end in
      match UpdateUserRequest.Email req with
      | Some email =>
          let (existingUser, db) := UserRepository.GetByEmail email db in
          let taken :=
            match existingUser with
            | Ok existingUser => negb (User.ID existingUser =? id)%N
            | Err _ => false
            end in
          if taken then (Err (New "email already exists"), db)
          else UpdateUser_save req (set_Email email user) db
      | None => UpdateUser_save req user db
      end
  end.

Definition DeleteUser (id : uint) : Svc unit := fun db =>
  match UserRepository.GetByID id db with
  | (Err ErrRecordNotFound, db) => (Err (New "user not found"), db)
  | (Err err, db) => (Err (Errorf "failed to get user" err), db)
  | (Ok _, db) =>
      match UserRepository.Delete id db with
      | (Err err, db) => (Err (Errorf "failed to delete user" err), db)
      | (Ok _, db) => (Ok tt, db)
      end
  end.

Definition GetUserFeatureFlags (userID : uint)
  : Svc (list FeatureFlagResponse.t) := fun db =>
  match UserRepository.GetByID userID db with
  | (Err ErrRecordNotFound, db) => (Err (New "user not found"), db)
  | (Err err, db) => (Err (Errorf "failed to get user" err), db)
  | (Ok _, db) =>
      match UserFeatureFlagRepository.GetUserFeatureFlags userID db with
      | (Err err, db) => (Err (Errorf "failed to get user feature flags" err), db)
      | (Ok flags, db) =>
          (Ok (map (fun flag =>
                      FeatureFlagResponse.mk
                        (FeatureFlag.ID flag) (FeatureFlag.Key flag)
                        (FeatureFlag.Description flag) (FeatureFlag.Enabled flag)
                        (FeatureFlag.CreatedAt flag) (FeatureFlag.UpdatedAt flag))
                   flags), db)
      end
  end.

Definition AssignFeatureFlagToUser (userID : uint) (featureFlagKey : string)
  : Svc unit := fun db =>
  match UserRepository.GetByID userID db with
  | (Err ErrRecordNotFound, db) => (Err (New "user not found"), db)
  | (Err err, db) => (Err (Errorf "failed to get user" err), db)
  | (Ok _, db) =>
      match FeatureFlagRepository.GetByKey featureFlagKey db with
      | (Err ErrRecordNotFound, db) => (Err (New "feature flag not found"), db)
      | (Err err, db) => (Err (Errorf "failed to get feature flag" err), db)
      | (Ok flag, db) =>
          match UserFeatureFlagRepository.IsFeatureFlagAssignedToUser
                  userID (FeatureFlag.ID flag) db with
          | (Err err, db) => (Err (Errorf "failed to check assignment" err), db)
          | (Ok true, db) =>
              (Err (New "feature flag already assigned to user"), db)
          | (Ok false, db) =>
              match UserFeatureFlagRepository.AssignFeatureFlagToUser
                      userID (FeatureFlag.ID flag) db with
              | (Err err, db) =>
                  (Err (Errorf "failed to assign feature flag" err), db)
              | (Ok _, db) => (Ok tt, db)
              end
          end
      end
  end.

Definition UnassignFeatureFlagFromUser (userID : uint) (featureFlagKey : string)
  : Svc unit := fun db =>
  match UserRepository.GetByID userID db with
  | (Err ErrRecordNotFound, db) => (Err (New "user not found"), db)
  | (Err err, db) => (Err (Errorf "failed to get user" err), db)
  | (Ok _, db) =>
      match FeatureFlagRepository.GetByKey featureFlagKey db with
      | (Err ErrRecordNotFound, db) => (Err (New "feature flag not found"), db)
      | (Err err, db) => (Err (Errorf "failed to get feature flag" err), db)
      | (Ok flag, db) =>
          match UserFeatureFlagRepository.UnassignFeatureFlagFromUser
                  userID (FeatureFlag.ID flag) db with
          | (Err err, db) =>
              (Err (Errorf "failed to unassign feature flag" err), db)
          | (Ok _, db) => (Ok tt, db)
          end
      end
  end.

End Service.

(** ** Vocabulary of the specification *)

(** A user or flag exists when its row is in the table and not
    soft-deleted. *)
Definition user_exists (id : uint) (db : DB) : bool :=
  existsb (fun r => (User.ID r =? id)%N && UserRepository.live r) (users db).
Definition flag_exists (id : uint) (db : DB) : bool :=
  existsb (fun r => (FeatureFlag.ID r =? id)%N && FeatureFlagRepository.live r)
          (feature_flags db).

(** The email is held by a non-deleted user; by any row of the table. *)
Definition email_in_use (email : string) (db : DB) : bool :=
  existsb (fun r => (User.Email r =? email)%string && UserRepository.live r)
          (users db).
Definition email_on_record (email : string) (db : DB) : bool :=
  existsb (fun r => (User.Email r =? email)%string) (users db).

Definition key_in_use (key : string) (db : DB) : bool :=
  existsb (fun r => (FeatureFlag.Key r =? key)%string && FeatureFlagRepository.live r)
          (feature_flags db).
Definition key_on_record (key : string) (db : DB) : bool :=
  existsb (fun r => (FeatureFlag.Key r =? key)%string) (feature_flags db).

(** The assignment relation holds the pair. *)
Definition isAssigned (userID featureFlagID : uint) (db : DB) : bool :=
  existsb (UserFeatureFlagRepository.is_pair userID featureFlagID)
          (user_feature_flags db).

(** The row of a user or flag is in its table, soft-deleted or not. *)
Definition user_row_present (id : uint) (db : DB) : bool :=
  existsb (fun u => (User.ID u =? id)%N) (users db).
Definition flag_row_present (id : uint) (db : DB) : bool :=
  existsb (fun f => (FeatureFlag.ID f =? id)%N) (feature_flags db).

(** The domain error kinds. *)
Definition UserNotFound : Service.error := Service.New "user not found".
Definition FeatureFlagNotFound : Service.error := Service.New "feature flag not found".
Definition EmailAlreadyExists : Service.error := Service.New "email already exists".
Definition KeyAlreadyExists : Service.error :=
  Service.New "feature flag key already exists".
Definition AlreadyAssigned : Service.error :=
  Service.New "feature flag already assigned to user".

(** What [UpdateUser] makes of a stored user: the fields of the payload
    that are present, [updated_at] from the clock, everything else kept. *)
Definition apply_update (req : Dto.UpdateUserRequest.t) (now : Time) (u : User.t)
  : User.t :=
  User.mk (User.ID u)
    (match Dto.UpdateUserRequest.Name req with Some n => n | None => User.Name u end)
    (match Dto.UpdateUserRequest.Email req with Some e => e | None => User.Email u end)
    (match Dto.UpdateUserRequest.Enabled req with Some b => b | None => User.Enabled u end)
    (User.CreatedAt u) now (User.DeletedAt u) (User.LastLogin u).

(** ** Reachable states: any sequence of service calls on a fresh store *)

Inductive Op :=
| OpCreateUser (req : Dto.CreateUserRequest.t)
| OpGetUser (id : uint)
| OpGetUsers (pagination : Dto.PaginationParams)
| OpUpdateUser (id : uint) (req : Dto.UpdateUserRequest.t)
| OpDeleteUser (id : uint)
| OpGetUserFeatureFlags (userID : uint)
| OpAssignFeatureFlagToUser (userID : uint) (featureFlagKey : string)
| OpUnassignFeatureFlagFromUser (userID : uint) (featureFlagKey : string)
| OpCreateFeatureFlag (req : Dto.CreateFeatureFlagRequest.t)
| OpGetFeatureFlag (id : uint)
| OpGetFeatureFlagByKey (key : string)
| OpGetFeatureFlags (pagination : Dto.PaginationParams)
| OpUpdateFeatureFlag (id : uint) (req : Dto.UpdateFeatureFlagRequest.t)
| OpDeleteFeatureFlag (id : uint).

Definition run (op : Op) (db : DB) : DB :=
  match op with
  | OpCreateUser req => snd (Service.CreateUser req db)
  | OpGetUser id => snd (Service.GetUser id db)
  | OpGetUsers p => snd (Service.GetUsers p db)
  | OpUpdateUser id req => snd (Service.UpdateUser id req db)
  | OpDeleteUser id => snd (Service.DeleteUser id db)
  | OpGetUserFeatureFlags id => snd (Service.GetUserFeatureFlags id db)
  | OpAssignFeatureFlagToUser id key => snd (Service.AssignFeatureFlagToUser id key db)
  | OpUnassignFeatureFlagFromUser id key =>
      snd (Service.UnassignFeatureFlagFromUser id key db)
  | OpCreateFeatureFlag req => snd (Service.CreateFeatureFlag req db)
  | OpGetFeatureFlag id => snd (Service.GetFeatureFlag id db)
  | OpGetFeatureFlagByKey key => snd (Service.GetFeatureFlagByKey key db)
  | OpGetFeatureFlags p => snd (Service.GetFeatureFlags p db)
  | OpUpdateFeatureFlag id req => snd (Service.UpdateFeatureFlag id req db)
  | OpDeleteFeatureFlag id => snd (Service.DeleteFeatureFlag id db)
  end.

Inductive reachable : DB -> Prop :=
| reach_init (fs : list bool) : reachable (empty_db fs)
| reach_step (op : Op) (db : DB) : reachable db -> reachable (run op db).

(** ** The schema's constraints as a state invariant

    A table with a [SERIAL] primary key and a unique index on one more
    column: keys are distinct, positive and below the sequence, and two
    rows with the same indexed value are the same row. *)

Section Table.
Context {A : Type} (id : A -> N) (key : A -> string).

Record table_ok (seq : N) (rows : list A) : Prop := {
  pkey : NoDup (map id rows);
  unique_key :
    forall r1 r2, In r1 rows -> In r2 rows -> key r1 = key r2 -> id r1 = id r2;
  serial : forall r, In r rows -> (0 < id r < seq)%N;
  seq_pos : (0 < seq)%N }.
End Table.

Record consistent (db : DB) : Prop := {
  users_ok : table_ok User.ID User.Email (users_id_seq db) (users db);
  feature_flags_ok :
    table_ok FeatureFlag.ID FeatureFlag.Key (feature_flags_id_seq db)
             (feature_flags db);
  user_feature_flags_pkey :
    NoDup (map (fun r => (UserFeatureFlag.UserID r, UserFeatureFlag.FeatureFlagID r))
               (user_feature_flags db));
  user_feature_flags_fkeys :
    forall r, In r (user_feature_flags db) ->
              user_row_present (UserFeatureFlag.UserID r) db = true /\
              flag_row_present (UserFeatureFlag.FeatureFlagID r) db = true }.

(** Integer ceiling of [a / b] for [b > 0]: the least [n] with
    [a <= n * b]. *)
Definition is_ceil_div (a b n : Z) : Prop := a <= n * b < a + b.

(** The page and page size the specification calls effective. *)
Definition effective_page (page : Z) : Z := if page <? 1 then 1 else page.
Definition effective_page_size (page_size : Z) : Z :=
  if page_size <? 1 then 10 else if page_size >? 100 then 100 else page_size.

(** A store with one soft-deleted user and one live user, and one with a
    soft-deleted flag; a store where a deleted user still has its
    assignment row. *)
Definition ann : Dto.CreateUserRequest.t :=
  Dto.CreateUserRequest.mk "Ann" "ann@x.com" true.
Definition bob : Dto.CreateUserRequest.t :=
  Dto.CreateUserRequest.mk "Bob" "bob@x.com" true.
Definition beta : Dto.CreateFeatureFlagRequest.t :=
  Dto.CreateFeatureFlagRequest.mk "beta" "" false.

Definition db_ann : DB := run (OpCreateUser ann) (empty_db []).
Definition db_ann_beta : DB := run (OpCreateFeatureFlag beta) db_ann.
Definition db_assigned : DB :=
  run (OpAssignFeatureFlagToUser 1%N "beta") db_ann_beta.
Definition db_ann_deleted : DB := run (OpDeleteUser 1%N) db_assigned.
Definition db_ann_deleted_bob : DB := run (OpCreateUser bob) db_ann_deleted.
Definition db_beta_deleted : DB := run (OpDeleteFeatureFlag 1%N) db_assigned.

(** ** strconv.ParseUint(s, 10, 32)

    The loop of the standard library on the bytes of [s]: an empty string
    and a byte that is no decimal digit are syntax errors, a value above
    [1<<32 - 1] is a range error; the handlers only test [err != nil]. *)

Definition maxUint32 : N := 4294967295%N.

Fixpoint ParseUint_loop (s : string) (n : N) : option N :=
  match s with
  | EmptyString => Some n
  | String c rest =>
      let code := Ascii.N_of_ascii c in
      if (48 <=? code)%N && (code <=? 57)%N then
        let n1 := (n * 10 + (code - 48))%N in
        if (maxUint32 <? n1)%N then None else ParseUint_loop rest n1
      else None
  end.

Definition ParseUint (s : string) : option N :=
  match s with
  | EmptyString => None
  | _ => ParseUint_loop s 0%N
  end.

(** The decimal reading of a string of digits, for stating what
    [ParseUint] accepts. *)
Definition is_digit (c : Ascii.ascii) : bool :=
  (48 <=? Ascii.N_of_ascii c)%N && (Ascii.N_of_ascii c <=? 57)%N.

Fixpoint all_digits (s : string) : bool :=
  match s with
  | EmptyString => true
  | String c rest => is_digit c && all_digits rest
  end.

Fixpoint decimal_from (s : string) (n : N) : N :=
  match s with
  | EmptyString => n
  | String c rest => decimal_from rest (n * 10 + (Ascii.N_of_ascii c - 48))%N
  end.

Definition decimal_value (s : string) : N := decimal_from s 0%N.

(** ** internal/handler

    A handler maps the request data it reads (path parameters, the outcome
    of gin's binding of the body or query) and the store to the JSON
    response it writes and the store after the call.  Logging is left out.
    [err.Error()] of a wrapped error is the service's prefix, [": "] and
    the text of the store error, which the driver chooses: the handlers are
    parametric in that text. *)

Module ErrorResponse.
Record t := mk { Error : string; Message : string }.
End ErrorResponse.

Module SuccessResponse.
Record t := mk { Message : string }.
End SuccessResponse.

Module Handler.
Import Dto.

Inductive Body :=
| ErrorJSON (e : ErrorResponse.t)
| SuccessJSON (s : SuccessResponse.t)
| UserJSON (u : UserResponse.t)
| UserListJSON (l : UserListResponse.t)
| FeatureFlagJSON (f : FeatureFlagResponse.t)
| FeatureFlagListJSON (l : FeatureFlagListResponse.t)
| FeatureFlagsJSON (fs : list FeatureFlagResponse.t).

Record Response := JSON { Status : Z; Payload : Body }.

Definition StatusOK : Z := 200.
Definition StatusCreated : Z := 201.
Definition StatusBadRequest : Z := 400.
Definition StatusNotFound : Z := 404.
Definition StatusInternalServerError : Z := 500.

Definition fail (status : Z) (code message : string) : Response :=
  JSON status (ErrorJSON (ErrorResponse.mk code message)).

Section Handlers.
Variable driver_text : Gorm.error -> string.

Definition Error (err : Service.error) : string :=
  match err with
  | Service.New msg => msg
  | Service.Errorf msg cause => (msg ++ ": " ++ driver_text cause)%string
  end.

Definition CreateUser (bind : result string CreateUserRequest.t)
  : DB -> Response * DB := fun db =>
  match bind with
  | Err err => (fail StatusBadRequest "invalid_request" err, db)
  | Ok req =>
      match Service.CreateUser req db with
      | (Err err, db) =>
          (fail StatusInternalServerError "creation_failed" (Error err), db)
      | (Ok user, db) => (JSON StatusCreated (UserJSON user), db)
      end
  end.

Definition GetUser (idStr : string) : DB -> Response * DB := fun db =>
  match ParseUint idStr with
  | None => (fail StatusBadRequest "invalid_id" "Invalid user ID", db)
  | Some id =>
      match Service.GetUser id db with
      | (Err err, db) =>
          if (Error err =? "user not found")%string
          then (fail StatusNotFound "not_found" (Error err), db)
          else (fail StatusInternalServerError "retrieval_failed" (Error err), db)
      | (Ok user, db) => (JSON StatusOK (UserJSON user), db)
      end
  end.

Definition set_defaults (pagination : PaginationParams) : PaginationParams :=
  let pagination :=
    if Page pagination =? 0 then mkPagination 1 (PageSize pagination)
    else pagination in
  if PageSize pagination =? 0 then mkPagination (Page pagination) 10
  else pagination.

Definition GetUsers (bind : result string PaginationParams)
  : DB -> Response * DB := fun db =>
  match bind with
  | Err err => (fail StatusBadRequest "invalid_query" err, db)
  | Ok pagination =>
      match Service.GetUsers (set_defaults pagination) db with
      | (Err err, db) =>
          (fail StatusInternalServerError "retrieval_failed" (Error err), db)
      | (Ok users, db) => (JSON StatusOK (UserListJSON users), db)
      end
  end.

Definition UpdateUser (idStr : string) (bind : result string UpdateUserRequest.t)
  : DB -> Response * DB := fun db =>
  match ParseUint idStr with
  | None => (fail StatusBadRequest "invalid_id" "Invalid user ID", db)
  | Some id =>
      match bind with
      | Err err => (fail StatusBadRequest "invalid_request" err, db)
      | Ok req =>
          match Service.UpdateUser id req db with
          | (Err err, db) =>
              if (Error err =? "user not found")%string
              then (fail StatusNotFound "not_found" (Error err), db)
              else (fail StatusInternalServerError "update_failed" (Error err), db)
          | (Ok user, db) => (JSON StatusOK (UserJSON user), db)
          end
      end
  end.

Definition DeleteUser (idStr : string) : DB -> Response * DB := fun db =>
  match ParseUint idStr with
  | None => (fail StatusBadRequest "invalid_id" "Invalid user ID", db)
  | Some id =>
      match Service.DeleteUser id db with
      | (Err err, db) =>
          if (Error err =? "user not found")%string
          then (fail StatusNotFound "not_found" (Error err), db)
          else (fail StatusInternalServerError "deletion_failed" (Error err), db)
      | (Ok _, db) =>
          (JSON StatusOK (SuccessJSON (SuccessResponse.mk "User deleted successfully")),
           db)
      end
  end.

Definition GetUserFeatureFlags (idStr : string) : DB -> Response * DB := fun db =>
  match ParseUint idStr with
  | None => (fail StatusBadRequest "invalid_id" "Invalid user ID", db)
  | Some id =>
      match Service.GetUserFeatureFlags id db with
      | (Err err, db) =>
          if (Error err =? "user not found")%string
          then (fail StatusNotFound "not_found" (Error err), db)
          else (fail StatusInternalServerError "retrieval_failed" (Error err), db)
      | (Ok flags, db) => (JSON StatusOK (FeatureFlagsJSON flags), db)
      end
  end.

Definition AssignFeatureFlagToUser (idStr key : string) : DB -> Response * DB :=
  fun db =>
  match ParseUint idStr with
  | None => (fail StatusBadRequest "invalid_id" "Invalid user ID", db)
  | Some id =>
      if (key =? "")%string
      then (fail StatusBadRequest "invalid_key" "Feature flag key is required", db)
      else
        match Service.AssignFeatureFlagToUser id key db with
        | (Err err, db) =>
            if (Error err =? "user not found")%string
               || (Error err =? "feature flag not found")%string
            then (fail StatusNotFound "not_found" (Error err), db)
            else (fail StatusInternalServerError "assignment_failed" (Error err),
                  db)
        | (Ok _, db) =>
            (JSON StatusOK
               (SuccessJSON (SuccessResponse.mk "Feature flag assigned successfully")),
             db)
        end
  end.

Definition UnassignFeatureFlagFromUser (idStr key : string)
  : DB -> Response * DB := fun db =>
  match ParseUint idStr with
  | None => (fail StatusBadRequest "invalid_id" "Invalid user ID", db)
  | Some id =>
      if (key =? "")%string
      then (fail StatusBadRequest "invalid_key" "Feature flag key is required", db)
      else
        match Service.UnassignFeatureFlagFromUser id key db with
        | (Err err, db) =>
            if (Error err =? "user not found")%string
               || (Error err =? "feature flag not found")%string
            then (fail StatusNotFound "not_found" (Error err), db)
            else (fail StatusInternalServerError "unassignment_failed" (Error err),
                  db)
        | (Ok _, db) =>
            (JSON StatusOK
               (SuccessJSON
                  (SuccessResponse.mk "Feature flag unassigned successfully")),
             db)
        end
  end.

Definition CreateFeatureFlag (bind : result string CreateFeatureFlagRequest.t)
  : DB -> Response * DB := fun db =>
  match bind with
  | Err err => (fail StatusBadRequest "invalid_request" err, db)
  | Ok req =>
      match Service.CreateFeatureFlag req db with
      | (Err err, db) =>
          (fail StatusInternalServerError "creation_failed" (Error err), db)
      | (Ok flag, db) => (JSON StatusCreated (FeatureFlagJSON flag), db)
      end
  end.

Definition GetFeatureFlag (idStr : string) : DB -> Response * DB := fun db =>
  match ParseUint idStr with
  | None => (fail StatusBadRequest "invalid_id" "Invalid feature flag ID", db)
  | Some id =>
      match Service.GetFeatureFlag id db with
      | (Err err, db) =>
          if (Error err =? "feature flag not found")%string
          then (fail StatusNotFound "not_found" (Error err), db)
          else (fail StatusInternalServerError "retrieval_failed" (Error err), db)
      | (Ok flag, db) => (JSON StatusOK (FeatureFlagJSON flag), db)
      end
  end.

Definition GetFeatureFlags (bind : result string PaginationParams)
  : DB -> Response * DB := fun db =>
  match bind with
  | Err err => (fail StatusBadRequest "invalid_query" err, db)
  | Ok pagination =>
      match Service.GetFeatureFlags (set_defaults pagination) db with
      | (Err err, db) =>
          (fail StatusInternalServerError "retrieval_failed" (Error err), db)
      | (Ok flags, db) => (JSON StatusOK (FeatureFlagListJSON flags), db)
      end
  end.

Definition UpdateFeatureFlag
           (idStr : string) (bind : result string UpdateFeatureFlagRequest.t)
  : DB -> Response * DB := fun db =>
  match ParseUint idStr with
  | None => (fail StatusBadRequest "invalid_id" "Invalid feature flag ID", db)
  | Some id =>
      match bind with
      | Err err => (fail StatusBadRequest "invalid_request" err, db)
      | Ok req =>
          match Service.UpdateFeatureFlag id req db with
          | (Err err, db) =>
              if (Error err =? "feature flag not found")%string
              then (fail StatusNotFound "not_found" (Error err), db)
              else (fail StatusInternalServerError "update_failed" (Error err), db)
          | (Ok flag, db) => (JSON StatusOK (FeatureFlagJSON flag), db)
          end
      end
  end.

Definition DeleteFeatureFlag (idStr : string) : DB -> Response * DB := fun db =>
  match ParseUint idStr with
  | None => (fail StatusBadRequest "invalid_id" "Invalid feature flag ID", db)
  | Some id =>
      match Service.DeleteFeatureFlag id db with
      | (Err err, db) =>
          if (Error err =? "feature flag not found")%string
          then (fail StatusNotFound "not_found" (Error err), db)
          else (fail StatusInternalServerError "deletion_failed" (Error err), db)
      | (Ok _, db) =>
          (JSON StatusOK
             (SuccessJSON (SuccessResponse.mk "Feature flag deleted successfully")),
           db)
      end
  end.

End Handlers.
End Handler.

(** ** More vocabulary *)

(** The outcome of a service call as far as the store and the error go. *)
Definition outcome {A : Type} (r : result Service.error A * DB)
  : option Service.error * DB :=
  match r with
  | (Ok _, db) => (None, db)
  | (Err err, db) => (Some err, db)
  end.

Definition call (op : Op) (db : DB) : option Service.error * DB :=
  match op with
  | OpCreateUser req => outcome (Service.CreateUser req db)
  | OpGetUser id => outcome (Service.GetUser id db)
  | OpGetUsers p => outcome (Service.GetUsers p db)
  | OpUpdateUser id req => outcome (Service.UpdateUser id req db)
  | OpDeleteUser id => outcome (Service.DeleteUser id db)
  | OpGetUserFeatureFlags id => outcome (Service.GetUserFeatureFlags id db)
  | OpAssignFeatureFlagToUser id key =>
      outcome (Service.AssignFeatureFlagToUser id key db)
  | OpUnassignFeatureFlagFromUser id key =>
      outcome (Service.UnassignFeatureFlagFromUser id key db)
  | OpCreateFeatureFlag req => outcome (Service.CreateFeatureFlag req db)
  | OpGetFeatureFlag id => outcome (Service.GetFeatureFlag id db)
  | OpGetFeatureFlagByKey key => outcome (Service.GetFeatureFlagByKey key db)
  | OpGetFeatureFlags p => outcome (Service.GetFeatureFlags p db)
  | OpUpdateFeatureFlag id req => outcome (Service.UpdateFeatureFlag id req db)
  | OpDeleteFeatureFlag id => outcome (Service.DeleteFeatureFlag id db)
  end.

(** What [UpdateFeatureFlag] makes of a stored flag. *)
Definition apply_flag_update
           (req : Dto.UpdateFeatureFlagRequest.t) (now : Time) (f : FeatureFlag.t)
  : FeatureFlag.t :=
  FeatureFlag.mk (FeatureFlag.ID f) (FeatureFlag.Key f)
    (match Dto.UpdateFeatureFlagRequest.Description req with
     | Some d => d | None => FeatureFlag.Description f end)
    (match Dto.UpdateFeatureFlagRequest.Enabled req with
     | Some b => b | None => FeatureFlag.Enabled f end)
    (FeatureFlag.CreatedAt f) now (FeatureFlag.DeletedAt f).

(** The rows a read of the model sees. *)
Definition live_users (db : DB) : list User.t :=
  filter UserRepository.live (users db).
Definition live_feature_flags (db : DB) : list FeatureFlag.t :=
  filter FeatureFlagRepository.live (feature_flags db).

(** The row of a user or flag is in its table and soft-deleted. *)
Definition user_deleted (id : uint) (db : DB) : bool :=
  existsb (fun r => (User.ID r =? id)%N && negb (UserRepository.live r)) (users db).
Definition flag_deleted (id : uint) (db : DB) : bool :=
  existsb (fun r => (FeatureFlag.ID r =? id)%N && negb (FeatureFlagRepository.live r))
          (feature_flags db).

(** The byte [':'], which every wrapped error text holds. *)
Definition colon : Ascii.ascii := Ascii.ascii_of_N 58.

(** How a handler answers a service error: 404 [not_found] for the listed
    domain errors, 500 with the handler's own code for every other error;
    the message is the error text either way. *)
Definition answers_error
           (driver_text : Gorm.error -> string) (not_found : list Service.error)
           (code : string) (err : Service.error) (db' : DB)
           (answer : Handler.Response * DB) : Prop :=
  (In err not_found ->
   answer = (Handler.fail 404 "not_found" (Handler.Error driver_text err), db')) /\
  (~ In err not_found ->
   answer = (Handler.fail 500 code (Handler.Error driver_text err), db')).

(** Two stores with the same rows in the three tables; two stores that
    differ at most in the part of the fault schedule already consumed. *)
Definition same_tables (db db' : DB) : Prop :=
  users db' = users db /\ feature_flags db' = feature_flags db /\
  user_feature_flags db' = user_feature_flags db.

Definition unchanged (db db' : DB) : Prop :=
  exists fs, db' = set_faults fs db /\ (faults db = [] -> fs = []).

(** What a later store keeps of a row: its id and creation time (and the
    key of a flag), and the whole row once it is soft-deleted.  A store
    grows into another when every row of [users] and [feature_flags] is
    kept in this sense. *)
Definition user_kept (r r' : User.t) : Prop :=
  User.ID r' = User.ID r /\ User.CreatedAt r' = User.CreatedAt r /\
  (User.DeletedAt r <> None -> r' = r).

Definition flag_kept (r r' : FeatureFlag.t) : Prop :=
  FeatureFlag.ID r' = FeatureFlag.ID r /\ FeatureFlag.Key r' = FeatureFlag.Key r /\
  FeatureFlag.CreatedAt r' = FeatureFlag.CreatedAt r /\
  (FeatureFlag.DeletedAt r <> None -> r' = r).

Definition grows (db db' : DB) : Prop :=
  (forall r, In r (users db) -> exists r', In r' (users db') /\ user_kept r r') /\
  (forall r, In r (feature_flags db) ->
             exists r', In r' (feature_flags db') /\ flag_kept r r').

(** A sequence of service calls. *)
Definition run_all (ops : list Op) (db : DB) : DB :=
  fold_left (fun d op => run op d) ops db.

(** * Facts *)

(** ** Machine integers *)

Lemma wrap_in_range (z : Z) : GoInt.in_range (GoInt.wrap z).
Proof.
  unfold GoInt.in_range, GoInt.wrap, GoInt.min_int, GoInt.max_int.
  pose proof (Z.mod_pos_bound (z + 2 ^ 63) (2 ^ 64) ltac:(lia)). lia.
Qed.

Lemma wrap_small (z : Z) : GoInt.in_range z -> GoInt.wrap z = z.
Proof.
  unfold GoInt.in_range, GoInt.wrap, GoInt.min_int, GoInt.max_int. intros H.
  rewrite Z.mod_small; lia.
Qed.

(** ** Pagination *)

Lemma effective_page_size_bounds (size : Z) :
  1 <= effective_page_size size <= 100.
Proof.
  unfold effective_page_size.
  destruct (size <? 1) eqn:E1; [lia|].
  destruct (size >? 100) eqn:E2; [lia|]. lia.
Qed.

Lemma GetLimit_effective (page size : Z) :
  Dto.GetLimit (Dto.mkPagination page size) =
  (effective_page_size size, Dto.mkPagination page (effective_page_size size)).
Proof.
  unfold Dto.GetLimit, effective_page_size; cbn.
  destruct (size <? 1) eqn:E1; cbn; [reflexivity|].
  destruct (size >? 100) eqn:E2; cbn; reflexivity.
Qed.

Lemma GetOffset_effective (page size : Z) :
  GoInt.in_range page ->
  Dto.GetOffset (Dto.mkPagination page size) =
  (GoInt.wrap ((effective_page page - 1) * effective_page_size size),
   Dto.mkPagination (effective_page page) (effective_page_size size)).
Proof.
  intros Hp.
  assert (Hs : forall q, q = effective_page page -> GoInt.sub q 1 = q - 1).
  { intros q ->. unfold GoInt.sub. apply wrap_small.
    unfold effective_page, GoInt.in_range, GoInt.min_int, GoInt.max_int in *.
    destruct (page <? 1) eqn:E; lia. }
  unfold Dto.GetOffset, GoInt.mul, effective_page, effective_page_size in *.
  cbn [Dto.Page Dto.PageSize].
  destruct (page <? 1) eqn:E0; cbn [Dto.Page Dto.PageSize];
    destruct (size <? 1) eqn:E1; cbn [Dto.Page Dto.PageSize];
    try (destruct (size >? 100) eqn:E2; cbn [Dto.Page Dto.PageSize]);
    rewrite ?E2; try (rewrite Hs by reflexivity); reflexivity.
Qed.

Lemma effective_page_size_idem (size : Z) :
  effective_page_size (effective_page_size size) = effective_page_size size.
Proof.
  pose proof (effective_page_size_bounds size) as H.
  unfold effective_page_size at 1.
  destruct (effective_page_size size <? 1) eqn:E1; [lia|].
  destruct (effective_page_size size >? 100) eqn:E2; [lia|]. reflexivity.
Qed.

Lemma CalculateTotalPages_ceil (total ps : Z) :
  GoInt.in_range total -> 0 < ps ->
  is_ceil_div total ps (Dto.CalculateTotalPages total ps).
Proof.
  intros Ht Hps. unfold Dto.CalculateTotalPages, is_ceil_div.
  destruct (ps =? 0) eqn:E0; [lia|].
  pose proof (Z.quot_rem' total ps) as Hqr.
  assert (Hq : GoInt.quot total ps = Z.quot total ps).
  { unfold GoInt.quot. apply wrap_small.
    unfold GoInt.in_range, GoInt.min_int, GoInt.max_int in *.
    destruct (Z_le_gt_dec 0 total) as [Hnn|Hneg].
    - pose proof (Z.rem_bound_pos total ps Hnn Hps).
      assert (0 <= Z.quot total ps) by (apply Z.quot_pos; lia). nia.
    - pose proof (Z.rem_bound_pos_neg total ps Hps ltac:(lia)).
      assert (Z.quot total ps <= 0) by nia. nia. }
  rewrite Hq. unfold GoInt.rem, GoInt.add.
  destruct (Z.rem total ps >? 0) eqn:Er.
  - assert (Hr : 0 < Z.rem total ps) by lia.
    assert (Hnn : 0 <= total).
    { destruct (Z_le_gt_dec 0 total); [assumption|].
      pose proof (Z.rem_bound_pos_neg total ps Hps ltac:(lia)). lia. }
    pose proof (Z.rem_bound_pos total ps Hnn Hps) as Hb.
    rewrite wrap_small.
    + nia.
    + unfold GoInt.in_range, GoInt.min_int, GoInt.max_int in *.
      assert (0 <= Z.quot total ps) by (apply Z.quot_pos; lia). nia.
  - assert (Hr : Z.rem total ps <= 0) by lia.
    destruct (Z_le_gt_dec 0 total) as [Hnn|Hneg].
    + pose proof (Z.rem_bound_pos total ps Hnn Hps). nia.
    + pose proof (Z.rem_bound_pos_neg total ps Hps ltac:(lia)). nia.
Qed.

Lemma GetUsers_effective (page size : Z) (db : DB) :
  GoInt.in_range page ->
  Service.GetUsers (Dto.mkPagination page size) db =
  match UserRepository.GetAll
          (effective_page_size size)
          (GoInt.wrap ((effective_page page - 1) * effective_page_size size)) db with
  | (Err err, db') => (Err (Service.Errorf "failed to get users" err), db')
  | (Ok (us, n), db') =>
      (Ok (Dto.UserListResponse.mk
             (map Service.toUserResponse us) n
             (effective_page page) (effective_page_size size)
             (Dto.CalculateTotalPages n (effective_page_size size))), db')
  end.
Proof.
  intros Hp. unfold Service.GetUsers.
  rewrite GetLimit_effective, (GetOffset_effective _ _ Hp).
  rewrite effective_page_size_idem. reflexivity.
Qed.

Lemma GetFeatureFlags_effective (page size : Z) (db : DB) :
  GoInt.in_range page ->
  Service.GetFeatureFlags (Dto.mkPagination page size) db =
  match FeatureFlagRepository.GetAll
          (effective_page_size size)
          (GoInt.wrap ((effective_page page - 1) * effective_page_size size)) db with
  | (Err err, db') => (Err (Service.Errorf "failed to get feature flags" err), db')
  | (Ok (fs, n), db') =>
      (Ok (Dto.FeatureFlagListResponse.mk
             (map Service.toFeatureFlagResponse fs) n
             (effective_page page) (effective_page_size size)
             (Dto.CalculateTotalPages n (effective_page_size size))), db')
  end.
Proof.
  intros Hp. unfold Service.GetFeatureFlags.
  rewrite GetLimit_effective, (GetOffset_effective _ _ Hp).
  rewrite effective_page_size_idem. reflexivity.
Qed.

(** C8, as stated, fails: for page 9223372036854775807 and page size 10 the
    product (page - 1) * page_size does not fit Go's [int]; [GetOffset]
    returns -20, not the product of the effective page minus one and the
    effective page size. *)
Lemma C8_offset_wraps_around :
  let p := Dto.mkPagination 9223372036854775807 10 in
  GoInt.in_range (Dto.Page p) /\ GoInt.in_range (Dto.PageSize p) /\
  fst (Dto.GetOffset p) = -20 /\
  fst (Dto.GetOffset p) <>
  (effective_page (Dto.Page p) - 1) * effective_page_size (Dto.PageSize p).
Proof.
  cbv zeta. repeat split; try (vm_compute; congruence).
Qed.

(** C8 (amended): for every [int] page and page size, the effective page
    is 1 when the supplied page is below 1, the effective page size is 10
    when the supplied one is below 1 and 100 when it exceeds 100;
    [GetLimit] returns the effective page size; the offset returned by
    [GetOffset], which [GetUsers] and [GetFeatureFlags] pass to the store,
    is (effective page - 1) * effective page size in 64-bit wrap-around
    arithmetic, hence that product itself whenever it does not exceed the
    largest [int]; the total page count is the ceiling of total divided by
    the effective page size, and 0 for a page size of 0. *)
Theorem C8_pagination_arithmetic (page page_size total : Z) :
  GoInt.in_range page -> GoInt.in_range page_size -> GoInt.in_range total ->
  let p := Dto.mkPagination page page_size in
  let pg := effective_page page in
  let ps := effective_page_size page_size in
  (page < 1 -> pg = 1) /\ (1 <= page -> pg = page) /\
  (page_size < 1 -> ps = 10) /\ (100 < page_size -> ps = 100) /\
  (1 <= page_size <= 100 -> ps = page_size) /\
  Dto.GetLimit p = (ps, Dto.mkPagination page ps) /\
  Dto.GetOffset p = (GoInt.wrap ((pg - 1) * ps), Dto.mkPagination pg ps) /\
  ((pg - 1) * ps <= GoInt.max_int -> fst (Dto.GetOffset p) = (pg - 1) * ps) /\
  (forall db,
     Service.GetUsers p db =
     match UserRepository.GetAll ps (GoInt.wrap ((pg - 1) * ps)) db with
     | (Err err, db') => (Err (Service.Errorf "failed to get users" err), db')
     | (Ok (us, n), db') =>
         (Ok (Dto.UserListResponse.mk (map Service.toUserResponse us) n pg ps
                (Dto.CalculateTotalPages n ps)), db')
     end) /\
  (forall db,
     Service.GetFeatureFlags p db =
     match FeatureFlagRepository.GetAll ps (GoInt.wrap ((pg - 1) * ps)) db with
     | (Err err, db') =>
         (Err (Service.Errorf "failed to get feature flags" err), db')
     | (Ok (fs, n), db') =>
         (Ok (Dto.FeatureFlagListResponse.mk
                (map Service.toFeatureFlagResponse fs) n pg ps
                (Dto.CalculateTotalPages n ps)), db')
     end) /\
  is_ceil_div total ps (Dto.CalculateTotalPages total ps) /\
  Dto.CalculateTotalPages total 0 = 0.
Proof.
  intros Hp Hs Ht p pg ps. subst p pg ps.
  pose proof (effective_page_size_bounds page_size) as Hb.
  repeat match goal with |- _ /\ _ => split end.
  - unfold effective_page. intros H. destruct (page <? 1) eqn:E; lia.
  - unfold effective_page. intros H. destruct (page <? 1) eqn:E; lia.
  - unfold effective_page_size. intros H. destruct (page_size <? 1) eqn:E; lia.
  - unfold effective_page_size. intros H.
    destruct (page_size <? 1) eqn:E; [lia|].
    destruct (page_size >? 100) eqn:E'; lia.
  - unfold effective_page_size. intros H.
    destruct (page_size <? 1) eqn:E; [lia|].
    destruct (page_size >? 100) eqn:E'; lia.
  - apply GetLimit_effective.
  - apply GetOffset_effective, Hp.
  - intros Hfit. rewrite (GetOffset_effective _ _ Hp). cbn [fst].
    apply wrap_small.
    unfold GoInt.in_range, GoInt.min_int, GoInt.max_int in *.
    assert (1 <= effective_page page).
    { unfold effective_page. destruct (page <? 1) eqn:E; lia. }
    nia.
  - intros db. apply GetUsers_effective, Hp.
  - intros db. apply GetFeatureFlags_effective, Hp.
  - apply CalculateTotalPages_ceil; [assumption | lia].
  - reflexivity.
Qed.

Lemma C8_pagination_arithmetic_witness :
  GoInt.in_range 3 /\ GoInt.in_range 10 /\ GoInt.in_range 25 /\
  Dto.GetOffset (Dto.mkPagination 3 10) = (20, Dto.mkPagination 3 10) /\
  is_ceil_div 25 10 (Dto.CalculateTotalPages 25 10).
Proof.
  assert (H3 : GoInt.in_range 3) by (vm_compute; split; discriminate).
  assert (H10 : GoInt.in_range 10) by (vm_compute; split; discriminate).
  assert (H25 : GoInt.in_range 25) by (vm_compute; split; discriminate).
  pose proof (C8_pagination_arithmetic 3 10 25 H3 H10 H25) as H.
  cbv zeta in H.
  destruct H as (_ & _ & _ & _ & _ & _ & Hoff & _ & _ & _ & Hceil & _).
  repeat split; try assumption; try (vm_compute; discriminate).
Defined.

(** ** GORM calls *)

Lemma exec_no_faults {A : Type} (body : Stmt A) (db : DB) :
  faults db = [] -> exec body db = body db.
Proof. intros H. unfold exec. rewrite H. reflexivity. Qed.

Lemma set_faults_same (db : DB) : set_faults (faults db) db = db.
Proof. destruct db; reflexivity. Qed.

Lemma lowest_In {A : Type} (id : A -> N) (rows : list A) (r : A) :
  lowest id rows = Some r -> In r rows.
Proof.
  revert r. induction rows as [|x rest IH]; intros r H; cbn in H.
  - discriminate.
  - destruct (lowest id rest) as [r'|].
    + destruct (id x <=? id r')%N; inversion H; subst; [now left|].
      right. now apply IH.
    + inversion H; now left.
Qed.

Lemma lowest_None {A : Type} (id : A -> N) (rows : list A) :
  lowest id rows = None -> rows = [].
Proof.
  destruct rows as [|x rest]; [reflexivity|]. cbn.
  destruct (lowest id rest) as [r'|]; [|discriminate].
  destruct (id x <=? id r')%N; discriminate.
Qed.

Lemma First_Ok {A : Type} (id : A -> N) (cond : A -> bool) (rows : list A) (r : A) :
  First id cond rows = Ok r -> In r rows /\ cond r = true.
Proof.
  unfold First. destruct (lowest id (filter cond rows)) as [r'|] eqn:E;
    [|discriminate].
  intros H; inversion H; subst. apply lowest_In in E.
  now apply filter_In in E.
Qed.

Lemma First_Err {A : Type} (id : A -> N) (cond : A -> bool) (rows : list A)
      (e : Gorm.error) :
  First id cond rows = Err e -> e = ErrRecordNotFound /\ existsb cond rows = false.
Proof.
  unfold First. destruct (lowest id (filter cond rows)) as [r'|] eqn:E;
    [discriminate|].
  intros H; inversion H; subst. split; [reflexivity|].
  apply lowest_None in E.
  destruct (existsb cond rows) eqn:Ex; [|reflexivity].
  apply existsb_exists in Ex. destruct Ex as (x & Hin & Hc).
  assert (In x (filter cond rows)) by (apply filter_In; auto).
  rewrite E in H0. contradiction.
Qed.

Lemma First_found {A : Type} (id : A -> N) (cond : A -> bool) (rows : list A) :
  existsb cond rows = true -> exists r, First id cond rows = Ok r.
Proof.
  intros Hex. destruct (First id cond rows) as [r|e] eqn:E.
  - now exists r.
  - apply First_Err in E. destruct E as [_ E]. congruence.
Qed.

Lemma First_missing {A : Type} (id : A -> N) (cond : A -> bool) (rows : list A) :
  existsb cond rows = false -> First id cond rows = Err ErrRecordNotFound.
Proof.
  intros Hex. destruct (First id cond rows) as [r|e] eqn:E.
  - apply First_Ok in E. destruct E as [Hin Hc].
    assert (existsb cond rows = true) by (apply existsb_exists; eauto).
    congruence.
  - apply First_Err in E. destruct E as [-> _]. reflexivity.
Qed.

(** The reads on a store that does not fail. *)

Lemma User_GetByID_eq (id : uint) (db : DB) :
  faults db = [] ->
  UserRepository.GetByID id db =
  (First User.ID (fun r => (User.ID r =? id)%N && UserRepository.live r) (users db),
   db).
Proof. intros H. unfold UserRepository.GetByID. now rewrite exec_no_faults. Qed.

Lemma User_GetByEmail_eq (email : string) (db : DB) :
  faults db = [] ->
  UserRepository.GetByEmail email db =
  (First User.ID
         (fun r => (User.Email r =? email)%string && UserRepository.live r)
         (users db), db).
Proof. intros H. unfold UserRepository.GetByEmail. now rewrite exec_no_faults. Qed.

Lemma Flag_GetByID_eq (id : uint) (db : DB) :
  faults db = [] ->
  FeatureFlagRepository.GetByID id db =
  (First FeatureFlag.ID
         (fun r => (FeatureFlag.ID r =? id)%N && FeatureFlagRepository.live r)
         (feature_flags db), db).
Proof. intros H. unfold FeatureFlagRepository.GetByID. now rewrite exec_no_faults. Qed.

Lemma Flag_GetByKey_eq (key : string) (db : DB) :
  faults db = [] ->
  FeatureFlagRepository.GetByKey key db =
  (First FeatureFlag.ID
         (fun r => (FeatureFlag.Key r =? key)%string && FeatureFlagRepository.live r)
         (feature_flags db), db).
Proof. intros H. unfold FeatureFlagRepository.GetByKey. now rewrite exec_no_faults. Qed.

Lemma User_GetByID_missing (id : uint) (db : DB) :
  faults db = [] -> user_exists id db = false ->
  UserRepository.GetByID id db = (Err ErrRecordNotFound, db).
Proof.
  intros Hf Hu. rewrite User_GetByID_eq by assumption.
  now rewrite First_missing.
Qed.

Lemma User_GetByID_found (id : uint) (db : DB) :
  faults db = [] -> user_exists id db = true ->
  exists u, UserRepository.GetByID id db = (Ok u, db) /\
            In u (users db) /\ User.ID u = id /\ User.DeletedAt u = None.
Proof.
  intros Hf Hu. rewrite User_GetByID_eq by assumption.
  destruct (First_found User.ID _ _ Hu) as [u Hfirst].
  exists u. rewrite Hfirst. split; [reflexivity|].
  apply First_Ok in Hfirst. destruct Hfirst as [Hin Hc].
  apply andb_true_iff in Hc. destruct Hc as [Hid Hl].
  apply N.eqb_eq in Hid. unfold UserRepository.live in Hl.
  destruct (User.DeletedAt u); [discriminate|]. auto.
Qed.

Lemma Flag_GetByKey_missing (key : string) (db : DB) :
  faults db = [] -> key_in_use key db = false ->
  FeatureFlagRepository.GetByKey key db = (Err ErrRecordNotFound, db).
Proof.
  intros Hf Hk. rewrite Flag_GetByKey_eq by assumption.
  now rewrite First_missing.
Qed.

Lemma Flag_GetByKey_found (key : string) (db : DB) :
  faults db = [] -> key_in_use key db = true ->
  exists f, FeatureFlagRepository.GetByKey key db = (Ok f, db) /\
            In f (feature_flags db) /\ FeatureFlag.Key f = key /\
            FeatureFlag.DeletedAt f = None.
Proof.
  intros Hf Hk. rewrite Flag_GetByKey_eq by assumption.
  destruct (First_found FeatureFlag.ID _ _ Hk) as [f Hfirst].
  exists f. rewrite Hfirst. split; [reflexivity|].
  apply First_Ok in Hfirst. destruct Hfirst as [Hin Hc].
  apply andb_true_iff in Hc. destruct Hc as [Hkey Hl].
  apply String.eqb_eq in Hkey. unfold FeatureFlagRepository.live in Hl.
  destruct (FeatureFlag.DeletedAt f); [discriminate|]. auto.
Qed.

Lemma User_GetByID_Ok_inv (id : uint) (db db' : DB) (u : User.t) :
  faults db = [] -> UserRepository.GetByID id db = (Ok u, db') ->
  db' = db /\ In u (users db) /\ User.ID u = id /\ User.DeletedAt u = None /\
  user_exists id db = true.
Proof.
  intros Hf H. rewrite User_GetByID_eq in H by assumption.
  injection H as Hfirst Hdb. subst db'. split; [reflexivity|].
  apply First_Ok in Hfirst. destruct Hfirst as [Hin Hc].
  assert (Hex : user_exists id db = true).
  { unfold user_exists. apply existsb_exists. exists u. split; assumption. }
  apply andb_true_iff in Hc. destruct Hc as [Hid Hl].
  apply N.eqb_eq in Hid. unfold UserRepository.live in Hl.
  destruct (User.DeletedAt u); [discriminate|]. repeat split; assumption.
Qed.

Lemma Flag_GetByKey_Ok_inv (key : string) (db db' : DB) (f : FeatureFlag.t) :
  faults db = [] -> FeatureFlagRepository.GetByKey key db = (Ok f, db') ->
  db' = db /\ In f (feature_flags db) /\ FeatureFlag.Key f = key /\
  FeatureFlag.DeletedAt f = None.
Proof.
  intros Hf H. rewrite Flag_GetByKey_eq in H by assumption.
  injection H as Hfirst Hdb. subst db'. split; [reflexivity|].
  apply First_Ok in Hfirst. destruct Hfirst as [Hin Hc].
  apply andb_true_iff in Hc. destruct Hc as [Hkey Hl].
  apply String.eqb_eq in Hkey. unfold FeatureFlagRepository.live in Hl.
  destruct (FeatureFlag.DeletedAt f); [discriminate|]. auto.
Qed.

(** ** Assignment: the order of the checks *)

(** C4, as stated, fails: on a fresh store, where neither user 7 nor a flag
    with key "beta" exists, [AssignFeatureFlagToUser] reports the missing
    user, not the missing flag. *)
Lemma C4_missing_flag_reported_after_user :
  faults (empty_db []) = [] /\
  key_in_use "beta" (empty_db []) = false /\
  fst (Service.AssignFeatureFlagToUser 7%N "beta" (empty_db [])) = Err UserNotFound /\
  fst (Service.AssignFeatureFlagToUser 7%N "beta" (empty_db [])) <>
  Err FeatureFlagNotFound.
Proof.
  repeat split; try reflexivity. vm_compute. discriminate.
Qed.

(** C4 (amended): [AssignFeatureFlagToUser] first fails with the
    user-not-found error if no such user exists, whatever the flag key, and
    only then resolves the key, failing with the feature-flag-not-found
    error if the user exists and no flag has that key; neither failure
    changes the store.  Conversely it returns the user-not-found error only
    when the user does not exist, and the feature-flag-not-found error only
    when the user exists and the key does not resolve. *)
Theorem C4_assign_checks_user_then_flag
        (db : DB) (userID : uint) (featureFlagKey : string) :
  faults db = [] ->
  (user_exists userID db = false ->
   Service.AssignFeatureFlagToUser userID featureFlagKey db =
   (Err UserNotFound, db)) /\
  (user_exists userID db = true -> key_in_use featureFlagKey db = false ->
   Service.AssignFeatureFlagToUser userID featureFlagKey db =
   (Err FeatureFlagNotFound, db)) /\
  (fst (Service.AssignFeatureFlagToUser userID featureFlagKey db) =
   Err UserNotFound ->
   user_exists userID db = false) /\
  (fst (Service.AssignFeatureFlagToUser userID featureFlagKey db) =
   Err FeatureFlagNotFound ->
   user_exists userID db = true /\ key_in_use featureFlagKey db = false).
Proof.
  intros Hf.
  assert (Hmissing : user_exists userID db = false ->
                     Service.AssignFeatureFlagToUser userID featureFlagKey db =
                     (Err UserNotFound, db)).
  { intros Hu. unfold Service.AssignFeatureFlagToUser.
    now rewrite User_GetByID_missing. }
  assert (Hunknown : user_exists userID db = true ->
                     key_in_use featureFlagKey db = false ->
                     Service.AssignFeatureFlagToUser userID featureFlagKey db =
                     (Err FeatureFlagNotFound, db)).
  { intros Hu Hk. unfold Service.AssignFeatureFlagToUser.
    destruct (User_GetByID_found _ _ Hf Hu) as (u & -> & _).
    now rewrite Flag_GetByKey_missing. }
  assert (Hresolved : user_exists userID db = true ->
                      key_in_use featureFlagKey db = true ->
                      forall msg,
                        msg = "user not found"%string \/
                        msg = "feature flag not found"%string ->
                        fst (Service.AssignFeatureFlagToUser
                               userID featureFlagKey db) <>
                        Err (Service.New msg)).
  { intros Hu Hk msg Hmsg. unfold Service.AssignFeatureFlagToUser.
    destruct (User_GetByID_found _ _ Hf Hu) as (u & -> & _).
    destruct (Flag_GetByKey_found _ _ Hf Hk) as (f & -> & _).
    destruct (UserFeatureFlagRepository.IsFeatureFlagAssignedToUser
                userID (FeatureFlag.ID f) db) as [[[|]|e] d1].
    - cbn. destruct Hmsg as [-> | ->]; discriminate.
    - destruct (UserFeatureFlagRepository.AssignFeatureFlagToUser
                  userID (FeatureFlag.ID f) d1) as [[[]|e] d2]; cbn; discriminate.
    - cbn. discriminate. }
  split; [exact Hmissing|]. split; [exact Hunknown|]. split.
  - intros Hres. destruct (user_exists userID db) eqn:Hu; [|reflexivity].
    exfalso. destruct (key_in_use featureFlagKey db) eqn:Hk.
    + apply (Hresolved eq_refl eq_refl "user not found"%string); [now left|].
      exact Hres.
    + rewrite (Hunknown eq_refl eq_refl) in Hres. discriminate Hres.
  - intros Hres. destruct (user_exists userID db) eqn:Hu.
    + split; [reflexivity|].
      destruct (key_in_use featureFlagKey db) eqn:Hk; [|reflexivity].
      exfalso.
      apply (Hresolved eq_refl eq_refl "feature flag not found"%string);
        [now right|]. exact Hres.
    + rewrite (Hmissing eq_refl) in Hres. discriminate Hres.
Qed.

Lemma C4_assign_checks_user_then_flag_witness :
  faults db_ann_beta = [] /\
  user_exists 1%N db_ann_beta = true /\ key_in_use "gamma" db_ann_beta = false /\
  Service.AssignFeatureFlagToUser 1%N "gamma" db_ann_beta =
  (Err FeatureFlagNotFound, db_ann_beta).
Proof.
  split; [reflexivity | split; [reflexivity | split; [reflexivity|]]].
  apply (C4_assign_checks_user_then_flag db_ann_beta 1%N "gamma");
    reflexivity.
Defined.

(** ** The assignment relation *)

Lemma count_positive {A : Type} (p : A -> bool) (rows : list A) :
  (Z.of_nat (List.length (filter p rows)) >? 0) = existsb p rows.
Proof.
  induction rows as [|x rest IH]; [reflexivity|]. cbn.
  destruct (p x); cbn [orb].
  - cbn [List.length]. apply Z.gtb_lt. lia.
  - exact IH.
Qed.

Lemma filter_none {A : Type} (p : A -> bool) (rows : list A) :
  existsb p rows = false -> filter (fun r => negb (p r)) rows = rows.
Proof.
  induction rows as [|x rest IH]; [reflexivity|]. cbn.
  destruct (p x); cbn; [discriminate|]. intros H. now rewrite IH.
Qed.

Lemma IsFeatureFlagAssignedToUser_eq (userID featureFlagID : uint) (db : DB) :
  faults db = [] ->
  UserFeatureFlagRepository.IsFeatureFlagAssignedToUser userID featureFlagID db =
  (Ok (isAssigned userID featureFlagID db), db).
Proof.
  intros Hf. unfold UserFeatureFlagRepository.IsFeatureFlagAssignedToUser.
  rewrite exec_no_faults by assumption. cbv zeta.
  now rewrite count_positive.
Qed.

Lemma UnassignFeatureFlagFromUser_eq (userID featureFlagID : uint) (db : DB) :
  faults db = [] ->
  UserFeatureFlagRepository.UnassignFeatureFlagFromUser userID featureFlagID db =
  (Ok tt,
   set_user_feature_flags
     (filter (fun r => negb (UserFeatureFlagRepository.is_pair userID featureFlagID r))
             (user_feature_flags db)) db).
Proof.
  intros Hf. unfold UserFeatureFlagRepository.UnassignFeatureFlagFromUser.
  now rewrite exec_no_faults.
Qed.

Lemma set_user_feature_flags_same (db : DB) :
  set_user_feature_flags (user_feature_flags db) db = db.
Proof. destruct db; reflexivity. Qed.

Lemma present_of_In_user (u : User.t) (db : DB) :
  In u (users db) -> user_row_present (User.ID u) db = true.
Proof.
  intros Hin. unfold user_row_present. apply existsb_exists.
  exists u. split; [assumption | apply N.eqb_refl].
Qed.

Lemma present_of_In_flag (f : FeatureFlag.t) (db : DB) :
  In f (feature_flags db) -> flag_row_present (FeatureFlag.ID f) db = true.
Proof.
  intros Hin. unfold flag_row_present. apply existsb_exists.
  exists f. split; [assumption | apply N.eqb_refl].
Qed.

Lemma AssignFeatureFlagToUser_fresh (userID featureFlagID : uint) (db : DB) :
  faults db = [] ->
  isAssigned userID featureFlagID db = false ->
  user_row_present userID db = true ->
  flag_row_present featureFlagID db = true ->
  UserFeatureFlagRepository.AssignFeatureFlagToUser userID featureFlagID db =
  (Ok tt,
   tick (set_user_feature_flags
           (user_feature_flags db ++
            [UserFeatureFlag.mk userID featureFlagID (clock db)]) db)).
Proof.
  intros Hf Ha Hu Hfl. unfold UserFeatureFlagRepository.AssignFeatureFlagToUser.
  rewrite exec_no_faults by assumption.
  unfold isAssigned, user_row_present, flag_row_present in *.
  now rewrite Ha, Hu, Hfl.
Qed.

Lemma is_pair_refl (userID featureFlagID : uint) (t : Time) :
  UserFeatureFlagRepository.is_pair userID featureFlagID
    (UserFeatureFlag.mk userID featureFlagID t) = true.
Proof.
  unfold UserFeatureFlagRepository.is_pair. cbn. now rewrite !N.eqb_refl.
Qed.

(** C6: for an existing user and a key that resolves to an existing flag,
    unassigning a pair that is not assigned succeeds and leaves the
    assignment relation (the whole store, in fact) unchanged. *)
Theorem C6_unassign_unassigned_is_success
        (db : DB) (userID : uint) (featureFlagKey : string) (flag : FeatureFlag.t) :
  faults db = [] ->
  user_exists userID db = true ->
  FeatureFlagRepository.GetByKey featureFlagKey db = (Ok flag, db) ->
  isAssigned userID (FeatureFlag.ID flag) db = false ->
  Service.UnassignFeatureFlagFromUser userID featureFlagKey db = (Ok tt, db) /\
  user_feature_flags
    (snd (Service.UnassignFeatureFlagFromUser userID featureFlagKey db)) =
  user_feature_flags db.
Proof.
  intros Hf Hu Hk Ha.
  assert (H : Service.UnassignFeatureFlagFromUser userID featureFlagKey db =
              (Ok tt, db)).
  { unfold Service.UnassignFeatureFlagFromUser.
    destruct (User_GetByID_found _ _ Hf Hu) as (u & -> & _).
    rewrite Hk. rewrite UnassignFeatureFlagFromUser_eq by assumption.
    unfold isAssigned in Ha. rewrite filter_none by assumption.
    now rewrite set_user_feature_flags_same. }
  split; [exact H | now rewrite H].
Qed.

Lemma C6_unassign_unassigned_is_success_witness :
  faults db_ann_beta = [] /\
  user_exists 1%N db_ann_beta = true /\
  isAssigned 1%N 1%N db_ann_beta = false /\
  Service.UnassignFeatureFlagFromUser 1%N "beta" db_ann_beta = (Ok tt, db_ann_beta).
Proof.
  split; [reflexivity | split; [reflexivity | split; [reflexivity|]]].
  apply (C6_unassign_unassigned_is_success db_ann_beta 1%N "beta"
           (FeatureFlag.mk 1%N "beta" "" false 2%N 2%N None));
    reflexivity.
Defined.

(** C2: for an existing user and a key that resolves to an existing flag,
    an assignment of a pair not yet assigned succeeds; after a successful
    assignment the pair is assigned, and a second assignment fails with the
    already-assigned error and changes nothing. *)
Theorem C2_assign_then_already_assigned
        (db : DB) (userID : uint) (featureFlagKey : string) (flag : FeatureFlag.t) :
  faults db = [] ->
  user_exists userID db = true ->
  FeatureFlagRepository.GetByKey featureFlagKey db = (Ok flag, db) ->
  (isAssigned userID (FeatureFlag.ID flag) db = false ->
   exists db1, Service.AssignFeatureFlagToUser userID featureFlagKey db = (Ok tt, db1)) /\
  (forall db1,
     Service.AssignFeatureFlagToUser userID featureFlagKey db = (Ok tt, db1) ->
     isAssigned userID (FeatureFlag.ID flag) db1 = true /\
     UserFeatureFlagRepository.IsFeatureFlagAssignedToUser
       userID (FeatureFlag.ID flag) db1 = (Ok true, db1) /\
     Service.AssignFeatureFlagToUser userID featureFlagKey db1 =
     (Err AlreadyAssigned, db1)).
Proof.
  intros Hf Hu Hk.
  destruct (User_GetByID_found _ _ Hf Hu) as (u & Hget & Hin & Hid & _).
  destruct (Flag_GetByKey_Ok_inv _ _ _ _ Hf Hk) as (_ & Hfin & _ & _).
  assert (Hstep :
    isAssigned userID (FeatureFlag.ID flag) db = false ->
    Service.AssignFeatureFlagToUser userID featureFlagKey db =
    (Ok tt,
     tick (set_user_feature_flags
             (user_feature_flags db ++
              [UserFeatureFlag.mk userID (FeatureFlag.ID flag) (clock db)]) db))).
  { intros Ha. unfold Service.AssignFeatureFlagToUser.
    rewrite Hget, Hk, IsFeatureFlagAssignedToUser_eq, Ha by assumption.
    rewrite AssignFeatureFlagToUser_fresh; try assumption; try reflexivity.
    - subst userID. now apply present_of_In_user.
    - now apply present_of_In_flag. }
  split.
  - intros Ha. eexists. now apply Hstep.
  - intros db1 Hok.
    destruct (isAssigned userID (FeatureFlag.ID flag) db) eqn:Ha.
    { unfold Service.AssignFeatureFlagToUser in Hok.
      rewrite Hget, Hk, IsFeatureFlagAssignedToUser_eq, Ha in Hok by assumption.
      discriminate. }
    rewrite Hstep in Hok by reflexivity. injection Hok as Hdb1.
    assert (Hf1 : faults db1 = []) by (subst db1; exact Hf).
    assert (Ha1 : isAssigned userID (FeatureFlag.ID flag) db1 = true).
    { subst db1. unfold isAssigned. cbn. rewrite existsb_app. cbn.
      rewrite is_pair_refl. now rewrite orb_true_r. }
    assert (Hget1 : UserRepository.GetByID userID db1 = (Ok u, db1)).
    { rewrite User_GetByID_eq in * by assumption. subst db1. cbn.
      injection Hget as Hget. now rewrite Hget. }
    assert (Hk1 : FeatureFlagRepository.GetByKey featureFlagKey db1 = (Ok flag, db1)).
    { rewrite Flag_GetByKey_eq in * by assumption. subst db1. cbn.
      injection Hk as Hk. now rewrite Hk. }
    split; [exact Ha1|]. split.
    + rewrite IsFeatureFlagAssignedToUser_eq by assumption. now rewrite Ha1.
    + unfold Service.AssignFeatureFlagToUser.
      rewrite Hget1, Hk1, IsFeatureFlagAssignedToUser_eq, Ha1 by assumption.
      reflexivity.
Qed.

Lemma C2_assign_then_already_assigned_witness :
  faults db_ann_beta = [] /\
  user_exists 1%N db_ann_beta = true /\
  Service.AssignFeatureFlagToUser 1%N "beta" db_ann_beta = (Ok tt, db_assigned) /\
  isAssigned 1%N 1%N db_assigned = true /\
  Service.AssignFeatureFlagToUser 1%N "beta" db_assigned =
  (Err AlreadyAssigned, db_assigned).
Proof.
  assert (Hf : faults db_ann_beta = []) by reflexivity.
  assert (Hu : user_exists 1%N db_ann_beta = true) by reflexivity.
  assert (Hk : FeatureFlagRepository.GetByKey "beta" db_ann_beta =
               (Ok (FeatureFlag.mk 1%N "beta" "" false 2%N 2%N None), db_ann_beta))
    by reflexivity.
  assert (Hok : Service.AssignFeatureFlagToUser 1%N "beta" db_ann_beta =
                (Ok tt, db_assigned)) by reflexivity.
  destruct (C2_assign_then_already_assigned _ _ _ _ Hf Hu Hk) as [_ H].
  destruct (H _ Hok) as (Ha & _ & Hsecond).
  repeat split; assumption.
Defined.

(** ** Soft delete *)

Lemma User_Delete_eq (id : uint) (db : DB) :
  faults db = [] ->
  UserRepository.Delete id db =
  (Ok tt,
   tick (set_users
           (map (fun r =>
                   if (User.ID r =? id)%N && UserRepository.live r
                   then User.mk (User.ID r) (User.Name r) (User.Email r)
                                (User.Enabled r) (User.CreatedAt r)
                                (User.UpdatedAt r) (Some (clock db))
                                (User.LastLogin r)
                   else r) (users db)) db)).
Proof. intros Hf. unfold UserRepository.Delete. now rewrite exec_no_faults. Qed.

Lemma Flag_Delete_eq (id : uint) (db : DB) :
  faults db = [] ->
  FeatureFlagRepository.Delete id db =
  (Ok tt,
   tick (set_feature_flags
           (map (fun r =>
                   if (FeatureFlag.ID r =? id)%N && FeatureFlagRepository.live r
                   then FeatureFlag.mk (FeatureFlag.ID r) (FeatureFlag.Key r)
                                       (FeatureFlag.Description r)
                                       (FeatureFlag.Enabled r)
                                       (FeatureFlag.CreatedAt r)
                                       (FeatureFlag.UpdatedAt r) (Some (clock db))
                   else r) (feature_flags db)) db)).
Proof. intros Hf. unfold FeatureFlagRepository.Delete. now rewrite exec_no_faults. Qed.

Lemma existsb_map_false {A : Type} (p : A -> bool) (f : A -> A) (rows : list A) :
  (forall r, p (f r) = false) -> existsb p (map f rows) = false.
Proof.
  intros H. induction rows as [|x rest IH]; [reflexivity|].
  cbn. now rewrite H, IH.
Qed.

Lemma DeleteUser_Ok_inv (id : uint) (db db' : DB) :
  faults db = [] -> Service.DeleteUser id db = (Ok tt, db') ->
  user_exists id db = true /\
  snd (UserRepository.Delete id db) = db' /\
  faults db' = [] /\
  user_exists id db' = false /\
  user_feature_flags db' = user_feature_flags db /\
  feature_flags db' = feature_flags db.
Proof.
  intros Hf H. unfold Service.DeleteUser in H.
  destruct (user_exists id db) eqn:Hu.
  - destruct (User_GetByID_found _ _ Hf Hu) as (u & Hget & _).
    rewrite Hget, User_Delete_eq in H by assumption.
    rewrite User_Delete_eq by assumption.
    injection H as H. subst db'. cbn.
    repeat split; try assumption; try reflexivity.
    unfold user_exists. cbn. apply existsb_map_false.
    intros r. destruct ((User.ID r =? id)%N && UserRepository.live r) eqn:E.
    + cbn. apply andb_false_r.
    + exact E.
  - rewrite User_GetByID_missing in H by assumption. discriminate.
Qed.

Lemma DeleteFeatureFlag_Ok_inv (id : uint) (db db' : DB) :
  faults db = [] -> Service.DeleteFeatureFlag id db = (Ok tt, db') ->
  flag_exists id db = true /\
  snd (FeatureFlagRepository.Delete id db) = db' /\
  faults db' = [] /\
  flag_exists id db' = false /\
  user_feature_flags db' = user_feature_flags db /\
  users db' = users db.
Proof.
  intros Hf H. unfold Service.DeleteFeatureFlag in H.
  rewrite Flag_GetByID_eq in H by assumption.
  destruct (flag_exists id db) eqn:Hu.
  - destruct (First_found FeatureFlag.ID _ _ Hu) as (f & Hget).
    rewrite Hget, Flag_Delete_eq in H by assumption.
    rewrite Flag_Delete_eq by assumption.
    injection H as H. subst db'. cbn.
    repeat split; try assumption; try reflexivity.
    unfold flag_exists. cbn. apply existsb_map_false.
    intros r.
    destruct ((FeatureFlag.ID r =? id)%N && FeatureFlagRepository.live r) eqn:E.
    + cbn. apply andb_false_r.
    + exact E.
  - unfold flag_exists in Hu. rewrite First_missing in H by assumption.
    discriminate.
Qed.

(** ** The flags of a user *)

Lemma GetUserFeatureFlags_eq (userID : uint) (db : DB) :
  faults db = [] ->
  UserFeatureFlagRepository.GetUserFeatureFlags userID db =
  (Ok (flat_map
         (fun f =>
            map (fun _ => f)
                (filter (UserFeatureFlagRepository.is_pair userID (FeatureFlag.ID f))
                        (user_feature_flags db)))
         (filter FeatureFlagRepository.live (feature_flags db))), db).
Proof.
  intros Hf. unfold UserFeatureFlagRepository.GetUserFeatureFlags.
  now rewrite exec_no_faults.
Qed.

Lemma joined_flags_In (userID : uint) (db : DB) (f : FeatureFlag.t) :
  In f (flat_map
          (fun f =>
             map (fun _ => f)
                 (filter (UserFeatureFlagRepository.is_pair userID (FeatureFlag.ID f))
                         (user_feature_flags db)))
          (filter FeatureFlagRepository.live (feature_flags db))) <->
  In f (feature_flags db) /\ FeatureFlag.DeletedAt f = None /\
  isAssigned userID (FeatureFlag.ID f) db = true.
Proof.
  rewrite in_flat_map. split.
  - intros (x & Hx & Hin). apply filter_In in Hx. destruct Hx as [Hx Hlive].
    apply in_map_iff in Hin. destruct Hin as (r & -> & Hr).
    apply filter_In in Hr. destruct Hr as [Hr Hp].
    split; [assumption|]. split.
    + unfold FeatureFlagRepository.live in Hlive.
      destruct (FeatureFlag.DeletedAt f); [discriminate | reflexivity].
    + unfold isAssigned. apply existsb_exists. eauto.
  - intros (Hin & Hlive & Ha). exists f. split.
    + apply filter_In. split; [assumption|].
      unfold FeatureFlagRepository.live. now rewrite Hlive.
    + unfold isAssigned in Ha. apply existsb_exists in Ha.
      destruct Ha as (r & Hr & Hp). apply in_map_iff. exists r.
      split; [reflexivity|]. apply filter_In. auto.
Qed.

(** C9: [GetUserFeatureFlags] fails with the user-not-found error, leaving
    the store as it is, when no non-deleted user has the id, in particular
    right after a successful [DeleteUser] of that id; for an existing user
    it returns the responses of exactly the existing flags that the
    assignment relation links to the user. *)
Theorem C9_get_user_feature_flags (db : DB) (userID : uint) :
  faults db = [] ->
  (user_exists userID db = false ->
   Service.GetUserFeatureFlags userID db = (Err UserNotFound, db)) /\
  (forall db',
     Service.DeleteUser userID db = (Ok tt, db') ->
     Service.GetUserFeatureFlags userID db' = (Err UserNotFound, db')) /\
  (user_exists userID db = true ->
   exists flags,
     Service.GetUserFeatureFlags userID db =
     (Ok (map Service.toFeatureFlagResponse flags), db) /\
     forall f, In f flags <->
               In f (feature_flags db) /\ FeatureFlag.DeletedAt f = None /\
               isAssigned userID (FeatureFlag.ID f) db = true).
Proof.
  intros Hf.
  assert (Hmissing : forall d, faults d = [] -> user_exists userID d = false ->
            Service.GetUserFeatureFlags userID d = (Err UserNotFound, d)).
  { intros d Hd Hu. unfold Service.GetUserFeatureFlags.
    now rewrite User_GetByID_missing. }
  split; [now apply Hmissing|]. split.
  - intros db' Hdel.
    destruct (DeleteUser_Ok_inv _ _ _ Hf Hdel) as (_ & _ & Hf' & Hu' & _).
    now apply Hmissing.
  - intros Hu. destruct (User_GetByID_found _ _ Hf Hu) as (u & Hget & _).
    eexists. split.
    + unfold Service.GetUserFeatureFlags.
      rewrite Hget, GetUserFeatureFlags_eq by assumption. reflexivity.
    + intros f. apply joined_flags_In.
Qed.

Lemma C9_get_user_feature_flags_witness :
  faults db_assigned = [] /\
  Service.DeleteUser 1%N db_assigned = (Ok tt, db_ann_deleted) /\
  Service.GetUserFeatureFlags 1%N db_ann_deleted = (Err UserNotFound, db_ann_deleted).
Proof.
  split; [reflexivity | split; [reflexivity|]].
  apply (C9_get_user_feature_flags db_assigned 1%N); reflexivity.
Defined.

(** ** Store failures inside the uniqueness checks *)

(** C3: the lookups of the uniqueness checks drop a store failure.  With a
    store whose next call fails (schedule [[true]]), [GetByEmail] and
    [GetByKey] return a store error other than record-not-found, yet
    [CreateUser] and [CreateFeatureFlag] go on to insert and return the
    new entity with no error; with user 1 stored and the second call
    failing, [UpdateUser] goes on to save the new email.  The sibling
    lookups by id wrap and return the same failure. *)
Theorem C3_uniqueness_lookup_failure_is_dropped :
  (UserRepository.GetByEmail "ann@x.com" (empty_db [true]) =
     (Err ErrOther, empty_db []) /\
   exists r db',
     Service.CreateUser ann (empty_db [true]) = (Ok r, db') /\
     email_in_use "ann@x.com" db' = true) /\
  (FeatureFlagRepository.GetByKey "beta" (empty_db [true]) =
     (Err ErrOther, empty_db []) /\
   exists r db',
     Service.CreateFeatureFlag beta (empty_db [true]) = (Ok r, db') /\
     key_in_use "beta" db' = true) /\
  (UserRepository.GetByEmail "new@x.com" (set_faults [true] db_ann) =
     (Err ErrOther, db_ann) /\
   exists r db',
     Service.UpdateUser 1%N
       (Dto.UpdateUserRequest.mk None (Some "new@x.com"%string) None)
       (set_faults [false; true] db_ann) = (Ok r, db') /\
     Dto.UserResponse.Email r = "new@x.com"%string /\
     email_in_use "new@x.com" db' = true) /\
  (forall id fs us ffs ufs s1 s2 t,
     let db := mkDB us ffs ufs s1 s2 t (true :: fs) in
     Service.GetUser id db =
       (Err (Service.Errorf "failed to get user" ErrOther), set_faults fs db) /\
     Service.UpdateUser id (Dto.UpdateUserRequest.mk None None None) db =
       (Err (Service.Errorf "failed to get user" ErrOther), set_faults fs db)).
Proof.
  split; [|split; [|split]].
  - split; [reflexivity|]. do 2 eexists. split; reflexivity.
  - split; [reflexivity|]. do 2 eexists. split; reflexivity.
  - split; [reflexivity|]. do 2 eexists. split; [reflexivity|].
    split; reflexivity.
  - intros. split; reflexivity.
Qed.

(** ** Creation and the unique indexes *)

Lemma User_Create_eq (name email : string) (enabled : bool) (db : DB) :
  faults db = [] ->
  UserRepository.Create (User.mk 0%N name email enabled 0%N 0%N None None) db =
  let db1 := set_users_id_seq (N.succ (users_id_seq db)) db in
  if user_row_present (users_id_seq db) db || email_on_record email db
  then (Err ErrUniqueViolation, db1)
  else
    let row := User.mk (users_id_seq db) name email
                       (UserRepository.enabled_on_insert enabled)
                       (clock db) (clock db) None None in
    (Ok row, tick (set_users (users db ++ [row]) db1)).
Proof.
  intros Hf. unfold UserRepository.Create.
  rewrite exec_no_faults by assumption. reflexivity.
Qed.

Lemma Flag_Create_eq (key description : string) (enabled : bool) (db : DB) :
  faults db = [] ->
  FeatureFlagRepository.Create
    (FeatureFlag.mk 0%N key description enabled 0%N 0%N None) db =
  let db1 := set_feature_flags_id_seq (N.succ (feature_flags_id_seq db)) db in
  if flag_row_present (feature_flags_id_seq db) db || key_on_record key db
  then (Err ErrUniqueViolation, db1)
  else
    let row := FeatureFlag.mk (feature_flags_id_seq db) key description
                              (FeatureFlagRepository.enabled_on_insert enabled)
                              (clock db) (clock db) None in
    (Ok row, tick (set_feature_flags (feature_flags db ++ [row]) db1)).
Proof.
  intros Hf. unfold FeatureFlagRepository.Create.
  rewrite exec_no_faults by assumption. reflexivity.
Qed.

Lemma email_on_record_of_row (r : User.t) (db : DB) :
  In r (users db) -> email_on_record (User.Email r) db = true.
Proof.
  intros Hin. unfold email_on_record. apply existsb_exists.
  exists r. split; [assumption | apply String.eqb_refl].
Qed.

Lemma key_on_record_of_row (r : FeatureFlag.t) (db : DB) :
  In r (feature_flags db) -> key_on_record (FeatureFlag.Key r) db = true.
Proof.
  intros Hin. unfold key_on_record. apply existsb_exists.
  exists r. split; [assumption | apply String.eqb_refl].
Qed.

(** C10: when a soft-deleted user holds the email and no non-deleted user
    does, [CreateUser] passes its own uniqueness check and fails at the
    insert on the store's unique index: the error is the wrapped
    constraint violation, not the email-already-exists error, and no user
    is added; likewise [CreateFeatureFlag] with the key of a soft-deleted
    flag. *)
Theorem C10_soft_deleted_keys_are_not_reusable (db : DB) :
  faults db = [] ->
  (forall req r,
     In r (users db) -> User.Email r = Dto.CreateUserRequest.Email req ->
     User.DeletedAt r <> None ->
     email_in_use (Dto.CreateUserRequest.Email req) db = false ->
     exists db',
       Service.CreateUser req db =
       (Err (Service.Errorf "failed to create user" ErrUniqueViolation), db') /\
       fst (Service.CreateUser req db) <> Err EmailAlreadyExists /\
       users db' = users db) /\
  (forall req r,
     In r (feature_flags db) ->
     FeatureFlag.Key r = Dto.CreateFeatureFlagRequest.Key req ->
     FeatureFlag.DeletedAt r <> None ->
     key_in_use (Dto.CreateFeatureFlagRequest.Key req) db = false ->
     exists db',
       Service.CreateFeatureFlag req db =
       (Err (Service.Errorf "failed to create feature flag" ErrUniqueViolation),
        db') /\
       fst (Service.CreateFeatureFlag req db) <> Err KeyAlreadyExists /\
       feature_flags db' = feature_flags db).
Proof.
  intros Hf. split.
  - intros [name email enabled] r Hin Hmail _ Huse. cbn in *.
    assert (Hrec : email_on_record email db = true).
    { rewrite <- Hmail. now apply email_on_record_of_row. }
    assert (H : Service.CreateUser (Dto.CreateUserRequest.mk name email enabled) db =
                (Err (Service.Errorf "failed to create user" ErrUniqueViolation),
                 set_users_id_seq (N.succ (users_id_seq db)) db)).
    { unfold Service.CreateUser. cbn.
      rewrite User_GetByEmail_eq by assumption.
      unfold email_in_use in Huse. rewrite First_missing by assumption.
      rewrite User_Create_eq by assumption. cbv zeta.
      rewrite Hrec, orb_true_r. reflexivity. }
    eexists. split; [exact H|]. rewrite H. split; [discriminate | reflexivity].
  - intros [key description enabled] r Hin Hkey _ Huse. cbn in *.
    assert (Hrec : key_on_record key db = true).
    { rewrite <- Hkey. now apply key_on_record_of_row. }
    assert (H : Service.CreateFeatureFlag
                  (Dto.CreateFeatureFlagRequest.mk key description enabled) db =
                (Err (Service.Errorf "failed to create feature flag"
                        ErrUniqueViolation),
                 set_feature_flags_id_seq (N.succ (feature_flags_id_seq db)) db)).
    { unfold Service.CreateFeatureFlag. cbn.
      rewrite Flag_GetByKey_eq by assumption.
      unfold key_in_use in Huse. rewrite First_missing by assumption.
      rewrite Flag_Create_eq by assumption. cbv zeta.
      rewrite Hrec, orb_true_r. reflexivity. }
    eexists. split; [exact H|]. rewrite H. split; [discriminate | reflexivity].
Qed.

Lemma C10_soft_deleted_keys_are_not_reusable_witness :
  faults db_ann_deleted = [] /\
  email_in_use "ann@x.com" db_ann_deleted = false /\
  fst (Service.CreateUser ann db_ann_deleted) =
  Err (Service.Errorf "failed to create user" ErrUniqueViolation).
Proof.
  split; [reflexivity | split; [reflexivity|]].
  destruct (C10_soft_deleted_keys_are_not_reusable db_ann_deleted eq_refl)
    as [Huser _].
  destruct (Huser ann (User.mk 1%N "Ann" "ann@x.com" true 1%N 1%N (Some 4%N) None))
    as (db' & H & _).
  - left. reflexivity.
  - reflexivity.
  - discriminate.
  - reflexivity.
  - rewrite H. reflexivity.
Defined.

(** ** The schema invariant: tables *)

Lemma NoDup_snoc {B : Type} (l : list B) (x : B) :
  NoDup l -> ~ In x l -> NoDup (l ++ [x]).
Proof.
  induction l as [|y l IH]; intros Hnd Hx; cbn.
  - constructor; [intros [] | constructor].
  - inversion Hnd as [|? ? Hy Hl]; subst. constructor.
    + intros Hin. apply in_app_or in Hin. destruct Hin as [Hin|[Heq|[]]].
      * contradiction.
      * subst. apply Hx. now left.
    + apply IH; [assumption|]. intros Hin. apply Hx. now right.
Qed.

Lemma NoDup_map_filter {B C : Type} (f : B -> C) (p : B -> bool) (l : list B) :
  NoDup (map f l) -> NoDup (map f (filter p l)).
Proof.
  induction l as [|y l IH]; intros Hnd; cbn in *; [constructor|].
  inversion Hnd as [|? ? Hy Hl]; subst.
  destruct (p y); cbn; [|now apply IH].
  constructor; [|now apply IH].
  intros Hin. apply Hy. apply in_map_iff in Hin.
  destruct Hin as (z & Hz & Hin). apply filter_In in Hin.
  apply in_map_iff. exists z. tauto.
Qed.

Lemma existsb_map_same {B : Type} (p : B -> bool) (f : B -> B) (rows : list B) :
  (forall r, p (f r) = p r) -> existsb p (map f rows) = existsb p rows.
Proof.
  intros H. induction rows as [|x rest IH]; [reflexivity|].
  cbn. now rewrite H, IH.
Qed.

Section TableFacts.
Context {A : Type} (id : A -> N) (key : A -> string).

Lemma table_ok_empty : table_ok id key 1%N [].
Proof.
  constructor; cbn; try constructor; try contradiction.
Qed.

Lemma table_ok_next (seq : N) (rows : list A) :
  table_ok id key seq rows -> table_ok id key (N.succ seq) rows.
Proof.
  intros [Hpk Huk Hser Hpos]. constructor; try assumption.
  - intros r Hin. specialize (Hser r Hin). lia.
  - lia.
Qed.

Lemma table_ok_fresh_id (seq : N) (rows : list A) :
  table_ok id key seq rows -> existsb (fun r => (id r =? seq)%N) rows = false.
Proof.
  intros [_ _ Hser _].
  destruct (existsb (fun r => (id r =? seq)%N) rows) eqn:E; [|reflexivity].
  apply existsb_exists in E. destruct E as (r & Hin & Heq).
  apply N.eqb_eq in Heq. specialize (Hser r Hin). lia.
Qed.

Lemma table_ok_insert (seq : N) (rows : list A) (row : A) :
  table_ok id key seq rows -> id row = seq ->
  existsb (fun r => (key r =? key row)%string) rows = false ->
  table_ok id key (N.succ seq) (rows ++ [row]).
Proof.
  intros [Hpk Huk Hser Hpos] Hid Hfree.
  assert (Hkey : forall r, In r rows -> key r <> key row).
  { intros r Hin Heq.
    assert (existsb (fun r => (key r =? key row)%string) rows = true).
    { apply existsb_exists. exists r. split; [assumption|].
      now apply String.eqb_eq. }
    congruence. }
  constructor.
  - rewrite map_app. cbn. apply NoDup_snoc; [assumption|].
    intros Hin. apply in_map_iff in Hin. destruct Hin as (r & Hr & Hin).
    specialize (Hser r Hin). lia.
  - intros r1 r2 H1 H2 Heq.
    apply in_app_or in H1. apply in_app_or in H2.
    destruct H1 as [H1|[H1|[]]], H2 as [H2|[H2|[]]]; subst.
    + now apply Huk.
    + exfalso. now apply (Hkey r1).
    + exfalso. now apply (Hkey r2).
    + reflexivity.
  - intros r Hin. apply in_app_or in Hin. destruct Hin as [Hin|[Hin|[]]].
    + specialize (Hser r Hin). lia.
    + subst. lia.
  - lia.
Qed.

Lemma table_ok_map (seq : N) (rows : list A) (f : A -> A) :
  table_ok id key seq rows ->
  (forall r, id (f r) = id r) ->
  (forall r1 r2, In r1 rows -> In r2 rows -> key (f r1) = key (f r2) ->
                 id r1 = id r2) ->
  table_ok id key seq (map f rows).
Proof.
  intros [Hpk Huk Hser Hpos] Hid Hkey.
  assert (Hids : map id (map f rows) = map id rows).
  { rewrite map_map. apply map_ext. assumption. }
  constructor.
  - now rewrite Hids.
  - intros r1 r2 H1 H2 Heq.
    apply in_map_iff in H1. destruct H1 as (x1 & <- & H1).
    apply in_map_iff in H2. destruct H2 as (x2 & <- & H2).
    rewrite !Hid. now apply Hkey.
  - intros r Hin. apply in_map_iff in Hin. destruct Hin as (x & <- & Hin).
    rewrite Hid. now apply Hser.
  - assumption.
Qed.

(** An [UPDATE] that replaces the rows with the key of [row] by [row]. *)
Lemma table_ok_replace (seq : N) (rows : list A) (hit : A -> bool) (row : A) :
  table_ok id key seq rows ->
  (forall r, hit r = true -> id r = id row) ->
  existsb (fun r => negb (id r =? id row)%N && (key r =? key row)%string) rows
  = false ->
  table_ok id key seq (map (fun r => if hit r then row else r) rows).
Proof.
  intros Hok Hhit Hfree.
  assert (Hother : forall r, In r rows -> key r = key row -> id r = id row).
  { intros r Hin Heq. destruct (id r =? id row)%N eqn:E.
    - now apply N.eqb_eq.
    - assert (existsb (fun r => negb (id r =? id row)%N
                                && (key r =? key row)%string) rows = true).
      { apply existsb_exists. exists r. split; [assumption|].
        rewrite E. cbn. now apply String.eqb_eq. }
      congruence. }
  apply table_ok_map; [assumption| |].
  - intros r. destruct (hit r) eqn:E; [|reflexivity].
    symmetry. now apply Hhit.
  - intros r1 r2 H1 H2.
    destruct (hit r1) eqn:E1, (hit r2) eqn:E2; intros Heq.
    + rewrite (Hhit _ E1), (Hhit _ E2). reflexivity.
    + rewrite (Hhit _ E1). symmetry. now apply Hother.
    + rewrite (Hhit _ E2). now apply Hother.
    + destruct Hok as [_ Huk _ _]. now apply Huk.
Qed.

(** Rows with the same key are the same row. *)
Lemma table_ok_same_row (seq : N) (rows : list A) (r1 r2 : A) :
  table_ok id key seq rows -> In r1 rows -> In r2 rows -> id r1 = id r2 ->
  r1 = r2.
Proof.
  intros [Hpk _ _ _]. revert Hpk.
  induction rows as [|x rest IH]; intros Hnd H1 H2 Heq; [contradiction|].
  cbn in Hnd. inversion Hnd as [|? ? Hx Hrest]; subst.
  destruct H1 as [H1|H1], H2 as [H2|H2]; subst.
  - reflexivity.
  - exfalso. apply Hx. rewrite Heq. now apply in_map.
  - exfalso. apply Hx. rewrite <- Heq. now apply in_map.
  - now apply IH.
Qed.
End TableFacts.

(** ** The schema invariant: the store *)

Lemma consistent_empty (fs : list bool) : consistent (empty_db fs).
Proof.
  constructor; cbn.
  - apply table_ok_empty.
  - apply table_ok_empty.
  - constructor.
  - contradiction.
Qed.

Lemma consistent_users (db : DB) (rows : list User.t) (seq : N) (t : Time)
      (fs : list bool) :
  consistent db ->
  table_ok User.ID User.Email seq rows ->
  (forall i, user_row_present i db = true ->
             existsb (fun u => (User.ID u =? i)%N) rows = true) ->
  consistent (mkDB rows (feature_flags db) (user_feature_flags db) seq
                   (feature_flags_id_seq db) t fs).
Proof.
  intros [Hu Hf Hpk Hfk] Hrows Hids. constructor; cbn; try assumption.
  intros r Hin. destruct (Hfk r Hin) as [H1 H2]. split.
  - unfold user_row_present. cbn. now apply Hids.
  - exact H2.
Qed.

Lemma consistent_feature_flags (db : DB) (rows : list FeatureFlag.t) (seq : N)
      (t : Time) (fs : list bool) :
  consistent db ->
  table_ok FeatureFlag.ID FeatureFlag.Key seq rows ->
  (forall i, flag_row_present i db = true ->
             existsb (fun f => (FeatureFlag.ID f =? i)%N) rows = true) ->
  consistent (mkDB (users db) rows (user_feature_flags db) (users_id_seq db)
                   seq t fs).
Proof.
  intros [Hu Hf Hpk Hfk] Hrows Hids. constructor; cbn; try assumption.
  intros r Hin. destruct (Hfk r Hin) as [H1 H2]. split.
  - exact H1.
  - unfold flag_row_present. cbn. now apply Hids.
Qed.

Lemma consistent_set_faults (fs : list bool) (db : DB) :
  consistent db -> consistent (set_faults fs db).
Proof.
  intros [Hu Hf Hpk Hfk]. constructor; cbn; assumption.
Qed.

Lemma exec_cases {A : Type} (body : Stmt A) (db : DB) :
  exists fs,
    exec body db = (Err ErrOther, set_faults fs db) \/
    exec body db = body (set_faults fs db).
Proof.
  unfold exec. destruct (faults db) as [|[] fs] eqn:E.
  - exists []. right. rewrite <- E. now rewrite set_faults_same.
  - exists fs. now left.
  - exists fs. now right.
Qed.

(** A call that only reads leaves a consistent store consistent. *)
Lemma exec_read_consistent {A : Type} (f : DB -> result Gorm.error A) (db : DB) :
  consistent db -> consistent (snd (exec (fun d => (f d, d)) db)).
Proof.
  intros Hc. destruct (exec_cases (fun d => (f d, d)) db) as [fs [H|H]];
    rewrite H; cbn; now apply consistent_set_faults.
Qed.

Lemma exec_read_tables {A : Type} (f : DB -> result Gorm.error A) (db : DB) :
  exists fs, snd (exec (fun d => (f d, d)) db) = set_faults fs db.
Proof.
  destruct (exec_cases (fun d => (f d, d)) db) as [fs [H|H]];
    exists fs; now rewrite H.
Qed.

Lemma existsb_app_l {B : Type} (p : B -> bool) (l l' : list B) :
  existsb p l = true -> existsb p (l ++ l') = true.
Proof. intros H. rewrite existsb_app, H. reflexivity. Qed.

Lemma User_Create_consistent (name email : string) (enabled : bool)
      (c u : Time) (d l : option Time) (db : DB) :
  consistent db ->
  consistent (snd (UserRepository.Create (User.mk 0%N name email enabled c u d l) db)).
Proof.
  intros Hc. unfold UserRepository.Create.
  match goal with |- context [exec ?b db] =>
    destruct (exec_cases b db) as [fs [H|H]]; rewrite H; clear H end.
  - now apply consistent_set_faults.
  - apply (consistent_set_faults fs) in Hc. revert Hc.
    generalize (set_faults fs db). clear db. intros db Hc. cbn.
    destruct (existsb (fun r => (User.ID r =? users_id_seq db)%N) (users db)
              || existsb (fun r => (User.Email r =? email)%string) (users db))
             eqn:E; cbn.
    + apply (consistent_users db (users db) _ (clock db) (faults db) Hc).
      * apply table_ok_next. apply Hc.
      * intros i Hi. exact Hi.
    + apply orb_false_iff in E. destruct E as [_ Hmail].
      apply (consistent_users db _ _ (N.succ (clock db)) (faults db) Hc).
      * apply table_ok_insert; [apply Hc | reflexivity | exact Hmail].
      * intros i Hi. now apply existsb_app_l.
Qed.

Lemma Flag_Create_consistent (key description : string) (enabled : bool)
      (c u : Time) (d : option Time) (db : DB) :
  consistent db ->
  consistent (snd (FeatureFlagRepository.Create
                     (FeatureFlag.mk 0%N key description enabled c u d) db)).
Proof.
  intros Hc. unfold FeatureFlagRepository.Create.
  match goal with |- context [exec ?b db] =>
    destruct (exec_cases b db) as [fs [H|H]]; rewrite H; clear H end.
  - now apply consistent_set_faults.
  - apply (consistent_set_faults fs) in Hc. revert Hc.
    generalize (set_faults fs db). clear db. intros db Hc. cbn.
    destruct (existsb (fun r => (FeatureFlag.ID r =? feature_flags_id_seq db)%N)
                      (feature_flags db)
              || existsb (fun r => (FeatureFlag.Key r =? key)%string)
                         (feature_flags db)) eqn:E; cbn.
    + apply (consistent_feature_flags db (feature_flags db) _ (clock db)
               (faults db) Hc).
      * apply table_ok_next. apply Hc.
      * intros i Hi. exact Hi.
    + apply orb_false_iff in E. destruct E as [_ Hkey].
      apply (consistent_feature_flags db _ _ (N.succ (clock db)) (faults db) Hc).
      * apply table_ok_insert; [apply Hc | reflexivity | exact Hkey].
      * intros i Hi. now apply existsb_app_l.
Qed.

Lemma User_Delete_consistent (id : uint) (db : DB) :
  consistent db -> consistent (snd (UserRepository.Delete id db)).
Proof.
  intros Hc. unfold UserRepository.Delete.
  match goal with |- context [exec ?b db] =>
    destruct (exec_cases b db) as [fs [H|H]]; rewrite H; clear H end.
  - now apply consistent_set_faults.
  - apply (consistent_set_faults fs) in Hc. revert Hc.
    generalize (set_faults fs db). clear db. intros db Hc. cbn.
    apply (consistent_users db _ _ (N.succ (clock db)) (faults db) Hc).
    + apply table_ok_map; [apply Hc| |].
      * intros r. now destruct ((User.ID r =? id)%N && UserRepository.live r).
      * intros r1 r2 H1 H2 Heq. apply (unique_key _ _ _ _ (users_ok _ Hc));
          try assumption.
        now destruct ((User.ID r1 =? id)%N && UserRepository.live r1),
                     ((User.ID r2 =? id)%N && UserRepository.live r2).
    + intros i Hi. unfold user_row_present in Hi. rewrite <- Hi.
      apply existsb_map_same. intros r.
      now destruct ((User.ID r =? id)%N && UserRepository.live r).
Qed.

Lemma Flag_Delete_consistent (id : uint) (db : DB) :
  consistent db -> consistent (snd (FeatureFlagRepository.Delete id db)).
Proof.
  intros Hc. unfold FeatureFlagRepository.Delete.
  match goal with |- context [exec ?b db] =>
    destruct (exec_cases b db) as [fs [H|H]]; rewrite H; clear H end.
  - now apply consistent_set_faults.
  - apply (consistent_set_faults fs) in Hc. revert Hc.
    generalize (set_faults fs db). clear db. intros db Hc. cbn.
    apply (consistent_feature_flags db _ _ (N.succ (clock db)) (faults db) Hc).
    + apply table_ok_map; [apply Hc| |].
      * intros r.
        now destruct ((FeatureFlag.ID r =? id)%N && FeatureFlagRepository.live r).
      * intros r1 r2 H1 H2 Heq.
        apply (unique_key _ _ _ _ (feature_flags_ok _ Hc)); try assumption.
        now destruct ((FeatureFlag.ID r1 =? id)%N && FeatureFlagRepository.live r1),
                     ((FeatureFlag.ID r2 =? id)%N && FeatureFlagRepository.live r2).
    + intros i Hi. unfold flag_row_present in Hi. rewrite <- Hi.
      apply existsb_map_same. intros r.
      now destruct ((FeatureFlag.ID r =? id)%N && FeatureFlagRepository.live r).
Qed.

(** [Save] of a struct whose key is the key of a live row. *)
Lemma User_Update_consistent (user : User.t) (db : DB) :
  consistent db -> user_exists (User.ID user) db = true ->
  consistent (snd (UserRepository.Update user db)).
Proof.
  intros Hc Hex.
  assert (Hnz : (User.ID user =? 0)%N = false).
  { unfold user_exists in Hex. apply existsb_exists in Hex.
    destruct Hex as (r & Hin & Hr). apply andb_true_iff in Hr.
    destruct Hr as [Hid _]. apply N.eqb_eq in Hid.
    pose proof (serial _ _ _ _ (users_ok _ Hc) r Hin). apply N.eqb_neq. lia. }
  unfold UserRepository.Update. rewrite Hnz.
  match goal with |- context [exec ?b db] =>
    destruct (exec_cases b db) as [fs [H|H]]; rewrite H; clear H end.
  - now apply consistent_set_faults.
  - apply (consistent_set_faults fs) in Hc.
    assert (Hex' : user_exists (User.ID user) (set_faults fs db) = true)
      by exact Hex.
    revert Hc Hex'. generalize (set_faults fs db). clear db Hex.
    intros db Hc Hex. cbn.
    destruct (UserRepository.email_taken (User.ID user) (User.Email user) (users db))
             eqn:Et; cbn; [assumption|].
    unfold user_exists in Hex. rewrite Hex. cbn.
    apply (consistent_users db _ _ (N.succ (clock db)) (faults db) Hc).
    + apply table_ok_replace; [apply Hc| |exact Et].
      intros r Hr. apply andb_true_iff in Hr. destruct Hr as [Hid _].
      now apply N.eqb_eq in Hid.
    + intros i Hi. unfold user_row_present in Hi. rewrite <- Hi.
      apply existsb_map_same. intros r.
      destruct ((User.ID r =? User.ID user)%N && UserRepository.live r) eqn:E;
        [|reflexivity].
      apply andb_true_iff in E. destruct E as [Hid _]. apply N.eqb_eq in Hid.
      cbn. now rewrite Hid.
Qed.

Lemma Flag_Update_consistent (flag : FeatureFlag.t) (db : DB) :
  consistent db -> flag_exists (FeatureFlag.ID flag) db = true ->
  consistent (snd (FeatureFlagRepository.Update flag db)).
Proof.
  intros Hc Hex.
  assert (Hnz : (FeatureFlag.ID flag =? 0)%N = false).
  { unfold flag_exists in Hex. apply existsb_exists in Hex.
    destruct Hex as (r & Hin & Hr). apply andb_true_iff in Hr.
    destruct Hr as [Hid _]. apply N.eqb_eq in Hid.
    pose proof (serial _ _ _ _ (feature_flags_ok _ Hc) r Hin).
    apply N.eqb_neq. lia. }
  unfold FeatureFlagRepository.Update. rewrite Hnz.
  match goal with |- context [exec ?b db] =>
    destruct (exec_cases b db) as [fs [H|H]]; rewrite H; clear H end.
  - now apply consistent_set_faults.
  - apply (consistent_set_faults fs) in Hc.
    assert (Hex' : flag_exists (FeatureFlag.ID flag) (set_faults fs db) = true)
      by exact Hex.
    revert Hc Hex'. generalize (set_faults fs db). clear db Hex.
    intros db Hc Hex. cbn.
    destruct (FeatureFlagRepository.key_taken (FeatureFlag.ID flag)
                (FeatureFlag.Key flag) (feature_flags db)) eqn:Et; cbn;
      [assumption|].
    unfold flag_exists in Hex. rewrite Hex. cbn.
    apply (consistent_feature_flags db _ _ (N.succ (clock db)) (faults db) Hc).
    + apply table_ok_replace; [apply Hc| |exact Et].
      intros r Hr. apply andb_true_iff in Hr. destruct Hr as [Hid _].
      now apply N.eqb_eq in Hid.
    + intros i Hi. unfold flag_row_present in Hi. rewrite <- Hi.
      apply existsb_map_same. intros r.
      destruct ((FeatureFlag.ID r =? FeatureFlag.ID flag)%N
                && FeatureFlagRepository.live r) eqn:E; [|reflexivity].
      apply andb_true_iff in E. destruct E as [Hid _]. apply N.eqb_eq in Hid.
      cbn. now rewrite Hid.
Qed.

Lemma consistent_user_feature_flags (db : DB) (rows : list UserFeatureFlag.t)
      (t : Time) (fs : list bool) :
  consistent db ->
  NoDup (map (fun r => (UserFeatureFlag.UserID r, UserFeatureFlag.FeatureFlagID r))
             rows) ->
  (forall r, In r rows ->
             user_row_present (UserFeatureFlag.UserID r) db = true /\
             flag_row_present (UserFeatureFlag.FeatureFlagID r) db = true) ->
  consistent (mkDB (users db) (feature_flags db) rows (users_id_seq db)
                   (feature_flags_id_seq db) t fs).
Proof.
  intros [Hu Hf Hpk Hfk] Hnd Hrows. constructor; cbn; try assumption.
Qed.

Lemma Assign_consistent (userID featureFlagID : uint) (db : DB) :
  consistent db ->
  consistent (snd (UserFeatureFlagRepository.AssignFeatureFlagToUser
                     userID featureFlagID db)).
Proof.
  intros Hc. unfold UserFeatureFlagRepository.AssignFeatureFlagToUser.
  match goal with |- context [exec ?b db] =>
    destruct (exec_cases b db) as [fs [H|H]]; rewrite H; clear H end.
  - now apply consistent_set_faults.
  - apply (consistent_set_faults fs) in Hc. revert Hc.
    generalize (set_faults fs db). clear db. intros db Hc. cbn.
    destruct (existsb (UserFeatureFlagRepository.is_pair userID featureFlagID)
                      (user_feature_flags db)) eqn:Ep; cbn; [assumption|].
    destruct (negb (existsb (fun u => (User.ID u =? userID)%N) (users db))
              || negb (existsb (fun f => (FeatureFlag.ID f =? featureFlagID)%N)
                               (feature_flags db))) eqn:Efk; cbn; [assumption|].
    apply orb_false_iff in Efk. destruct Efk as [Eu Ef].
    apply negb_false_iff in Eu. apply negb_false_iff in Ef.
    apply (consistent_user_feature_flags db _ (N.succ (clock db)) (faults db) Hc).
    + cbn. rewrite map_app. cbn. apply NoDup_snoc; [apply Hc|].
      intros Hin. apply in_map_iff in Hin. destruct Hin as (r & Hr & Hin).
      injection Hr as H1 H2.
      assert (existsb (UserFeatureFlagRepository.is_pair userID featureFlagID)
                      (user_feature_flags db) = true).
      { apply existsb_exists. exists r. split; [assumption|].
        unfold UserFeatureFlagRepository.is_pair.
        now rewrite H1, H2, !N.eqb_refl. }
      congruence.
    + cbn. intros r Hin. apply in_app_or in Hin. destruct Hin as [Hin|[<-|[]]].
      * now apply (user_feature_flags_fkeys _ Hc).
      * cbn. split; assumption.
Qed.

Lemma Unassign_consistent (userID featureFlagID : uint) (db : DB) :
  consistent db ->
  consistent (snd (UserFeatureFlagRepository.UnassignFeatureFlagFromUser
                     userID featureFlagID db)).
Proof.
  intros Hc. unfold UserFeatureFlagRepository.UnassignFeatureFlagFromUser.
  match goal with |- context [exec ?b db] =>
    destruct (exec_cases b db) as [fs [H|H]]; rewrite H; clear H end.
  - now apply consistent_set_faults.
  - apply (consistent_set_faults fs) in Hc. revert Hc.
    generalize (set_faults fs db). clear db. intros db Hc. cbn.
    apply (consistent_user_feature_flags db _ (clock db) (faults db) Hc).
    + cbn. apply NoDup_map_filter. apply Hc.
    + cbn. intros r Hin. apply filter_In in Hin. destruct Hin as [Hin _].
      now apply (user_feature_flags_fkeys _ Hc).
Qed.

(** ** The schema invariant: service calls *)

Lemma User_GetByID_Ok_any (id : uint) (db db1 : DB) (u : User.t) :
  UserRepository.GetByID id db = (Ok u, db1) ->
  (exists fs, db1 = set_faults fs db) /\
  In u (users db) /\ User.ID u = id /\ User.DeletedAt u = None /\
  user_exists id db = true.
Proof.
  unfold UserRepository.GetByID.
  match goal with |- context [exec ?b db] =>
    destruct (exec_cases b db) as [fs [H|H]]; rewrite H; clear H end;
    [discriminate|].
  cbn. intros H. injection H as Hfirst Hdb. split; [now exists fs|].
  apply First_Ok in Hfirst. destruct Hfirst as [Hin Hc].
  assert (Hex : user_exists id db = true).
  { unfold user_exists. apply existsb_exists. exists u. split; assumption. }
  apply andb_true_iff in Hc. destruct Hc as [Hid Hl].
  apply N.eqb_eq in Hid. unfold UserRepository.live in Hl.
  destruct (User.DeletedAt u); [discriminate|]. repeat split; assumption.
Qed.

Lemma Flag_GetByID_Ok_any (id : uint) (db db1 : DB) (f : FeatureFlag.t) :
  FeatureFlagRepository.GetByID id db = (Ok f, db1) ->
  (exists fs, db1 = set_faults fs db) /\
  In f (feature_flags db) /\ FeatureFlag.ID f = id /\
  FeatureFlag.DeletedAt f = None /\ flag_exists id db = true.
Proof.
  unfold FeatureFlagRepository.GetByID.
  match goal with |- context [exec ?b db] =>
    destruct (exec_cases b db) as [fs [H|H]]; rewrite H; clear H end;
    [discriminate|].
  cbn. intros H. injection H as Hfirst Hdb. split; [now exists fs|].
  apply First_Ok in Hfirst. destruct Hfirst as [Hin Hc].
  assert (Hex : flag_exists id db = true).
  { unfold flag_exists. apply existsb_exists. exists f. split; assumption. }
  apply andb_true_iff in Hc. destruct Hc as [Hid Hl].
  apply N.eqb_eq in Hid. unfold FeatureFlagRepository.live in Hl.
  destruct (FeatureFlag.DeletedAt f); [discriminate|]. repeat split; assumption.
Qed.

Lemma snd_of {A B : Type} (p : A * B) (a : A) (b : B) : p = (a, b) -> snd p = b.
Proof. now intros ->. Qed.

(** Run a repository call of the goal, keeping the invariant of the store
    it returns. *)
Ltac call_repo m db r db1 E Hc1 lem :=
  destruct (m db) as [r db1] eqn:E;
  assert (Hc1 : consistent db1)
    by (rewrite <- (snd_of _ _ _ E); apply lem; assumption).

Lemma User_GetByID_consistent (id : uint) (db : DB) :
  consistent db -> consistent (snd (UserRepository.GetByID id db)).
Proof. apply exec_read_consistent. Qed.

Lemma User_GetByEmail_consistent (email : string) (db : DB) :
  consistent db -> consistent (snd (UserRepository.GetByEmail email db)).
Proof. apply exec_read_consistent. Qed.

Lemma Flag_GetByID_consistent (id : uint) (db : DB) :
  consistent db -> consistent (snd (FeatureFlagRepository.GetByID id db)).
Proof. apply exec_read_consistent. Qed.

Lemma Flag_GetByKey_consistent (key : string) (db : DB) :
  consistent db -> consistent (snd (FeatureFlagRepository.GetByKey key db)).
Proof. apply exec_read_consistent. Qed.

Lemma IsAssigned_consistent (userID featureFlagID : uint) (db : DB) :
  consistent db ->
  consistent (snd (UserFeatureFlagRepository.IsFeatureFlagAssignedToUser
                     userID featureFlagID db)).
Proof.
  intros Hc. unfold UserFeatureFlagRepository.IsFeatureFlagAssignedToUser.
  match goal with |- context [exec ?b db] =>
    destruct (exec_cases b db) as [fs [H|H]]; rewrite H; clear H end;
    cbn; now apply consistent_set_faults.
Qed.

Lemma GetUserFeatureFlags_consistent (userID : uint) (db : DB) :
  consistent db ->
  consistent (snd (UserFeatureFlagRepository.GetUserFeatureFlags userID db)).
Proof. apply exec_read_consistent. Qed.

Lemma User_GetAll_consistent (limit offset : Z) (db : DB) :
  consistent db -> consistent (snd (UserRepository.GetAll limit offset db)).
Proof.
  intros Hc. unfold UserRepository.GetAll.
  match goal with |- context [match exec ?b db with _ => _ end] =>
    destruct (exec_cases b db) as [fs [H|H]]; rewrite H; clear H end; cbn.
  - now apply consistent_set_faults.
  - match goal with |- context [exec ?b ?d] =>
      destruct (exec_cases b d) as [fs' [H|H]]; rewrite H; clear H end;
      cbn; now do 2 apply consistent_set_faults.
Qed.

Lemma Flag_GetAll_consistent (limit offset : Z) (db : DB) :
  consistent db -> consistent (snd (FeatureFlagRepository.GetAll limit offset db)).
Proof.
  intros Hc. unfold FeatureFlagRepository.GetAll.
  match goal with |- context [match exec ?b db with _ => _ end] =>
    destruct (exec_cases b db) as [fs [H|H]]; rewrite H; clear H end; cbn.
  - now apply consistent_set_faults.
  - match goal with |- context [exec ?b ?d] =>
      destruct (exec_cases b d) as [fs' [H|H]]; rewrite H; clear H end;
      cbn; now do 2 apply consistent_set_faults.
Qed.

Lemma CreateUser_consistent (req : Dto.CreateUserRequest.t) (db : DB) :
  consistent db -> consistent (snd (Service.CreateUser req db)).
Proof.
  intros Hc. unfold Service.CreateUser.
  call_repo (UserRepository.GetByEmail (Dto.CreateUserRequest.Email req)) db
            r db1 E Hc1 User_GetByEmail_consistent.
  destruct r as [x|e]; cbn; [assumption|].
  match goal with |- context [UserRepository.Create ?u db1] =>
    call_repo (UserRepository.Create u) db1 r2 db2 E2 Hc2 User_Create_consistent
  end.
  now destruct r2.
Qed.

Lemma CreateFeatureFlag_consistent (req : Dto.CreateFeatureFlagRequest.t) (db : DB) :
  consistent db -> consistent (snd (Service.CreateFeatureFlag req db)).
Proof.
  intros Hc. unfold Service.CreateFeatureFlag.
  call_repo (FeatureFlagRepository.GetByKey (Dto.CreateFeatureFlagRequest.Key req))
            db r db1 E Hc1 Flag_GetByKey_consistent.
  destruct r as [x|e]; cbn; [assumption|].
  match goal with |- context [FeatureFlagRepository.Create ?u db1] =>
    call_repo (FeatureFlagRepository.Create u) db1 r2 db2 E2 Hc2
              Flag_Create_consistent
  end.
  now destruct r2.
Qed.

Lemma DeleteUser_consistent (id : uint) (db : DB) :
  consistent db -> consistent (snd (Service.DeleteUser id db)).
Proof.
  intros Hc. unfold Service.DeleteUser.
  call_repo (UserRepository.GetByID id) db r db1 E Hc1 User_GetByID_consistent.
  destruct r as [x|[]]; cbn; try assumption.
  call_repo (UserRepository.Delete id) db1 r2 db2 E2 Hc2 User_Delete_consistent.
  now destruct r2.
Qed.

Lemma DeleteFeatureFlag_consistent (id : uint) (db : DB) :
  consistent db -> consistent (snd (Service.DeleteFeatureFlag id db)).
Proof.
  intros Hc. unfold Service.DeleteFeatureFlag.
  call_repo (FeatureFlagRepository.GetByID id) db r db1 E Hc1
            Flag_GetByID_consistent.
  destruct r as [x|[]]; cbn; try assumption.
  call_repo (FeatureFlagRepository.Delete id) db1 r2 db2 E2 Hc2
            Flag_Delete_consistent.
  now destruct r2.
Qed.

Lemma UpdateUser_save_consistent
      (req : Dto.UpdateUserRequest.t) (user : User.t) (db : DB) :
  consistent db -> user_exists (User.ID user) db = true ->
  consistent (snd (Service.UpdateUser_save req user db)).
Proof.
  intros Hc Hex. unfold Service.UpdateUser_save.
  match goal with |- context [UserRepository.Update ?u db] =>
    destruct (UserRepository.Update u db) as [r db1] eqn:E;
    assert (Hc1 : consistent db1)
  end.
  { rewrite <- (snd_of _ _ _ E). apply User_Update_consistent; [assumption|].
    now destruct (Dto.UpdateUserRequest.Enabled req). }
  now destruct r.
Qed.

Lemma UpdateUser_consistent (id : uint) (req : Dto.UpdateUserRequest.t) (db : DB) :
  consistent db -> consistent (snd (Service.UpdateUser id req db)).
Proof.
  intros Hc. unfold Service.UpdateUser.
  call_repo (UserRepository.GetByID id) db r db1 E Hc1 User_GetByID_consistent.
  destruct r as [u|[]]; cbn; try assumption.
  destruct (User_GetByID_Ok_any _ _ _ _ E) as ([fs ->] & _ & Hid & _ & Hex).
  destruct (Dto.UpdateUserRequest.Email req) as [email|].
  - call_repo (UserRepository.GetByEmail email) (set_faults fs db) r2 db2 E2 Hc2
              User_GetByEmail_consistent.
    destruct (exec_read_tables
                (fun d => First User.ID
                            (fun r => (User.Email r =? email)%string
                                      && UserRepository.live r) (users d))
                (set_faults fs db)) as [fs2 Hdb2].
    change (snd (UserRepository.GetByEmail email (set_faults fs db)) =
            set_faults fs2 (set_faults fs db)) in Hdb2.
    rewrite E2 in Hdb2. cbn in Hdb2. subst db2.
    match goal with |- context [if ?c then _ else _] => destruct c end;
      cbn; [assumption|].
    apply UpdateUser_save_consistent; [assumption|].
    destruct (Dto.UpdateUserRequest.Name req); cbn; now rewrite Hid.
  - apply UpdateUser_save_consistent; [assumption|].
    destruct (Dto.UpdateUserRequest.Name req); cbn; now rewrite Hid.
Qed.

Lemma UpdateFeatureFlag_consistent
      (id : uint) (req : Dto.UpdateFeatureFlagRequest.t) (db : DB) :
  consistent db -> consistent (snd (Service.UpdateFeatureFlag id req db)).
Proof.
  intros Hc. unfold Service.UpdateFeatureFlag.
  call_repo (FeatureFlagRepository.GetByID id) db r db1 E Hc1
            Flag_GetByID_consistent.
  destruct r as [f|[]]; cbn; try assumption.
  destruct (Flag_GetByID_Ok_any _ _ _ _ E) as ([fs ->] & _ & Hid & _ & Hex).
  match goal with |- context [FeatureFlagRepository.Update ?u ?d] =>
    destruct (FeatureFlagRepository.Update u d) as [r2 db2] eqn:E2;
    assert (Hc2 : consistent db2)
  end.
  { rewrite <- (snd_of _ _ _ E2). apply Flag_Update_consistent; [assumption|].
    destruct (Dto.UpdateFeatureFlagRequest.Description req),
             (Dto.UpdateFeatureFlagRequest.Enabled req); cbn; now rewrite Hid. }
  now destruct r2.
Qed.

Lemma AssignFeatureFlagToUser_consistent (id : uint) (key : string) (db : DB) :
  consistent db -> consistent (snd (Service.AssignFeatureFlagToUser id key db)).
Proof.
  intros Hc. unfold Service.AssignFeatureFlagToUser.
  call_repo (UserRepository.GetByID id) db r db1 E Hc1 User_GetByID_consistent.
  destruct r as [u|[]]; cbn; try assumption.
  call_repo (FeatureFlagRepository.GetByKey key) db1 r2 db2 E2 Hc2
            Flag_GetByKey_consistent.
  destruct r2 as [f|[]]; cbn; try assumption.
  call_repo (UserFeatureFlagRepository.IsFeatureFlagAssignedToUser
               id (FeatureFlag.ID f)) db2 r3 db3 E3 Hc3 IsAssigned_consistent.
  destruct r3 as [[]|e]; cbn; try assumption.
  call_repo (UserFeatureFlagRepository.AssignFeatureFlagToUser
               id (FeatureFlag.ID f)) db3 r4 db4 E4 Hc4 Assign_consistent.
  now destruct r4.
Qed.

Lemma UnassignFeatureFlagFromUser_consistent (id : uint) (key : string) (db : DB) :
  consistent db ->
  consistent (snd (Service.UnassignFeatureFlagFromUser id key db)).
Proof.
  intros Hc. unfold Service.UnassignFeatureFlagFromUser.
  call_repo (UserRepository.GetByID id) db r db1 E Hc1 User_GetByID_consistent.
  destruct r as [u|[]]; cbn; try assumption.
  call_repo (FeatureFlagRepository.GetByKey key) db1 r2 db2 E2 Hc2
            Flag_GetByKey_consistent.
  destruct r2 as [f|[]]; cbn; try assumption.
  call_repo (UserFeatureFlagRepository.UnassignFeatureFlagFromUser
               id (FeatureFlag.ID f)) db2 r3 db3 E3 Hc3 Unassign_consistent.
  now destruct r3.
Qed.

Lemma run_consistent (op : Op) (db : DB) :
  consistent db -> consistent (run op db).
Proof.
  intros Hc. destruct op; cbn [run].
  - now apply CreateUser_consistent.
  - unfold Service.GetUser.
    call_repo (UserRepository.GetByID id) db r db1 E Hc1 User_GetByID_consistent.
    now destruct r as [u|[]].
  - unfold Service.GetUsers.
    destruct (Dto.GetLimit pagination) as [limit p1].
    destruct (Dto.GetOffset p1) as [offset p2].
    call_repo (UserRepository.GetAll limit offset) db r db1 E Hc1
              User_GetAll_consistent.
    now destruct r as [[us n]|e].
  - now apply UpdateUser_consistent.
  - now apply DeleteUser_consistent.
  - unfold Service.GetUserFeatureFlags.
    call_repo (UserRepository.GetByID userID) db r db1 E Hc1
              User_GetByID_consistent.
    destruct r as [u|[]]; cbn; try assumption.
    call_repo (UserFeatureFlagRepository.GetUserFeatureFlags userID) db1 r2 db2
              E2 Hc2 GetUserFeatureFlags_consistent.
    now destruct r2.
  - now apply AssignFeatureFlagToUser_consistent.
  - now apply UnassignFeatureFlagFromUser_consistent.
  - now apply CreateFeatureFlag_consistent.
  - unfold Service.GetFeatureFlag.
    call_repo (FeatureFlagRepository.GetByID id) db r db1 E Hc1
              Flag_GetByID_consistent.
    now destruct r as [u|[]].
  - unfold Service.GetFeatureFlagByKey.
    call_repo (FeatureFlagRepository.GetByKey key) db r db1 E Hc1
              Flag_GetByKey_consistent.
    now destruct r as [u|[]].
  - unfold Service.GetFeatureFlags.
    destruct (Dto.GetLimit pagination) as [limit p1].
    destruct (Dto.GetOffset p1) as [offset p2].
    call_repo (FeatureFlagRepository.GetAll limit offset) db r db1 E Hc1
              Flag_GetAll_consistent.
    now destruct r as [[us n]|e].
  - now apply UpdateFeatureFlag_consistent.
  - now apply DeleteFeatureFlag_consistent.
Qed.

Lemma reachable_consistent (db : DB) : reachable db -> consistent db.
Proof.
  induction 1 as [fs | op db Hr IH].
  - apply consistent_empty.
  - now apply run_consistent.
Qed.

(** ** Deleting an endpoint of an assignment *)

(** C1, as stated, fails: after user 1 is created, flag "beta" is created
    and assigned to the user, [DeleteUser 1] succeeds and the assignment
    row (1, 1) is still in the table although user 1 no longer exists;
    likewise after [DeleteFeatureFlag 1]. *)
Lemma C1_assignment_outlives_deleted_endpoint :
  (reachable db_ann_deleted /\
   Service.DeleteUser 1%N db_assigned = (Ok tt, db_ann_deleted) /\
   isAssigned 1%N 1%N db_ann_deleted = true /\
   user_exists 1%N db_ann_deleted = false) /\
  (reachable db_beta_deleted /\
   Service.DeleteFeatureFlag 1%N db_assigned = (Ok tt, db_beta_deleted) /\
   isAssigned 1%N 1%N db_beta_deleted = true /\
   flag_exists 1%N db_beta_deleted = false).
Proof.
  split; (split; [repeat constructor | repeat split; reflexivity]).
Qed.

(** C1 (amended): in every reachable state an assignment row exists only
    if the rows of the referenced user and of the referenced feature flag
    are in their tables, soft-deleted or not; a successful [DeleteUser] or
    [DeleteFeatureFlag] soft-deletes the entity (it no longer exists, its
    row stays) and leaves the assignment table as it was. *)
Theorem C1_assignments_reference_stored_rows (db : DB) :
  reachable db ->
  (forall r, In r (user_feature_flags db) ->
             user_row_present (UserFeatureFlag.UserID r) db = true /\
             flag_row_present (UserFeatureFlag.FeatureFlagID r) db = true) /\
  (forall id db',
     faults db = [] -> Service.DeleteUser id db = (Ok tt, db') ->
     user_exists id db' = false /\ user_row_present id db' = true /\
     user_feature_flags db' = user_feature_flags db) /\
  (forall id db',
     faults db = [] -> Service.DeleteFeatureFlag id db = (Ok tt, db') ->
     flag_exists id db' = false /\ flag_row_present id db' = true /\
     user_feature_flags db' = user_feature_flags db).
Proof.
  intros Hr. pose proof (reachable_consistent _ Hr) as Hc.
  split; [apply Hc|]. split.
  - intros id db' Hf Hdel.
    destruct (DeleteUser_Ok_inv _ _ _ Hf Hdel) as (Hex & Hdb & _ & Hgone & Hufs & _).
    repeat split; try assumption.
    subst db'. rewrite User_Delete_eq by assumption. unfold user_row_present. cbn.
    rewrite existsb_map_same.
    + unfold user_exists in Hex. apply existsb_exists in Hex.
      destruct Hex as (u & Hin & Hu). apply andb_true_iff in Hu.
      apply existsb_exists. exists u. tauto.
    + intros r. now destruct ((User.ID r =? id)%N && UserRepository.live r).
  - intros id db' Hf Hdel.
    destruct (DeleteFeatureFlag_Ok_inv _ _ _ Hf Hdel)
      as (Hex & Hdb & _ & Hgone & Hufs & _).
    repeat split; try assumption.
    subst db'. rewrite Flag_Delete_eq by assumption. unfold flag_row_present. cbn.
    rewrite existsb_map_same.
    + unfold flag_exists in Hex. apply existsb_exists in Hex.
      destruct Hex as (u & Hin & Hu). apply andb_true_iff in Hu.
      apply existsb_exists. exists u. tauto.
    + intros r.
      now destruct ((FeatureFlag.ID r =? id)%N && FeatureFlagRepository.live r).
Qed.

Lemma C1_assignments_reference_stored_rows_witness :
  reachable db_assigned /\
  faults db_assigned = [] /\
  Service.DeleteUser 1%N db_assigned = (Ok tt, db_ann_deleted) /\
  user_exists 1%N db_ann_deleted = false /\
  user_row_present 1%N db_ann_deleted = true /\
  user_feature_flags db_ann_deleted = user_feature_flags db_assigned.
Proof.
  assert (Hr : reachable db_assigned) by repeat constructor.
  split; [exact Hr | split; [reflexivity | split; [reflexivity|]]].
  destruct (C1_assignments_reference_stored_rows db_assigned Hr) as (_ & Hdel & _).
  apply (Hdel 1%N db_ann_deleted); reflexivity.
Defined.

(** ** Creating users *)

Lemma CreateUser_in_use (req : Dto.CreateUserRequest.t) (db : DB) :
  faults db = [] ->
  email_in_use (Dto.CreateUserRequest.Email req) db = true ->
  Service.CreateUser req db = (Err EmailAlreadyExists, db).
Proof.
  intros Hf Huse. unfold Service.CreateUser.
  rewrite User_GetByEmail_eq by assumption.
  destruct (First_found User.ID _ _ Huse) as [u ->]. reflexivity.
Qed.

Lemma CreateUser_not_in_use (req : Dto.CreateUserRequest.t) (db : DB) :
  faults db = [] ->
  email_in_use (Dto.CreateUserRequest.Email req) db = false ->
  fst (Service.CreateUser req db) <> Err EmailAlreadyExists.
Proof.
  intros Hf Huse. unfold Service.CreateUser.
  rewrite User_GetByEmail_eq by assumption.
  unfold email_in_use in Huse. rewrite First_missing by assumption.
  match goal with |- context [UserRepository.Create ?u db] =>
    destruct (UserRepository.Create u db) as [[x|e] db1] end; cbn; discriminate.
Qed.

Lemma email_in_use_on_record (email : string) (db : DB) :
  email_in_use email db = true -> email_on_record email db = true.
Proof.
  unfold email_in_use, email_on_record. intros H.
  apply existsb_exists in H. destruct H as (r & Hin & Hr).
  apply andb_true_iff in Hr. destruct Hr as [Hr _].
  apply existsb_exists. eauto.
Qed.

(** C5, as stated, fails: in the store where Ann was created and then
    deleted, no non-deleted user has her email, yet [CreateUser] with that
    email neither creates a user nor fails with the email-already-exists
    error: the insert hits the unique index on [email]. *)
Lemma C5_email_of_deleted_user_is_refused :
  faults db_ann_deleted = [] /\ consistent db_ann_deleted /\
  email_in_use "ann@x.com" db_ann_deleted = false /\
  fst (Service.CreateUser ann db_ann_deleted) =
    Err (Service.Errorf "failed to create user" ErrUniqueViolation) /\
  users (snd (Service.CreateUser ann db_ann_deleted)) = users db_ann_deleted.
Proof.
  split; [reflexivity|]. split.
  - apply reachable_consistent. repeat constructor.
  - repeat split; reflexivity.
Qed.

(** C5 (amended): [CreateUser] fails with the email-already-exists error
    if and only if a non-deleted user has exactly that email; if no user
    row at all, soft-deleted ones included, has that email, it stores and
    returns the new user, and any later [CreateUser] with the same email
    fails with the email-already-exists error: of two such calls in a row,
    in either order, the first succeeds and the second does not. *)
Theorem C5_create_user_email_uniqueness (db : DB) (req : Dto.CreateUserRequest.t) :
  faults db = [] -> consistent db ->
  (fst (Service.CreateUser req db) = Err EmailAlreadyExists <->
   email_in_use (Dto.CreateUserRequest.Email req) db = true) /\
  (email_on_record (Dto.CreateUserRequest.Email req) db = false ->
   exists user db',
     Service.CreateUser req db = (Ok (Service.toUserResponse user), db') /\
     users db' = users db ++ [user] /\
     User.ID user = users_id_seq db /\
     User.Name user = Dto.CreateUserRequest.Name req /\
     User.Email user = Dto.CreateUserRequest.Email req /\
     User.DeletedAt user = None /\
     forall req2,
       Dto.CreateUserRequest.Email req2 = Dto.CreateUserRequest.Email req ->
       Service.CreateUser req2 db' = (Err EmailAlreadyExists, db')).
Proof.
  intros Hf Hc. split.
  - split.
    + intros H. destruct (email_in_use (Dto.CreateUserRequest.Email req) db) eqn:E;
        [reflexivity|].
      exfalso. now apply (CreateUser_not_in_use req db Hf E).
    + intros H. now rewrite CreateUser_in_use.
  - intros Hrec.
    assert (Huse : email_in_use (Dto.CreateUserRequest.Email req) db = false).
    { destruct (email_in_use (Dto.CreateUserRequest.Email req) db) eqn:E;
        [|reflexivity].
      apply email_in_use_on_record in E. congruence. }
    pose proof (table_ok_fresh_id _ _ _ _ (users_ok _ Hc)) as Hfresh.
    destruct req as [name email enabled]. cbn in *.
    set (user := User.mk (users_id_seq db) name email
                         (UserRepository.enabled_on_insert enabled)
                         (clock db) (clock db) None None).
    set (db' := tick (set_users (users db ++ [user])
                        (set_users_id_seq (N.succ (users_id_seq db)) db))).
    exists user, db'. split; [|repeat split].
    + unfold Service.CreateUser. cbn.
      rewrite User_GetByEmail_eq by assumption.
      unfold email_in_use in Huse. rewrite First_missing by assumption.
      rewrite User_Create_eq by assumption. cbv zeta.
      unfold user_row_present. rewrite Hfresh, Hrec. reflexivity.
    + intros req2 Heq. apply CreateUser_in_use; [exact Hf|].
      rewrite Heq. unfold email_in_use, db'. cbn.
      rewrite existsb_app. cbn. rewrite String.eqb_refl. cbn.
      apply orb_true_r.
Qed.

Lemma C5_create_user_email_uniqueness_witness :
  faults (empty_db []) = [] /\ consistent (empty_db []) /\
  email_on_record "ann@x.com" (empty_db []) = false /\
  exists user db',
    Service.CreateUser ann (empty_db []) = (Ok (Service.toUserResponse user), db') /\
    Service.CreateUser (Dto.CreateUserRequest.mk "Other" "ann@x.com" false) db' =
    (Err EmailAlreadyExists, db').
Proof.
  split; [reflexivity|]. split; [apply consistent_empty|].
  split; [reflexivity|].
  destruct (C5_create_user_email_uniqueness (empty_db []) ann eq_refl
              (consistent_empty [])) as [_ H].
  destruct (H eq_refl) as (user & db' & Hcreate & _ & _ & _ & _ & _ & Hsecond).
  exists user, db'. split; [exact Hcreate|]. apply Hsecond. reflexivity.
Defined.

(** ** Updating users *)

Lemma First_unique {A : Type} (id : A -> N) (cond : A -> bool) (rows : list A)
      (r : A) :
  In r rows -> cond r = true ->
  (forall r', In r' rows -> cond r' = true -> r' = r) ->
  First id cond rows = Ok r.
Proof.
  intros Hin Hc Huniq.
  assert (Hex : existsb cond rows = true) by (apply existsb_exists; eauto).
  destruct (First_found id _ _ Hex) as [r' Hr']. rewrite Hr'.
  apply First_Ok in Hr'. destruct Hr' as [Hin' Hc'].
  now rewrite (Huniq r' Hin' Hc').
Qed.

Lemma User_GetByID_row (db : DB) (u : User.t) :
  faults db = [] -> consistent db ->
  In u (users db) -> User.DeletedAt u = None ->
  UserRepository.GetByID (User.ID u) db = (Ok u, db).
Proof.
  intros Hf Hc Hin Hlive. rewrite User_GetByID_eq by assumption.
  rewrite (First_unique _ _ _ u); try assumption; try reflexivity.
  - rewrite N.eqb_refl. unfold UserRepository.live. now rewrite Hlive.
  - intros r' Hin' Hc'. apply andb_true_iff in Hc'. destruct Hc' as [Hid _].
    apply N.eqb_eq in Hid.
    now apply (table_ok_same_row _ _ _ _ _ _ (users_ok _ Hc)).
Qed.

Lemma User_Update_eq (user : User.t) (db : DB) :
  faults db = [] -> (User.ID user =? 0)%N = false ->
  UserRepository.email_taken (User.ID user) (User.Email user) (users db) = false ->
  user_exists (User.ID user) db = true ->
  UserRepository.Update user db =
  let row := User.mk (User.ID user) (User.Name user) (User.Email user)
                     (User.Enabled user) (User.CreatedAt user) (clock db)
                     (User.DeletedAt user) (User.LastLogin user) in
  (Ok row,
   tick (set_users
           (map (fun r => if (User.ID r =? User.ID user)%N && UserRepository.live r
                          then row else r) (users db)) db)).
Proof.
  intros Hf Hnz Ht Hex. unfold UserRepository.Update. rewrite Hnz.
  rewrite exec_no_faults by assumption. cbv zeta.
  unfold user_exists in Hex. now rewrite Ht, Hex.
Qed.

Lemma User_Update_taken (user : User.t) (db : DB) :
  faults db = [] -> (User.ID user =? 0)%N = false ->
  UserRepository.email_taken (User.ID user) (User.Email user) (users db) = true ->
  UserRepository.Update user db = (Err ErrUniqueViolation, db).
Proof.
  intros Hf Hnz Ht. unfold UserRepository.Update. rewrite Hnz.
  rewrite exec_no_faults by assumption. cbv zeta. now rewrite Ht.
Qed.

Lemma own_email_not_taken (db : DB) (u : User.t) :
  consistent db -> In u (users db) ->
  UserRepository.email_taken (User.ID u) (User.Email u) (users db) = false.
Proof.
  intros Hc Hin. unfold UserRepository.email_taken.
  destruct (existsb _ (users db)) eqn:E; [|reflexivity].
  apply existsb_exists in E. destruct E as (r & Hr & Hcond).
  apply andb_true_iff in Hcond. destruct Hcond as [Hne Heq].
  apply String.eqb_eq in Heq.
  pose proof (unique_key _ _ _ _ (users_ok _ Hc) r u Hr Hin Heq) as Hid.
  rewrite Hid, N.eqb_refl in Hne. discriminate.
Qed.

Lemma apply_update_steps (req : Dto.UpdateUserRequest.t) (now : Time) (u : User.t) :
  let user :=
    match Dto.UpdateUserRequest.Name req with
    | Some n => Service.set_Name n u | None => u end in
  let user :=
    match Dto.UpdateUserRequest.Email req with
    | Some e => Service.set_Email e user | None => user end in
  let user :=
    match Dto.UpdateUserRequest.Enabled req with
    | Some b => Service.set_Enabled b user | None => user end in
  User.mk (User.ID user) (User.Name user) (User.Email user) (User.Enabled user)
          (User.CreatedAt user) now (User.DeletedAt user) (User.LastLogin user)
  = apply_update req now u.
Proof.
  destruct req as [[n|] [e|] [b|]], u; reflexivity.
Qed.

(** C7, as stated, fails: with Ann (user 1) soft-deleted and Bob (user 2)
    stored, no non-deleted user other than Bob has Ann's email, yet
    [UpdateUser 2] with that email does not apply the payload: the update
    hits the unique index on [email] and the wrapped store error comes
    back. *)
Lemma C7_email_of_deleted_user_is_refused :
  let req := Dto.UpdateUserRequest.mk None (Some "ann@x.com"%string) None in
  faults db_ann_deleted_bob = [] /\ consistent db_ann_deleted_bob /\
  user_exists 2%N db_ann_deleted_bob = true /\
  email_in_use "ann@x.com" db_ann_deleted_bob = false /\
  Service.UpdateUser 2%N req db_ann_deleted_bob =
    (Err (Service.Errorf "failed to update user" ErrUniqueViolation),
     db_ann_deleted_bob).
Proof.
  cbv zeta. split; [reflexivity|]. split.
  - apply reachable_consistent. repeat constructor.
  - repeat split; reflexivity.
Qed.

Lemma UpdateUser_applies (db : DB) (req : Dto.UpdateUserRequest.t) (u : User.t) :
  faults db = [] -> consistent db ->
  In u (users db) -> User.DeletedAt u = None ->
  (forall email, Dto.UpdateUserRequest.Email req = Some email ->
                 UserRepository.email_taken (User.ID u) email (users db) = false) ->
  Service.UpdateUser (User.ID u) req db =
  (Ok (Service.toUserResponse (apply_update req (clock db) u)),
   tick (set_users
           (map (fun r => if (User.ID r =? User.ID u)%N
                          then apply_update req (clock db) u else r)
                (users db)) db)).
Proof.
  intros Hf Hc Hin Hlive Hfree.
  assert (Hnz : (User.ID u =? 0)%N = false).
  { pose proof (serial _ _ _ _ (users_ok _ Hc) u Hin). apply N.eqb_neq. lia. }
  assert (Hex : user_exists (User.ID u) db = true).
  { unfold user_exists. apply existsb_exists. exists u. split; [assumption|].
    rewrite N.eqb_refl. unfold UserRepository.live. now rewrite Hlive. }
  assert (Hmap :
    map (fun r => if (User.ID r =? User.ID u)%N && UserRepository.live r
                  then apply_update req (clock db) u else r) (users db) =
    map (fun r => if (User.ID r =? User.ID u)%N
                  then apply_update req (clock db) u else r) (users db)).
  { apply map_ext_in. intros r Hr. destruct (User.ID r =? User.ID u)%N eqn:E;
      [|reflexivity].
    apply N.eqb_eq in E.
    rewrite (table_ok_same_row _ _ _ _ _ _ (users_ok _ Hc) Hr Hin E).
    unfold UserRepository.live. now rewrite Hlive. }
  assert (Hsave : forall user,
    User.ID user = User.ID u ->
    UserRepository.email_taken (User.ID u) (User.Email user) (users db) = false ->
    User.mk (User.ID user) (User.Name user) (User.Email user)
      (match Dto.UpdateUserRequest.Enabled req with
       | Some b => b | None => User.Enabled user end)
      (User.CreatedAt user) (clock db) (User.DeletedAt user) (User.LastLogin user)
    = apply_update req (clock db) u ->
    Service.UpdateUser_save req user db =
    (Ok (Service.toUserResponse (apply_update req (clock db) u)),
     tick (set_users
             (map (fun r => if (User.ID r =? User.ID u)%N
                            then apply_update req (clock db) u else r)
                  (users db)) db))).
  { intros user Hid Ht Hrow. unfold Service.UpdateUser_save.
    rewrite User_Update_eq; try assumption.
    - cbv zeta. rewrite <- Hmap, <- Hrow.
      destruct (Dto.UpdateUserRequest.Enabled req); cbn; rewrite Hid; reflexivity.
    - destruct (Dto.UpdateUserRequest.Enabled req); cbn; now rewrite Hid.
    - destruct (Dto.UpdateUserRequest.Enabled req); cbn; now rewrite Hid.
    - destruct (Dto.UpdateUserRequest.Enabled req); cbn; now rewrite Hid. }
  unfold Service.UpdateUser.
  rewrite (User_GetByID_row db u Hf Hc Hin Hlive).
  pose proof (apply_update_steps req (clock db) u) as Hsteps. cbv zeta in Hsteps.
  destruct (Dto.UpdateUserRequest.Email req) as [email|] eqn:Eemail.
  - rewrite User_GetByEmail_eq by assumption.
    specialize (Hfree email eq_refl).
    assert (Hnot : match First User.ID
                          (fun r => (User.Email r =? email)%string
                                    && UserRepository.live r) (users db) with
                   | Ok existingUser => negb (User.ID existingUser =? User.ID u)%N
                   | Err _ => false
                   end = false).
    { destruct (First _ _ (users db)) as [x|e] eqn:Efirst; [|reflexivity].
      apply First_Ok in Efirst. destruct Efirst as [Hx Hcond].
      apply andb_true_iff in Hcond. destruct Hcond as [Hmail _].
      destruct (User.ID x =? User.ID u)%N eqn:Eid; [reflexivity|].
      exfalso. unfold UserRepository.email_taken in Hfree.
      assert (existsb (fun r => negb (User.ID r =? User.ID u)%N
                                && (User.Email r =? email)%string) (users db) = true).
      { apply existsb_exists. exists x. split; [assumption|].
        now rewrite Eid, Hmail. }
      congruence. }
    rewrite Hnot. apply Hsave.
    + now destruct (Dto.UpdateUserRequest.Name req).
    + now destruct (Dto.UpdateUserRequest.Name req).
    + rewrite <- Hsteps.
      destruct (Dto.UpdateUserRequest.Name req),
               (Dto.UpdateUserRequest.Enabled req); reflexivity.
  - apply Hsave.
    + now destruct (Dto.UpdateUserRequest.Name req).
    + destruct (Dto.UpdateUserRequest.Name req); cbn;
        now apply own_email_not_taken.
    + rewrite <- Hsteps.
      destruct (Dto.UpdateUserRequest.Name req),
               (Dto.UpdateUserRequest.Enabled req); reflexivity.
Qed.

(** C7 (amended): [UpdateUser] fails with the user-not-found error if no
    non-deleted user has the id; it fails with the email-already-exists
    error if an email is supplied that a non-deleted user with another id
    has; and if the supplied email, if any, is on no row with another id,
    soft-deleted rows included, it stores and returns the user with exactly
    the fields of the payload replaced ([updated_at] is set by the store),
    every other field, every other user, the flags and the assignments
    unchanged.  The failures leave the store unchanged. *)
Theorem C7_update_user_partial (db : DB) (id : uint) (req : Dto.UpdateUserRequest.t) :
  faults db = [] -> consistent db ->
  (user_exists id db = false ->
   Service.UpdateUser id req db = (Err UserNotFound, db)) /\
  (forall email other,
     user_exists id db = true ->
     Dto.UpdateUserRequest.Email req = Some email ->
     In other (users db) -> User.Email other = email ->
     User.DeletedAt other = None -> User.ID other <> id ->
     Service.UpdateUser id req db = (Err EmailAlreadyExists, db)) /\
  (forall u,
     In u (users db) -> User.ID u = id -> User.DeletedAt u = None ->
     (forall email, Dto.UpdateUserRequest.Email req = Some email ->
                    UserRepository.email_taken id email (users db) = false) ->
     exists db',
       Service.UpdateUser id req db =
       (Ok (Service.toUserResponse (apply_update req (clock db) u)), db') /\
       users db' =
       map (fun r => if (User.ID r =? id)%N
                     then apply_update req (clock db) u else r) (users db) /\
       UserRepository.GetByID id db' = (Ok (apply_update req (clock db) u), db') /\
       feature_flags db' = feature_flags db /\
       user_feature_flags db' = user_feature_flags db).
Proof.
  intros Hf Hc. split; [|split].
  - intros Hu. unfold Service.UpdateUser. now rewrite User_GetByID_missing.
  - intros email other Hu Hreq Hin Hmail Hlive Hne.
    unfold Service.UpdateUser.
    destruct (User_GetByID_found _ _ Hf Hu) as (u & -> & _).
    rewrite Hreq, User_GetByEmail_eq by assumption.
    assert (Hex : existsb (fun r => (User.Email r =? email)%string
                                    && UserRepository.live r) (users db) = true).
    { apply existsb_exists. exists other. split; [assumption|].
      unfold UserRepository.live. rewrite Hlive, Hmail. now rewrite String.eqb_refl. }
    destruct (First_found User.ID _ _ Hex) as [x Hx]. rewrite Hx.
    apply First_Ok in Hx. destruct Hx as [Hxin Hcond].
    apply andb_true_iff in Hcond. destruct Hcond as [Hxmail _].
    apply String.eqb_eq in Hxmail.
    assert (Hid : User.ID x = User.ID other).
    { apply (unique_key _ _ _ _ (users_ok _ Hc)); try assumption. congruence. }
    assert (Hneq : (User.ID x =? id)%N = false)
      by (apply N.eqb_neq; congruence).
    now rewrite Hneq.
  - intros u Hin Hid Hlive Hfree. subst id.
    eexists. split; [now apply UpdateUser_applies|].
    split; [reflexivity|]. split; [|split; reflexivity].
    set (u' := apply_update req (clock db) u).
    rewrite User_GetByID_eq by exact Hf. cbn [users tick set_users].
    rewrite (First_unique _ _ _ u'); [reflexivity| | |].
    + apply in_map_iff. exists u. split; [|assumption]. now rewrite N.eqb_refl.
    + unfold u'. cbn. rewrite N.eqb_refl. unfold UserRepository.live. cbn.
      now rewrite Hlive.
    + intros r' Hr' Hcond. apply in_map_iff in Hr'.
      destruct Hr' as (r & <- & Hr).
      destruct (User.ID r =? User.ID u)%N eqn:E; [reflexivity|].
      apply andb_true_iff in Hcond. destruct Hcond as [Hcond _]. congruence.
Qed.

Lemma C7_update_user_partial_witness :
  let req := Dto.UpdateUserRequest.mk (Some "Anna"%string) None None in
  faults db_ann = [] /\ consistent db_ann /\
  exists db',
    Service.UpdateUser 1%N req db_ann =
    (Ok (Dto.UserResponse.mk 1%N "Anna" "ann@x.com" true 1%N 2%N None), db').
Proof.
  cbv zeta.
  assert (Hc : consistent db_ann)
    by (apply reachable_consistent; repeat constructor).
  split; [reflexivity | split; [exact Hc|]].
  destruct (C7_update_user_partial db_ann 1%N
              (Dto.UpdateUserRequest.mk (Some "Anna"%string) None None)
              eq_refl Hc) as (_ & _ & H).
  destruct (H (User.mk 1%N "Ann" "ann@x.com" true 1%N 1%N None None))
    as (db' & Hupd & _).
  - left. reflexivity.
  - reflexivity.
  - reflexivity.
  - intros email Hreq. discriminate.
  - exists db'. exact Hupd.
Defined.

(** ** The scenario of the specification, run on the model *)

Example scenario_create_assign_delete :
  fst (Service.CreateUser ann (empty_db [])) =
    Ok (Dto.UserResponse.mk 1%N "Ann" "ann@x.com" true 1%N 1%N None) /\
  fst (Service.CreateFeatureFlag beta db_ann) =
    Ok (Dto.FeatureFlagResponse.mk 1%N "beta" "" false 2%N 2%N) /\
  fst (Service.AssignFeatureFlagToUser 1%N "beta" db_ann_beta) = Ok tt /\
  fst (Service.GetUserFeatureFlags 1%N db_assigned) =
    Ok [Dto.FeatureFlagResponse.mk 1%N "beta" "" false 2%N 2%N] /\
  fst (Service.DeleteUser 1%N db_assigned) = Ok tt /\
  fst (Service.GetUserFeatureFlags 1%N db_ann_deleted) = Err UserNotFound.
Proof. repeat split; reflexivity. Qed.

(** * Further properties of the code *)

(** ** Path parameters: [strconv.ParseUint(idStr, 10, 32)] *)

Lemma decimal_from_ge (s : string) (n : N) : (n <= decimal_from s n)%N.
Proof.
  revert n. induction s as [|c rest IH]; intros n; cbn; [lia|].
  specialize (IH (n * 10 + (Ascii.N_of_ascii c - 48))%N). lia.
Qed.

Lemma ParseUint_loop_decimal (s : string) (n : N) :
  (n <= maxUint32)%N ->
  ParseUint_loop s n =
  if all_digits s && (decimal_from s n <=? maxUint32)%N
  then Some (decimal_from s n) else None.
Proof.
  revert n. induction s as [|c rest IH]; intros n Hn; cbn.
  - assert (H : (n <=? maxUint32)%N = true) by now apply N.leb_le.
    now rewrite H.
  - unfold is_digit.
    destruct ((48 <=? Ascii.N_of_ascii c)%N && (Ascii.N_of_ascii c <=? 57)%N);
      cbn; [|reflexivity].
    destruct (maxUint32 <? n * 10 + (Ascii.N_of_ascii c - 48))%N eqn:E.
    + apply N.ltb_lt in E.
      pose proof (decimal_from_ge rest (n * 10 + (Ascii.N_of_ascii c - 48))%N).
      assert (H' : (decimal_from rest (n * 10 + (Ascii.N_of_ascii c - 48))
                    <=? maxUint32)%N = false) by (apply N.leb_gt; lia).
      rewrite H'. now rewrite andb_false_r.
    + apply N.ltb_ge in E. now apply IH.
Qed.

(** [ParseUint] accepts exactly the non-empty strings of ASCII digits whose
    decimal value is at most 4294967295, and returns that value. *)
Lemma ParseUint_accepts (s : string) (n : N) :
  ParseUint s = Some n <->
  s <> EmptyString /\ all_digits s = true /\
  decimal_value s = n /\ (n <= maxUint32)%N.
Proof.
  unfold ParseUint, decimal_value. destruct s as [|c rest].
  - split; [discriminate | intros [H _]; now contradiction H].
  - rewrite ParseUint_loop_decimal by (unfold maxUint32; lia).
    destruct (all_digits (String c rest)) eqn:Ed; cbn [andb].
    + destruct (decimal_from (String c rest) 0 <=? maxUint32)%N eqn:El.
      * apply N.leb_le in El. split.
        -- intros H. injection H as <-. repeat split; [discriminate | exact El].
        -- intros (_ & _ & <- & _). reflexivity.
      * apply N.leb_gt in El. split; [discriminate|].
        intros (_ & _ & <- & H). lia.
    + split; [discriminate | intros (_ & H & _); discriminate].
Qed.

Ltac not_bad_request :=
  match goal with
  | |- context [match ?svc with _ => _ end] => destruct svc as [[?|?] ?]
  end; cbn;
  repeat match goal with |- context [if ?c then _ else _] => destruct c end;
  cbn; intros H; discriminate H.

(** The handlers that read nothing but the id answer 400 exactly when
    [ParseUint] fails; every handler with an id answers [invalid_id] then
    and does not touch the store. *)
Lemma handlers_bad_id_cases
      (driver_text : Gorm.error -> string) (idStr : string) (db : DB) :
  let bad := ParseUint idStr = None in
  (Handler.Status (fst (Handler.GetUser driver_text idStr db)) = 400 <-> bad) /\
  (Handler.Status (fst (Handler.DeleteUser driver_text idStr db)) = 400 <-> bad) /\
  (Handler.Status (fst (Handler.GetUserFeatureFlags driver_text idStr db)) = 400
   <-> bad) /\
  (Handler.Status (fst (Handler.GetFeatureFlag driver_text idStr db)) = 400
   <-> bad) /\
  (Handler.Status (fst (Handler.DeleteFeatureFlag driver_text idStr db)) = 400
   <-> bad) /\
  (bad ->
   Handler.GetUser driver_text idStr db =
     (Handler.fail 400 "invalid_id" "Invalid user ID", db) /\
   Handler.DeleteUser driver_text idStr db =
     (Handler.fail 400 "invalid_id" "Invalid user ID", db) /\
   Handler.GetUserFeatureFlags driver_text idStr db =
     (Handler.fail 400 "invalid_id" "Invalid user ID", db) /\
   (forall bind, Handler.UpdateUser driver_text idStr bind db =
     (Handler.fail 400 "invalid_id" "Invalid user ID", db)) /\
   (forall key, Handler.AssignFeatureFlagToUser driver_text idStr key db =
     (Handler.fail 400 "invalid_id" "Invalid user ID", db)) /\
   (forall key, Handler.UnassignFeatureFlagFromUser driver_text idStr key db =
     (Handler.fail 400 "invalid_id" "Invalid user ID", db)) /\
   Handler.GetFeatureFlag driver_text idStr db =
     (Handler.fail 400 "invalid_id" "Invalid feature flag ID", db) /\
   (forall bind, Handler.UpdateFeatureFlag driver_text idStr bind db =
     (Handler.fail 400 "invalid_id" "Invalid feature flag ID", db)) /\
   Handler.DeleteFeatureFlag driver_text idStr db =
     (Handler.fail 400 "invalid_id" "Invalid feature flag ID", db)).
Proof.
  cbv zeta.
  unfold Handler.GetUser, Handler.DeleteUser, Handler.GetUserFeatureFlags,
    Handler.GetFeatureFlag, Handler.DeleteFeatureFlag, Handler.UpdateUser,
    Handler.AssignFeatureFlagToUser, Handler.UnassignFeatureFlagFromUser,
    Handler.UpdateFeatureFlag.
  destruct (ParseUint idStr) as [id|].
  - do 5 (split; [split; [not_bad_request | discriminate]|]).
    intros H; discriminate H.
  - do 5 (split; [split; intros; reflexivity|]).
    intros _. repeat split; intros; reflexivity.
Qed.

Lemma ParseUint_rejects (s : string) :
  ParseUint s = None <->
  s = EmptyString \/ all_digits s = false \/ (maxUint32 < decimal_value s)%N.
Proof.
  destruct (ParseUint s) as [n|] eqn:E.
  - apply ParseUint_accepts in E. destruct E as (Hne & Hd & Hv & Hle).
    split; [discriminate|]. intros [H|[H|H]]; [contradiction | congruence | lia].
  - split; [|reflexivity]. intros _.
    destruct s as [|c rest]; [now left|]. right.
    destruct (all_digits (String c rest)) eqn:Ed; [|now left]. right.
    destruct (N.lt_ge_cases maxUint32 (decimal_value (String c rest)))
      as [Hlt|Hge]; [exact Hlt|].
    assert (H : ParseUint (String c rest) = Some (decimal_value (String c rest))).
    { apply ParseUint_accepts. repeat split; try assumption. discriminate. }
    congruence.
Qed.

(** The id segment of a path: a handler that reads only an id answers 400
    exactly when the segment is empty, holds a byte that is no ASCII digit,
    or has a decimal value above 4294967295; then every handler that takes
    an id, all nine of them, answers 400 with the body [invalid_id] and
    returns the store as it was.  A segment that parses yields its decimal
    value, at most 4294967295. *)
Theorem handlers_id_segment
        (driver_text : Gorm.error -> string) (idStr : string) (db : DB) :
  let bad := idStr = EmptyString \/ all_digits idStr = false \/
             (maxUint32 < decimal_value idStr)%N in
  (Handler.Status (fst (Handler.GetUser driver_text idStr db)) = 400 <-> bad) /\
  (Handler.Status (fst (Handler.DeleteUser driver_text idStr db)) = 400 <-> bad) /\
  (Handler.Status (fst (Handler.GetUserFeatureFlags driver_text idStr db)) = 400
   <-> bad) /\
  (Handler.Status (fst (Handler.GetFeatureFlag driver_text idStr db)) = 400
   <-> bad) /\
  (Handler.Status (fst (Handler.DeleteFeatureFlag driver_text idStr db)) = 400
   <-> bad) /\
  (bad ->
   Handler.GetUser driver_text idStr db =
     (Handler.fail 400 "invalid_id" "Invalid user ID", db) /\
   Handler.DeleteUser driver_text idStr db =
     (Handler.fail 400 "invalid_id" "Invalid user ID", db) /\
   Handler.GetUserFeatureFlags driver_text idStr db =
     (Handler.fail 400 "invalid_id" "Invalid user ID", db) /\
   (forall bind, Handler.UpdateUser driver_text idStr bind db =
     (Handler.fail 400 "invalid_id" "Invalid user ID", db)) /\
   (forall key, Handler.AssignFeatureFlagToUser driver_text idStr key db =
     (Handler.fail 400 "invalid_id" "Invalid user ID", db)) /\
   (forall key, Handler.UnassignFeatureFlagFromUser driver_text idStr key db =
     (Handler.fail 400 "invalid_id" "Invalid user ID", db)) /\
   Handler.GetFeatureFlag driver_text idStr db =
     (Handler.fail 400 "invalid_id" "Invalid feature flag ID", db) /\
   (forall bind, Handler.UpdateFeatureFlag driver_text idStr bind db =
     (Handler.fail 400 "invalid_id" "Invalid feature flag ID", db)) /\
   Handler.DeleteFeatureFlag driver_text idStr db =
     (Handler.fail 400 "invalid_id" "Invalid feature flag ID", db)) /\
  (forall id, ParseUint idStr = Some id ->
              (id <= maxUint32)%N /\ decimal_value idStr = id).
Proof.
  cbv zeta. rewrite <- ParseUint_rejects.
  destruct (handlers_bad_id_cases driver_text idStr db)
    as (H1 & H2 & H3 & H4 & H5 & H6).
  split; [exact H1|]. split; [exact H2|]. split; [exact H3|].
  split; [exact H4|]. split; [exact H5|]. split; [exact H6|].
  intros id H. apply ParseUint_accepts in H. tauto.
Qed.

Lemma handlers_id_segment_witness :
  Handler.GetUser (fun _ => "x"%string) "+1" (empty_db []) =
    (Handler.fail 400 "invalid_id" "Invalid user ID", empty_db []) /\
  Handler.DeleteFeatureFlag (fun _ => "x"%string) "4294967296" (empty_db []) =
    (Handler.fail 400 "invalid_id" "Invalid feature flag ID", empty_db []).
Proof.
  split.
  - destruct (handlers_id_segment (fun _ => "x"%string) "+1" (empty_db []))
      as (_ & _ & _ & _ & _ & H & _).
    apply H. right. left. reflexivity.
  - destruct (handlers_id_segment (fun _ => "x"%string) "4294967296" (empty_db []))
      as (_ & _ & _ & _ & _ & H & _).
    apply H. right. right. reflexivity.
Defined.

(** ** Handlers: how errors are told apart *)

Lemma wrapped_text_has_colon (msg text : string) :
  In colon (list_ascii_of_string (msg ++ ": " ++ text)).
Proof.
  induction msg as [|c msg IH]; cbn; [now left | now right].
Qed.

Lemma Error_eqb_domain (driver_text : Gorm.error -> string)
      (err : Service.error) (msg : string) :
  ~ In colon (list_ascii_of_string msg) ->
  ((Handler.Error driver_text err =? msg)%string = true <-> err = Service.New msg).
Proof.
  intros Hno. rewrite String.eqb_eq. destruct err as [m|m cause]; cbn.
  - split; [now intros -> | now intros [= ->]].
  - split; [|discriminate]. intros H. exfalso. apply Hno. rewrite <- H.
    apply wrapped_text_has_colon.
Qed.

Lemma not_found_texts_have_no_colon :
  ~ In colon (list_ascii_of_string "user not found") /\
  ~ In colon (list_ascii_of_string "feature flag not found").
Proof.
  split; cbn; intros H;
    repeat (destruct H as [H|H]; [discriminate H|]); exact H.
Qed.

Lemma is_user_not_found (driver_text : Gorm.error -> string) (err : Service.error) :
  (Handler.Error driver_text err =? "user not found")%string =
  match err with
  | Service.New msg => (msg =? "user not found")%string
  | Service.Errorf _ _ => false
  end.
Proof.
  destruct err as [m|m cause]; [reflexivity|].
  destruct (Handler.Error driver_text (Service.Errorf m cause) =? "user not found")%string
           eqn:E; [|reflexivity].
  apply Error_eqb_domain in E; [discriminate | apply not_found_texts_have_no_colon].
Qed.

Lemma is_feature_flag_not_found
      (driver_text : Gorm.error -> string) (err : Service.error) :
  (Handler.Error driver_text err =? "feature flag not found")%string =
  match err with
  | Service.New msg => (msg =? "feature flag not found")%string
  | Service.Errorf _ _ => false
  end.
Proof.
  destruct err as [m|m cause]; [reflexivity|].
  destruct (Handler.Error driver_text (Service.Errorf m cause)
            =? "feature flag not found")%string eqn:E; [|reflexivity].
  apply Error_eqb_domain in E; [discriminate | apply not_found_texts_have_no_colon].
Qed.

Lemma answers_user_not_found
      (driver_text : Gorm.error -> string) (code : string) (err : Service.error)
      (db' : DB) :
  answers_error driver_text [UserNotFound] code err db'
    (if (Handler.Error driver_text err =? "user not found")%string
     then (Handler.fail 404 "not_found" (Handler.Error driver_text err), db')
     else (Handler.fail 500 code (Handler.Error driver_text err), db')).
Proof.
  rewrite is_user_not_found. split.
  - intros [<-|[]]. reflexivity.
  - intros Hno. destruct err as [m|m cause]; [|reflexivity].
    destruct (m =? "user not found")%string eqn:E; [|reflexivity].
    apply String.eqb_eq in E. subst m. exfalso. apply Hno. now left.
Qed.

Lemma answers_feature_flag_not_found
      (driver_text : Gorm.error -> string) (code : string) (err : Service.error)
      (db' : DB) :
  answers_error driver_text [FeatureFlagNotFound] code err db'
    (if (Handler.Error driver_text err =? "feature flag not found")%string
     then (Handler.fail 404 "not_found" (Handler.Error driver_text err), db')
     else (Handler.fail 500 code (Handler.Error driver_text err), db')).
Proof.
  rewrite is_feature_flag_not_found. split.
  - intros [<-|[]]. reflexivity.
  - intros Hno. destruct err as [m|m cause]; [|reflexivity].
    destruct (m =? "feature flag not found")%string eqn:E; [|reflexivity].
    apply String.eqb_eq in E. subst m. exfalso. apply Hno. now left.
Qed.

Lemma answers_either_not_found
      (driver_text : Gorm.error -> string) (code : string) (err : Service.error)
      (db' : DB) :
  answers_error driver_text [UserNotFound; FeatureFlagNotFound] code err db'
    (if (Handler.Error driver_text err =? "user not found")%string
        || (Handler.Error driver_text err =? "feature flag not found")%string
     then (Handler.fail 404 "not_found" (Handler.Error driver_text err), db')
     else (Handler.fail 500 code (Handler.Error driver_text err), db')).
Proof.
  rewrite is_user_not_found, is_feature_flag_not_found. split.
  - intros [<-|[<-|[]]]; reflexivity.
  - intros Hno. destruct err as [m|m cause]; [|reflexivity].
    destruct (m =? "user not found")%string eqn:E1.
    { apply String.eqb_eq in E1. subst m. exfalso. apply Hno. now left. }
    destruct (m =? "feature flag not found")%string eqn:E2; [|reflexivity].
    apply String.eqb_eq in E2. subst m. exfalso. apply Hno. right. now left.
Qed.

(** With a well-formed id (and a non-empty key where one is read), every
    handler answers a service error with 404 [not_found] exactly when the
    error is the user-not-found or feature-flag-not-found error it looks
    for, and with 500 and its own code otherwise; whatever text the driver
    gives a store failure, a wrapped store failure is never answered with
    404. *)
Theorem handlers_answer_errors
        (driver_text : Gorm.error -> string) (idStr key : string) (id : uint)
        (db : DB) :
  ParseUint idStr = Some id -> key <> EmptyString ->
  (forall err db', Service.GetUser id db = (Err err, db') ->
     answers_error driver_text [UserNotFound] "retrieval_failed" err db'
       (Handler.GetUser driver_text idStr db)) /\
  (forall req err db', Service.UpdateUser id req db = (Err err, db') ->
     answers_error driver_text [UserNotFound] "update_failed" err db'
       (Handler.UpdateUser driver_text idStr (Ok req) db)) /\
  (forall err db', Service.DeleteUser id db = (Err err, db') ->
     answers_error driver_text [UserNotFound] "deletion_failed" err db'
       (Handler.DeleteUser driver_text idStr db)) /\
  (forall err db', Service.GetUserFeatureFlags id db = (Err err, db') ->
     answers_error driver_text [UserNotFound] "retrieval_failed" err db'
       (Handler.GetUserFeatureFlags driver_text idStr db)) /\
  (forall err db', Service.AssignFeatureFlagToUser id key db = (Err err, db') ->
     answers_error driver_text [UserNotFound; FeatureFlagNotFound]
       "assignment_failed" err db'
       (Handler.AssignFeatureFlagToUser driver_text idStr key db)) /\
  (forall err db', Service.UnassignFeatureFlagFromUser id key db = (Err err, db') ->
     answers_error driver_text [UserNotFound; FeatureFlagNotFound]
       "unassignment_failed" err db'
       (Handler.UnassignFeatureFlagFromUser driver_text idStr key db)) /\
  (forall err db', Service.GetFeatureFlag id db = (Err err, db') ->
     answers_error driver_text [FeatureFlagNotFound] "retrieval_failed" err db'
       (Handler.GetFeatureFlag driver_text idStr db)) /\
  (forall req err db', Service.UpdateFeatureFlag id req db = (Err err, db') ->
     answers_error driver_text [FeatureFlagNotFound] "update_failed" err db'
       (Handler.UpdateFeatureFlag driver_text idStr (Ok req) db)) /\
  (forall err db', Service.DeleteFeatureFlag id db = (Err err, db') ->
     answers_error driver_text [FeatureFlagNotFound] "deletion_failed" err db'
       (Handler.DeleteFeatureFlag driver_text idStr db)) /\
  (forall msg cause db',
     Service.GetUser id db = (Err (Service.Errorf msg cause), db') ->
     Handler.Status (fst (Handler.GetUser driver_text idStr db)) = 500).
Proof.
  intros Hid Hkey.
  assert (Hk : (key =? "")%string = false) by now apply String.eqb_neq.
  unfold Handler.GetUser, Handler.UpdateUser, Handler.DeleteUser,
    Handler.GetUserFeatureFlags, Handler.AssignFeatureFlagToUser,
    Handler.UnassignFeatureFlagFromUser, Handler.GetFeatureFlag,
    Handler.UpdateFeatureFlag, Handler.DeleteFeatureFlag.
  rewrite Hid, Hk.
  repeat match goal with |- _ /\ _ => split end; intros.
  all: match goal with H : _ = (Err _, _) |- _ => rewrite H end.
  1-4: apply answers_user_not_found.
  1-2: apply answers_either_not_found.
  1-3: apply answers_feature_flag_not_found.
  rewrite is_user_not_found. reflexivity.
Qed.

Lemma handlers_answer_errors_witness :
  ParseUint "1" = Some 1%N /\
  Handler.GetUser (fun _ => "connection refused"%string) "1" (empty_db [true]) =
  (Handler.fail 500 "retrieval_failed" "failed to get user: connection refused",
   empty_db []).
Proof.
  split; [reflexivity|].
  assert (Hk : "k"%string <> EmptyString) by discriminate.
  destruct (handlers_answer_errors (fun _ => "connection refused"%string)
              "1" "k" 1%N (empty_db [true]) eq_refl Hk) as (H & _).
  destruct (H (Service.Errorf "failed to get user" ErrOther) (empty_db []) eq_refl)
    as [_ H500].
  apply H500. intros [Heq|[]]. discriminate Heq.
Defined.

(** ** Assigning and unassigning, end to end *)

Lemma Flag_GetByKey_cases (key : string) (db : DB) :
  faults db = [] ->
  (key_in_use key db = false /\
   FeatureFlagRepository.GetByKey key db = (Err ErrRecordNotFound, db)) \/
  (exists f, key_in_use key db = true /\
             FeatureFlagRepository.GetByKey key db = (Ok f, db) /\
             In f (feature_flags db) /\ FeatureFlag.Key f = key /\
             FeatureFlag.DeletedAt f = None).
Proof.
  intros Hf. destruct (key_in_use key db) eqn:E.
  - right. destruct (Flag_GetByKey_found _ _ Hf E) as (f & H1 & H2 & H3 & H4).
    exists f. repeat split; assumption.
  - left. split; [reflexivity|]. now apply Flag_GetByKey_missing.
Qed.

Lemma AssignFeatureFlagToUser_resolved
      (db : DB) (userID : uint) (key : string) (flag : FeatureFlag.t) :
  faults db = [] -> user_exists userID db = true ->
  FeatureFlagRepository.GetByKey key db = (Ok flag, db) ->
  Service.AssignFeatureFlagToUser userID key db =
  if isAssigned userID (FeatureFlag.ID flag) db
  then (Err AlreadyAssigned, db)
  else (Ok tt,
        tick (set_user_feature_flags
                (user_feature_flags db ++
                 [UserFeatureFlag.mk userID (FeatureFlag.ID flag) (clock db)]) db)).
Proof.
  intros Hf Hu Hk.
  destruct (User_GetByID_found _ _ Hf Hu) as (u & Hget & Hin & Hid & _).
  destruct (Flag_GetByKey_Ok_inv _ _ _ _ Hf Hk) as (_ & Hfin & _ & _).
  unfold Service.AssignFeatureFlagToUser.
  rewrite Hget, Hk, IsFeatureFlagAssignedToUser_eq by assumption.
  destruct (isAssigned userID (FeatureFlag.ID flag) db) eqn:Ha; [reflexivity|].
  rewrite AssignFeatureFlagToUser_fresh; try assumption; try reflexivity.
  - subst userID. now apply present_of_In_user.
  - now apply present_of_In_flag.
Qed.

Lemma UnassignFeatureFlagFromUser_resolved
      (db : DB) (userID : uint) (key : string) (flag : FeatureFlag.t) :
  faults db = [] -> user_exists userID db = true ->
  FeatureFlagRepository.GetByKey key db = (Ok flag, db) ->
  Service.UnassignFeatureFlagFromUser userID key db =
  (Ok tt,
   set_user_feature_flags
     (filter (fun r => negb (UserFeatureFlagRepository.is_pair
                               userID (FeatureFlag.ID flag) r))
             (user_feature_flags db)) db).
Proof.
  intros Hf Hu Hk.
  destruct (User_GetByID_found _ _ Hf Hu) as (u & Hget & _).
  unfold Service.UnassignFeatureFlagFromUser.
  now rewrite Hget, Hk, UnassignFeatureFlagFromUser_eq.
Qed.

(** POST /users/{id}/feature-flags/{key} on a store that does not fail,
    with a well-formed id: an empty key is a 400 [invalid_key]; a missing
    or deleted user is a 404 before the key is looked at; an unknown key is
    a 404; a pair already assigned is a 500 [assignment_failed] (there is
    no conflict status); otherwise the pair is stored and the answer is
    200.  Only the last case changes the store. *)
Theorem assign_handler_decides
        (driver_text : Gorm.error -> string) (idStr key : string) (id : uint)
        (db : DB) :
  faults db = [] -> ParseUint idStr = Some id ->
  Handler.AssignFeatureFlagToUser driver_text idStr "" db =
    (Handler.fail 400 "invalid_key" "Feature flag key is required", db) /\
  (key <> EmptyString ->
   (user_exists id db = false ->
    Handler.AssignFeatureFlagToUser driver_text idStr key db =
      (Handler.fail 404 "not_found" "user not found", db)) /\
   (user_exists id db = true -> key_in_use key db = false ->
    Handler.AssignFeatureFlagToUser driver_text idStr key db =
      (Handler.fail 404 "not_found" "feature flag not found", db)) /\
   (forall flag,
      user_exists id db = true ->
      FeatureFlagRepository.GetByKey key db = (Ok flag, db) ->
      (isAssigned id (FeatureFlag.ID flag) db = true ->
       Handler.AssignFeatureFlagToUser driver_text idStr key db =
         (Handler.fail 500 "assignment_failed"
            "feature flag already assigned to user", db)) /\
      (isAssigned id (FeatureFlag.ID flag) db = false ->
       exists db',
         Handler.AssignFeatureFlagToUser driver_text idStr key db =
           (Handler.JSON 200
              (Handler.SuccessJSON
                 (SuccessResponse.mk "Feature flag assigned successfully")), db') /\
         isAssigned id (FeatureFlag.ID flag) db' = true /\
         users db' = users db /\ feature_flags db' = feature_flags db))).
Proof.
  intros Hf Hid. unfold Handler.AssignFeatureFlagToUser. rewrite Hid.
  split; [reflexivity|]. intros Hkey.
  assert (Hk : (key =? "")%string = false) by now apply String.eqb_neq.
  rewrite Hk. split; [|split].
  - intros Hu. unfold Service.AssignFeatureFlagToUser.
    now rewrite User_GetByID_missing.
  - intros Hu Hkk. unfold Service.AssignFeatureFlagToUser.
    destruct (User_GetByID_found _ _ Hf Hu) as (u & -> & _).
    now rewrite Flag_GetByKey_missing.
  - intros flag Hu Hget.
    rewrite (AssignFeatureFlagToUser_resolved db id key flag Hf Hu Hget).
    split; intros Ha; rewrite Ha; [reflexivity|].
    eexists. split; [reflexivity|]. cbn. split; [|split; reflexivity].
    unfold isAssigned. cbn. rewrite existsb_app. cbn.
    rewrite is_pair_refl. now rewrite orb_true_r.
Qed.

Lemma assign_handler_decides_witness :
  faults db_assigned = [] /\ ParseUint "1" = Some 1%N /\
  Handler.AssignFeatureFlagToUser (fun _ => EmptyString) "1" "beta" db_assigned =
  (Handler.fail 500 "assignment_failed" "feature flag already assigned to user",
   db_assigned).
Proof.
  split; [reflexivity | split; [reflexivity|]].
  destruct (assign_handler_decides (fun _ => EmptyString) "1" "beta" 1%N
              db_assigned eq_refl eq_refl) as [_ H].
  assert (Hk : "beta"%string <> EmptyString) by discriminate.
  destruct (H Hk) as (_ & _ & Hflag).
  destruct (Hflag (FeatureFlag.mk 1%N "beta" "" false 2%N 2%N None)
              eq_refl eq_refl) as [Hdup _].
  apply Hdup. reflexivity.
Defined.

(** DELETE /users/{id}/feature-flags/{key} on a store that does not fail,
    with a well-formed id and a non-empty key: 404 for a missing or deleted
    user and for an unknown key; otherwise 200, whether or not the pair was
    assigned; afterwards the pair is not assigned, every other pair is as
    before, and users and flags are untouched. *)
Theorem unassign_handler_decides
        (driver_text : Gorm.error -> string) (idStr key : string) (id : uint)
        (db : DB) :
  faults db = [] -> ParseUint idStr = Some id -> key <> EmptyString ->
  (user_exists id db = false ->
   Handler.UnassignFeatureFlagFromUser driver_text idStr key db =
     (Handler.fail 404 "not_found" "user not found", db)) /\
  (user_exists id db = true -> key_in_use key db = false ->
   Handler.UnassignFeatureFlagFromUser driver_text idStr key db =
     (Handler.fail 404 "not_found" "feature flag not found", db)) /\
  (forall flag,
     user_exists id db = true ->
     FeatureFlagRepository.GetByKey key db = (Ok flag, db) ->
     exists db',
       Handler.UnassignFeatureFlagFromUser driver_text idStr key db =
         (Handler.JSON 200
            (Handler.SuccessJSON
               (SuccessResponse.mk "Feature flag unassigned successfully")), db') /\
       isAssigned id (FeatureFlag.ID flag) db' = false /\
       (forall u f, (u, f) <> (id, FeatureFlag.ID flag) ->
                    isAssigned u f db' = isAssigned u f db) /\
       users db' = users db /\ feature_flags db' = feature_flags db).
Proof.
  intros Hf Hid Hkey. unfold Handler.UnassignFeatureFlagFromUser. rewrite Hid.
  assert (Hk : (key =? "")%string = false) by now apply String.eqb_neq.
  rewrite Hk. split; [|split].
  - intros Hu. unfold Service.UnassignFeatureFlagFromUser.
    now rewrite User_GetByID_missing.
  - intros Hu Hkk. unfold Service.UnassignFeatureFlagFromUser.
    destruct (User_GetByID_found _ _ Hf Hu) as (u & -> & _).
    now rewrite Flag_GetByKey_missing.
  - intros flag Hu Hget.
    rewrite (UnassignFeatureFlagFromUser_resolved db id key flag Hf Hu Hget).
    eexists. split; [reflexivity|]. cbn.
    split; [|split; [|split; reflexivity]].
    + unfold isAssigned. cbn.
      destruct (existsb _ (filter _ (user_feature_flags db))) eqn:E; [|reflexivity].
      apply existsb_exists in E. destruct E as (r & Hin & Hr).
      apply filter_In in Hin. destruct Hin as [_ Hn]. now rewrite Hr in Hn.
    + intros u f Hne. unfold isAssigned. cbn.
      induction (user_feature_flags db) as [|r rest IH]; [reflexivity|].
      cbn. destruct (UserFeatureFlagRepository.is_pair id (FeatureFlag.ID flag) r)
                    eqn:Er; cbn.
      * rewrite IH.
        assert (Hr : UserFeatureFlagRepository.is_pair u f r = false).
        { unfold UserFeatureFlagRepository.is_pair in *.
          apply andb_true_iff in Er. destruct Er as [E1 E2].
          apply N.eqb_eq in E1. apply N.eqb_eq in E2.
          destruct (UserFeatureFlag.UserID r =? u)%N eqn:Eu; [|reflexivity].
          destruct (UserFeatureFlag.FeatureFlagID r =? f)%N eqn:Ef; [|reflexivity].
          apply N.eqb_eq in Eu. apply N.eqb_eq in Ef. exfalso. apply Hne.
          congruence. }
        now rewrite Hr.
      * now rewrite IH.
Qed.

Lemma unassign_handler_decides_witness :
  faults db_ann_beta = [] /\ ParseUint "1" = Some 1%N /\
  Handler.Status
    (fst (Handler.UnassignFeatureFlagFromUser (fun _ => EmptyString) "1" "beta"
            db_ann_beta)) = 200.
Proof.
  split; [reflexivity | split; [reflexivity|]].
  assert (Hk : "beta"%string <> EmptyString) by discriminate.
  destruct (unassign_handler_decides (fun _ => EmptyString) "1" "beta" 1%N
              db_ann_beta eq_refl eq_refl Hk) as (_ & _ & H).
  destruct (H (FeatureFlag.mk 1%N "beta" "" false 2%N 2%N None) eq_refl eq_refl)
    as (db' & Hans & _).
  now rewrite Hans.
Defined.

(** ** Creating and reading back *)

Lemma CreateUser_Ok_inv (req : Dto.CreateUserRequest.t) (db db' : DB)
      (r : Dto.UserResponse.t) :
  faults db = [] -> Service.CreateUser req db = (Ok r, db') ->
  let row := User.mk (users_id_seq db) (Dto.CreateUserRequest.Name req)
                     (Dto.CreateUserRequest.Email req) true
                     (clock db) (clock db) None None in
  r = Service.toUserResponse row /\
  db' = tick (set_users (users db ++ [row])
                (set_users_id_seq (N.succ (users_id_seq db)) db)) /\
  user_row_present (users_id_seq db) db = false /\
  email_on_record (Dto.CreateUserRequest.Email req) db = false.
Proof.
  intros Hf. destruct req as [name email enabled]. unfold Service.CreateUser. cbn.
  rewrite User_GetByEmail_eq by assumption.
  destruct (First User.ID _ (users db)) as [x|e]; [discriminate|].
  rewrite User_Create_eq by assumption. cbv zeta.
  destruct (user_row_present (users_id_seq db) db) eqn:E1; [discriminate|].
  destruct (email_on_record email db) eqn:E2; [discriminate|]. cbn.
  intros H. injection H as <- <-.
  unfold UserRepository.enabled_on_insert. now destruct enabled.
Qed.

(** A user that [CreateUser] returns can be read back: on a consistent
    store that does not fail, [GetUser] with the returned id succeeds,
    leaves the store as it is, and gives a response with the same id, name,
    email, enabled value and last login.  The two timestamps are left out
    of the comparison: the response of [CreateUser] carries the times the
    struct was stamped with, the one of [GetUser] what the columns hold.
    The id is the next value of the sequence, which no row had; name and
    email are the request's; the user is stored enabled whatever the
    request says (the column default replaces a false). *)
Theorem created_user_reads_back (db db' : DB) (req : Dto.CreateUserRequest.t)
        (r : Dto.UserResponse.t) :
  faults db = [] -> consistent db ->
  Service.CreateUser req db = (Ok r, db') ->
  (exists r',
     Service.GetUser (Dto.UserResponse.ID r) db' = (Ok r', db') /\
     Dto.UserResponse.ID r' = Dto.UserResponse.ID r /\
     Dto.UserResponse.Name r' = Dto.UserResponse.Name r /\
     Dto.UserResponse.Email r' = Dto.UserResponse.Email r /\
     Dto.UserResponse.Enabled r' = Dto.UserResponse.Enabled r /\
     Dto.UserResponse.LastLogin r' = Dto.UserResponse.LastLogin r) /\
  Dto.UserResponse.ID r = users_id_seq db /\
  user_row_present (Dto.UserResponse.ID r) db = false /\
  user_exists (Dto.UserResponse.ID r) db' = true /\
  Dto.UserResponse.Name r = Dto.CreateUserRequest.Name req /\
  Dto.UserResponse.Email r = Dto.CreateUserRequest.Email req /\
  Dto.UserResponse.Enabled r = true /\
  Dto.UserResponse.LastLogin r = None.
Proof.
  intros Hf Hc Hcreate.
  destruct (CreateUser_Ok_inv _ _ _ _ Hf Hcreate) as (-> & -> & Hfresh & _).
  set (row := User.mk (users_id_seq db) (Dto.CreateUserRequest.Name req)
                      (Dto.CreateUserRequest.Email req) true
                      (clock db) (clock db) None None).
  assert (Hget : UserRepository.GetByID
                   (users_id_seq db)
                   (tick (set_users (users db ++ [row])
                            (set_users_id_seq (N.succ (users_id_seq db)) db))) =
                 (Ok row,
                  tick (set_users (users db ++ [row])
                          (set_users_id_seq (N.succ (users_id_seq db)) db)))).
  { rewrite User_GetByID_eq by exact Hf.
    cbn [users tick set_users set_users_id_seq].
    match goal with |- context [First User.ID ?c (users db ++ [row])] =>
      rewrite (First_unique User.ID c (users db ++ [row]) row) end.
    - reflexivity.
    - apply in_or_app. right. now left.
    - cbn. now rewrite N.eqb_refl.
    - intros r' Hin Hcond. apply in_app_or in Hin. destruct Hin as [Hin|[<-|[]]];
        [|reflexivity].
      apply andb_true_iff in Hcond. destruct Hcond as [Hid _].
      apply N.eqb_eq in Hid.
      pose proof (serial _ _ _ _ (users_ok _ Hc) r' Hin). lia. }
  split; [|split; [reflexivity | split; [exact Hfresh | split]]].
  - exists (Service.toUserResponse row). split.
    + unfold Service.GetUser.
      change (Dto.UserResponse.ID (Service.toUserResponse row))
        with (users_id_seq db).
      now rewrite Hget.
    + repeat split.
  - unfold user_exists. cbn [users tick set_users set_users_id_seq].
    rewrite existsb_app. cbn.
    rewrite N.eqb_refl. cbn. apply orb_true_r.
  - repeat split.
Qed.

Lemma created_user_reads_back_witness :
  faults (empty_db []) = [] /\ consistent (empty_db []) /\
  exists r',
    Service.GetUser 1%N db_ann = (Ok r', db_ann) /\
    Dto.UserResponse.Email r' = "ann@x.com"%string /\
    Dto.UserResponse.Enabled r' = true.
Proof.
  split; [reflexivity | split; [apply consistent_empty|]].
  destruct (created_user_reads_back (empty_db []) db_ann ann
              (Dto.UserResponse.mk 1%N "Ann" "ann@x.com" true 1%N 1%N None)
              eq_refl (consistent_empty []) eq_refl)
    as ((r' & Hget & _ & _ & Hemail & Henabled & _) & _).
  exists r'. split; [exact Hget | split; assumption].
Defined.

Lemma CreateFeatureFlag_in_use (req : Dto.CreateFeatureFlagRequest.t) (db : DB) :
  faults db = [] ->
  key_in_use (Dto.CreateFeatureFlagRequest.Key req) db = true ->
  Service.CreateFeatureFlag req db = (Err KeyAlreadyExists, db).
Proof.
  intros Hf Huse. unfold Service.CreateFeatureFlag.
  rewrite Flag_GetByKey_eq by assumption.
  destruct (First_found FeatureFlag.ID _ _ Huse) as [u ->]. reflexivity.
Qed.

Lemma CreateFeatureFlag_not_in_use (req : Dto.CreateFeatureFlagRequest.t) (db : DB) :
  faults db = [] ->
  key_in_use (Dto.CreateFeatureFlagRequest.Key req) db = false ->
  Service.CreateFeatureFlag req db =
  let row := FeatureFlag.mk (feature_flags_id_seq db)
               (Dto.CreateFeatureFlagRequest.Key req)
               (Dto.CreateFeatureFlagRequest.Description req)
               (Dto.CreateFeatureFlagRequest.Enabled req)
               (clock db) (clock db) None in
  let db1 := set_feature_flags_id_seq (N.succ (feature_flags_id_seq db)) db in
  if flag_row_present (feature_flags_id_seq db) db
     || key_on_record (Dto.CreateFeatureFlagRequest.Key req) db
  then (Err (Service.Errorf "failed to create feature flag" ErrUniqueViolation), db1)
  else (Ok (Service.toFeatureFlagResponse row),
        tick (set_feature_flags (feature_flags db ++ [row]) db1)).
Proof.
  intros Hf Huse. destruct req as [key description enabled].
  unfold Service.CreateFeatureFlag. cbn.
  rewrite Flag_GetByKey_eq by assumption.
  unfold key_in_use in Huse. rewrite First_missing by assumption.
  rewrite Flag_Create_eq by assumption. cbv zeta.
  destruct (flag_row_present (feature_flags_id_seq db) db || key_on_record key db);
    [reflexivity|].
  unfold FeatureFlagRepository.enabled_on_insert. now destruct enabled.
Qed.

Lemma key_in_use_on_record (key : string) (db : DB) :
  key_in_use key db = true -> key_on_record key db = true.
Proof.
  unfold key_in_use, key_on_record. intros H.
  apply existsb_exists in H. destruct H as (r & Hin & Hr).
  apply andb_true_iff in Hr. destruct Hr as [Hr _].
  apply existsb_exists. eauto.
Qed.

(** [CreateFeatureFlag] on a consistent store that does not fail: it fails
    with the key-already-exists error, changing nothing, exactly when a
    non-deleted flag has the key; when no row at all has the key it stores
    the flag under the next id with the request's key, description and
    enabled value, and the flag can be read back by id and by key. *)
Theorem created_flag_reads_back (db : DB) (req : Dto.CreateFeatureFlagRequest.t) :
  faults db = [] -> consistent db ->
  (key_in_use (Dto.CreateFeatureFlagRequest.Key req) db = true ->
   Service.CreateFeatureFlag req db = (Err KeyAlreadyExists, db)) /\
  (fst (Service.CreateFeatureFlag req db) = Err KeyAlreadyExists ->
   key_in_use (Dto.CreateFeatureFlagRequest.Key req) db = true) /\
  (key_on_record (Dto.CreateFeatureFlagRequest.Key req) db = false ->
   exists db',
     let r := Dto.FeatureFlagResponse.mk
                (feature_flags_id_seq db)
                (Dto.CreateFeatureFlagRequest.Key req)
                (Dto.CreateFeatureFlagRequest.Description req)
                (Dto.CreateFeatureFlagRequest.Enabled req)
                (clock db) (clock db) in
     Service.CreateFeatureFlag req db = (Ok r, db') /\
     Service.GetFeatureFlag (feature_flags_id_seq db) db' = (Ok r, db') /\
     Service.GetFeatureFlagByKey (Dto.CreateFeatureFlagRequest.Key req) db' =
       (Ok r, db') /\
     users db' = users db /\ user_feature_flags db' = user_feature_flags db).
Proof.
  intros Hf Hc. split; [|split].
  - now apply CreateFeatureFlag_in_use.
  - intros H. destruct (key_in_use (Dto.CreateFeatureFlagRequest.Key req) db)
      eqn:E; [reflexivity|].
    rewrite CreateFeatureFlag_not_in_use in H by assumption. cbv zeta in H.
    destruct (flag_row_present _ db || key_on_record _ db); discriminate.
  - intros Hrec.
    assert (Huse : key_in_use (Dto.CreateFeatureFlagRequest.Key req) db = false).
    { destruct (key_in_use (Dto.CreateFeatureFlagRequest.Key req) db) eqn:E;
        [|reflexivity].
      apply key_in_use_on_record in E. congruence. }
    pose proof (table_ok_fresh_id _ _ _ _ (feature_flags_ok _ Hc)) as Hfresh.
    eexists. cbv zeta. split.
    + rewrite CreateFeatureFlag_not_in_use by assumption. cbv zeta.
      unfold flag_row_present. rewrite Hfresh, Hrec. reflexivity.
    + split; [|split; [|split; reflexivity]].
      * unfold Service.GetFeatureFlag. rewrite Flag_GetByID_eq by exact Hf.
        cbn [feature_flags tick set_feature_flags set_feature_flags_id_seq].
        match goal with
          |- context [First FeatureFlag.ID ?c (feature_flags db ++ [?row])] =>
          rewrite (First_unique FeatureFlag.ID c (feature_flags db ++ [row]) row)
        end.
        -- reflexivity.
        -- apply in_or_app. right. now left.
        -- cbn. now rewrite N.eqb_refl.
        -- intros r' Hin Hcond. apply in_app_or in Hin.
           destruct Hin as [Hin|[<-|[]]]; [|reflexivity].
           apply andb_true_iff in Hcond. destruct Hcond as [Hid _].
           apply N.eqb_eq in Hid.
           pose proof (serial _ _ _ _ (feature_flags_ok _ Hc) r' Hin). lia.
      * unfold Service.GetFeatureFlagByKey. rewrite Flag_GetByKey_eq by exact Hf.
        cbn [feature_flags tick set_feature_flags set_feature_flags_id_seq].
        match goal with
          |- context [First FeatureFlag.ID ?c (feature_flags db ++ [?row])] =>
          rewrite (First_unique FeatureFlag.ID c (feature_flags db ++ [row]) row)
        end.
        -- reflexivity.
        -- apply in_or_app. right. now left.
        -- cbn. now rewrite String.eqb_refl.
        -- intros r' Hin Hcond. apply in_app_or in Hin.
           destruct Hin as [Hin|[<-|[]]]; [|reflexivity].
           apply andb_true_iff in Hcond. destruct Hcond as [Hkey _].
           apply String.eqb_eq in Hkey.
           assert (key_on_record (Dto.CreateFeatureFlagRequest.Key req) db = true).
           { rewrite <- Hkey. now apply key_on_record_of_row. }
           congruence.
Qed.

Lemma created_flag_reads_back_witness :
  faults db_ann = [] /\ consistent db_ann /\
  key_on_record "beta" db_ann = false /\
  Service.GetFeatureFlagByKey "beta" db_ann_beta =
  (Ok (Dto.FeatureFlagResponse.mk 1%N "beta" "" false 2%N 2%N), db_ann_beta).
Proof.
  assert (Hc : consistent db_ann)
    by (apply reachable_consistent; repeat constructor).
  split; [reflexivity | split; [exact Hc | split; [reflexivity|]]].
  destruct (created_flag_reads_back db_ann beta eq_refl Hc) as (_ & _ & H).
  destruct (H eq_refl) as (db' & Hcreate & _ & Hbykey & _).
  cbv zeta in Hcreate, Hbykey.
  assert (Hdb : db' = db_ann_beta).
  { apply (f_equal snd) in Hcreate. symmetry. exact Hcreate. }
  subst db'. exact Hbykey.
Defined.

Lemma CreateUser_deleted_email (req : Dto.CreateUserRequest.t) (db : DB) :
  faults db = [] ->
  email_in_use (Dto.CreateUserRequest.Email req) db = false ->
  email_on_record (Dto.CreateUserRequest.Email req) db = true ->
  Service.CreateUser req db =
  (Err (Service.Errorf "failed to create user" ErrUniqueViolation),
   set_users_id_seq (N.succ (users_id_seq db)) db).
Proof.
  intros Hf Huse Hrec. destruct req as [name email enabled].
  unfold Service.CreateUser. cbn in *.
  rewrite User_GetByEmail_eq by assumption.
  unfold email_in_use in Huse. rewrite First_missing by assumption.
  rewrite User_Create_eq by assumption. cbv zeta.
  now rewrite Hrec, orb_true_r.
Qed.

(** POST /users and POST /feature-flags on a store that does not fail: a
    body that does not bind is a 400 and the store is not touched; an
    email or key in use is a 500 [creation_failed] carrying the service's
    message, there being no conflict status; an email held only by a
    soft-deleted user is a 500 whose message is the wrapped store error and
    uses up an id; the status is always 201, 400 or 500. *)
Theorem create_handlers_answer (driver_text : Gorm.error -> string) (db : DB) :
  faults db = [] ->
  (forall msg,
     Handler.CreateUser driver_text (Err msg) db =
       (Handler.fail 400 "invalid_request" msg, db) /\
     Handler.CreateFeatureFlag driver_text (Err msg) db =
       (Handler.fail 400 "invalid_request" msg, db)) /\
  (forall req,
     email_in_use (Dto.CreateUserRequest.Email req) db = true ->
     Handler.CreateUser driver_text (Ok req) db =
       (Handler.fail 500 "creation_failed" "email already exists", db)) /\
  (forall req,
     key_in_use (Dto.CreateFeatureFlagRequest.Key req) db = true ->
     Handler.CreateFeatureFlag driver_text (Ok req) db =
       (Handler.fail 500 "creation_failed" "feature flag key already exists", db)) /\
  (forall req,
     email_in_use (Dto.CreateUserRequest.Email req) db = false ->
     email_on_record (Dto.CreateUserRequest.Email req) db = true ->
     Handler.CreateUser driver_text (Ok req) db =
       (Handler.fail 500 "creation_failed"
          ("failed to create user: " ++ driver_text ErrUniqueViolation),
        set_users_id_seq (N.succ (users_id_seq db)) db)) /\
  (forall bind,
     let status := Handler.Status (fst (Handler.CreateUser driver_text bind db)) in
     status = 201 \/ status = 400 \/ status = 500) /\
  (forall bind,
     let status :=
       Handler.Status (fst (Handler.CreateFeatureFlag driver_text bind db)) in
     status = 201 \/ status = 400 \/ status = 500).
Proof.
  intros Hf. repeat match goal with |- _ /\ _ => split end.
  - intros msg. split; reflexivity.
  - intros req Huse. unfold Handler.CreateUser.
    now rewrite CreateUser_in_use.
  - intros req Huse. unfold Handler.CreateFeatureFlag.
    now rewrite CreateFeatureFlag_in_use.
  - intros req Huse Hrec. unfold Handler.CreateUser.
    now rewrite CreateUser_deleted_email.
  - intros [req|msg]; cbn; [|right; now left].
    unfold Handler.CreateUser.
    destruct (Service.CreateUser req db) as [[u|e] db1]; cbn; auto.
  - intros [req|msg]; cbn; [|right; now left].
    unfold Handler.CreateFeatureFlag.
    destruct (Service.CreateFeatureFlag req db) as [[u|e] db1]; cbn; auto.
Qed.

Lemma create_handlers_answer_witness :
  faults db_ann = [] /\ email_in_use "ann@x.com" db_ann = true /\
  Handler.CreateUser (fun _ => EmptyString) (Ok ann) db_ann =
  (Handler.fail 500 "creation_failed" "email already exists", db_ann).
Proof.
  split; [reflexivity | split; [reflexivity|]].
  destruct (create_handlers_answer (fun _ => EmptyString) db_ann eq_refl)
    as (_ & H & _).
  apply (H ann). reflexivity.
Defined.

(** ** Updating feature flags *)

Lemma Flag_GetByID_row (db : DB) (f : FeatureFlag.t) :
  faults db = [] -> consistent db ->
  In f (feature_flags db) -> FeatureFlag.DeletedAt f = None ->
  FeatureFlagRepository.GetByID (FeatureFlag.ID f) db = (Ok f, db).
Proof.
  intros Hf Hc Hin Hlive. rewrite Flag_GetByID_eq by assumption.
  rewrite (First_unique _ _ _ f); try assumption; try reflexivity.
  - rewrite N.eqb_refl. unfold FeatureFlagRepository.live. now rewrite Hlive.
  - intros r' Hin' Hc'. apply andb_true_iff in Hc'. destruct Hc' as [Hid _].
    apply N.eqb_eq in Hid.
    now apply (table_ok_same_row _ _ _ _ _ _ (feature_flags_ok _ Hc)).
Qed.

Lemma Flag_GetByKey_row (db : DB) (f : FeatureFlag.t) :
  faults db = [] -> consistent db ->
  In f (feature_flags db) -> FeatureFlag.DeletedAt f = None ->
  FeatureFlagRepository.GetByKey (FeatureFlag.Key f) db = (Ok f, db).
Proof.
  intros Hf Hc Hin Hlive. rewrite Flag_GetByKey_eq by assumption.
  rewrite (First_unique _ _ _ f); try assumption; try reflexivity.
  - rewrite String.eqb_refl. unfold FeatureFlagRepository.live. now rewrite Hlive.
  - intros r' Hin' Hc'. apply andb_true_iff in Hc'. destruct Hc' as [Hkey _].
    apply String.eqb_eq in Hkey.
    apply (table_ok_same_row _ _ _ _ _ _ (feature_flags_ok _ Hc)); try assumption.
    now apply (unique_key _ _ _ _ (feature_flags_ok _ Hc)).
Qed.

Lemma own_key_not_taken (db : DB) (f : FeatureFlag.t) :
  consistent db -> In f (feature_flags db) ->
  FeatureFlagRepository.key_taken (FeatureFlag.ID f) (FeatureFlag.Key f)
    (feature_flags db) = false.
Proof.
  intros Hc Hin. unfold FeatureFlagRepository.key_taken.
  destruct (existsb _ (feature_flags db)) eqn:E; [|reflexivity].
  apply existsb_exists in E. destruct E as (r & Hr & Hcond).
  apply andb_true_iff in Hcond. destruct Hcond as [Hne Heq].
  apply String.eqb_eq in Heq.
  pose proof (unique_key _ _ _ _ (feature_flags_ok _ Hc) r f Hr Hin Heq) as Hid.
  rewrite Hid, N.eqb_refl in Hne. discriminate.
Qed.

Lemma Flag_Update_eq (flag : FeatureFlag.t) (db : DB) :
  faults db = [] -> (FeatureFlag.ID flag =? 0)%N = false ->
  FeatureFlagRepository.key_taken (FeatureFlag.ID flag) (FeatureFlag.Key flag)
    (feature_flags db) = false ->
  flag_exists (FeatureFlag.ID flag) db = true ->
  FeatureFlagRepository.Update flag db =
  let row := FeatureFlag.mk (FeatureFlag.ID flag) (FeatureFlag.Key flag)
               (FeatureFlag.Description flag) (FeatureFlag.Enabled flag)
               (FeatureFlag.CreatedAt flag) (clock db) (FeatureFlag.DeletedAt flag) in
  (Ok row,
   tick (set_feature_flags
           (map (fun r => if (FeatureFlag.ID r =? FeatureFlag.ID flag)%N
                             && FeatureFlagRepository.live r
                          then row else r) (feature_flags db)) db)).
Proof.
  intros Hf Hnz Ht Hex. unfold FeatureFlagRepository.Update. rewrite Hnz.
  rewrite exec_no_faults by assumption. cbv zeta.
  unfold flag_exists in Hex. now rewrite Ht, Hex.
Qed.

(** [UpdateFeatureFlag] on a consistent store that does not fail: the
    feature-flag-not-found error, and no change, when no non-deleted flag
    has the id; otherwise it always succeeds: description and enabled are
    replaced where the payload has them, [updated_at] is set, id, key and
    [created_at] stay, the other flags, the users and the assignments are
    untouched, and the flag reads back by its key. *)
Theorem update_feature_flag_partial
        (db : DB) (id : uint) (req : Dto.UpdateFeatureFlagRequest.t) :
  faults db = [] -> consistent db ->
  (flag_exists id db = false ->
   Service.UpdateFeatureFlag id req db = (Err FeatureFlagNotFound, db)) /\
  (forall f,
     In f (feature_flags db) -> FeatureFlag.ID f = id ->
     FeatureFlag.DeletedAt f = None ->
     let f' := apply_flag_update req (clock db) f in
     exists db',
       Service.UpdateFeatureFlag id req db =
         (Ok (Service.toFeatureFlagResponse f'), db') /\
       feature_flags db' =
         map (fun r => if (FeatureFlag.ID r =? id)%N then f' else r)
             (feature_flags db) /\
       Service.GetFeatureFlagByKey (FeatureFlag.Key f) db' =
         (Ok (Service.toFeatureFlagResponse f'), db') /\
       users db' = users db /\
       user_feature_flags db' = user_feature_flags db).
Proof.
  intros Hf Hc. split.
  - intros Hex. unfold Service.UpdateFeatureFlag.
    rewrite Flag_GetByID_eq by assumption.
    unfold flag_exists in Hex. now rewrite First_missing.
  - intros f Hin Hid Hlive f'. subst id.
    assert (Hnz : (FeatureFlag.ID f =? 0)%N = false).
    { pose proof (serial _ _ _ _ (feature_flags_ok _ Hc) f Hin).
      apply N.eqb_neq. lia. }
    assert (Hex : flag_exists (FeatureFlag.ID f) db = true).
    { unfold flag_exists. apply existsb_exists. exists f. split; [assumption|].
      rewrite N.eqb_refl. unfold FeatureFlagRepository.live. now rewrite Hlive. }
    assert (Hmap :
      map (fun r => if (FeatureFlag.ID r =? FeatureFlag.ID f)%N
                       && FeatureFlagRepository.live r then f' else r)
          (feature_flags db) =
      map (fun r => if (FeatureFlag.ID r =? FeatureFlag.ID f)%N then f' else r)
          (feature_flags db)).
    { apply map_ext_in. intros r Hr.
      destruct (FeatureFlag.ID r =? FeatureFlag.ID f)%N eqn:E; [|reflexivity].
      apply N.eqb_eq in E.
      rewrite (table_ok_same_row _ _ _ _ _ _ (feature_flags_ok _ Hc) Hr Hin E).
      unfold FeatureFlagRepository.live. now rewrite Hlive. }
    set (db' := tick (set_feature_flags
                        (map (fun r => if (FeatureFlag.ID r =? FeatureFlag.ID f)%N
                                       then f' else r) (feature_flags db)) db)).
    assert (Hupd : Service.UpdateFeatureFlag (FeatureFlag.ID f) req db =
                   (Ok (Service.toFeatureFlagResponse f'), db')).
    { unfold Service.UpdateFeatureFlag.
      rewrite (Flag_GetByID_row db f Hf Hc Hin Hlive).
      rewrite Flag_Update_eq; try assumption.
      - cbv zeta. unfold db'. rewrite <- Hmap. unfold f', apply_flag_update.
        destruct (Dto.UpdateFeatureFlagRequest.Description req),
                 (Dto.UpdateFeatureFlagRequest.Enabled req); reflexivity.
      - destruct (Dto.UpdateFeatureFlagRequest.Description req),
                 (Dto.UpdateFeatureFlagRequest.Enabled req); exact Hnz.
      - destruct (Dto.UpdateFeatureFlagRequest.Description req),
                 (Dto.UpdateFeatureFlagRequest.Enabled req); cbn;
          now apply own_key_not_taken.
      - destruct (Dto.UpdateFeatureFlagRequest.Description req),
                 (Dto.UpdateFeatureFlagRequest.Enabled req); exact Hex. }
    exists db'. split; [exact Hupd|]. split; [reflexivity|].
    split; [|split; reflexivity].
    unfold Service.GetFeatureFlagByKey.
    rewrite Flag_GetByKey_eq by exact Hf.
    cbn [feature_flags db' tick set_feature_flags].
    rewrite (First_unique _ _ _ f'); [reflexivity| | |].
    + apply in_map_iff. exists f. split; [|assumption]. now rewrite N.eqb_refl.
    + unfold f'. cbn. rewrite String.eqb_refl.
      unfold FeatureFlagRepository.live. cbn. now rewrite Hlive.
    + intros r' Hr' Hcond. apply in_map_iff in Hr'.
      destruct Hr' as (r & <- & Hr).
      destruct (FeatureFlag.ID r =? FeatureFlag.ID f)%N eqn:E; [reflexivity|].
      apply andb_true_iff in Hcond. destruct Hcond as [Hkey _].
      apply String.eqb_eq in Hkey.
      pose proof (unique_key _ _ _ _ (feature_flags_ok _ Hc) r f Hr Hin Hkey).
      apply N.eqb_neq in E. contradiction.
Qed.

Lemma update_feature_flag_partial_witness :
  let req := Dto.UpdateFeatureFlagRequest.mk None (Some true) in
  faults db_ann_beta = [] /\ consistent db_ann_beta /\
  exists db',
    Service.UpdateFeatureFlag 1%N req db_ann_beta =
    (Ok (Dto.FeatureFlagResponse.mk 1%N "beta" "" true 2%N 3%N), db').
Proof.
  cbv zeta.
  assert (Hc : consistent db_ann_beta)
    by (apply reachable_consistent; repeat constructor).
  split; [reflexivity | split; [exact Hc|]].
  destruct (update_feature_flag_partial db_ann_beta 1%N
              (Dto.UpdateFeatureFlagRequest.mk None (Some true)) eq_refl Hc)
    as [_ H].
  destruct (H (FeatureFlag.mk 1%N "beta" "" false 2%N 2%N None))
    as (db' & Hupd & _).
  - left. reflexivity.
  - reflexivity.
  - reflexivity.
  - exists db'. exact Hupd.
Defined.

(** ** After a delete *)

(** Once [DeleteUser] has succeeded on a store that does not fail, the user
    is gone for every operation that takes its id: [GetUser], [UpdateUser],
    a second [DeleteUser], [GetUserFeatureFlags], assigning and unassigning
    all fail with the user-not-found error and change nothing.  Its row,
    its email and its assignments stay in the store. *)
Theorem deleted_user_is_gone (db db' : DB) (id : uint) :
  faults db = [] -> Service.DeleteUser id db = (Ok tt, db') ->
  Service.GetUser id db' = (Err UserNotFound, db') /\
  (forall req, Service.UpdateUser id req db' = (Err UserNotFound, db')) /\
  Service.DeleteUser id db' = (Err UserNotFound, db') /\
  Service.GetUserFeatureFlags id db' = (Err UserNotFound, db') /\
  (forall key,
     Service.AssignFeatureFlagToUser id key db' = (Err UserNotFound, db') /\
     Service.UnassignFeatureFlagFromUser id key db' = (Err UserNotFound, db')) /\
  user_row_present id db' = true /\
  (forall email, email_on_record email db' = email_on_record email db) /\
  (forall u f, isAssigned u f db' = isAssigned u f db).
Proof.
  intros Hf Hdel.
  destruct (DeleteUser_Ok_inv _ _ _ Hf Hdel) as (Hex & Hdb & Hf' & Hgone & Hufs & _).
  assert (Hmiss := User_GetByID_missing id db' Hf' Hgone).
  split; [unfold Service.GetUser; now rewrite Hmiss|].
  split; [intros req; unfold Service.UpdateUser; now rewrite Hmiss|].
  split; [unfold Service.DeleteUser; now rewrite Hmiss|].
  split; [unfold Service.GetUserFeatureFlags; now rewrite Hmiss|].
  split.
  { intros key. split.
    - unfold Service.AssignFeatureFlagToUser. now rewrite Hmiss.
    - unfold Service.UnassignFeatureFlagFromUser. now rewrite Hmiss. }
  rewrite User_Delete_eq in Hdb by assumption. cbn in Hdb. subst db'.
  split; [|split].
  - unfold user_row_present. cbn. rewrite existsb_map_same.
    + unfold user_exists in Hex. apply existsb_exists in Hex.
      destruct Hex as (u & Hin & Hu). apply andb_true_iff in Hu.
      apply existsb_exists. exists u. tauto.
    + intros r. now destruct ((User.ID r =? id)%N && UserRepository.live r).
  - intros email. unfold email_on_record. cbn. apply existsb_map_same.
    intros r. now destruct ((User.ID r =? id)%N && UserRepository.live r).
  - reflexivity.
Qed.

Lemma deleted_user_is_gone_witness :
  faults db_assigned = [] /\
  Service.DeleteUser 1%N db_assigned = (Ok tt, db_ann_deleted) /\
  Service.DeleteUser 1%N db_ann_deleted = (Err UserNotFound, db_ann_deleted) /\
  isAssigned 1%N 1%N db_ann_deleted = true.
Proof.
  split; [reflexivity | split; [reflexivity|]].
  destruct (deleted_user_is_gone db_assigned db_ann_deleted 1%N eq_refl eq_refl)
    as (_ & _ & Hdel & _ & _ & _ & _ & Hufs).
  split; [exact Hdel|]. rewrite Hufs. reflexivity.
Defined.

(** Once [DeleteFeatureFlag] has succeeded on a consistent store that does
    not fail, the flag is gone by id and by key: the lookups and
    [UpdateFeatureFlag] fail with the feature-flag-not-found error, and so
    do assigning and unassigning by its key for every existing user, so the
    assignment rows of the flag, which stay in the table, can no longer be
    removed through the service; no user's flag list shows the flag. *)
Theorem deleted_flag_is_gone (db db' : DB) (f : FeatureFlag.t) :
  faults db = [] -> consistent db ->
  In f (feature_flags db) -> FeatureFlag.DeletedAt f = None ->
  Service.DeleteFeatureFlag (FeatureFlag.ID f) db = (Ok tt, db') ->
  Service.GetFeatureFlag (FeatureFlag.ID f) db' = (Err FeatureFlagNotFound, db') /\
  Service.GetFeatureFlagByKey (FeatureFlag.Key f) db' =
    (Err FeatureFlagNotFound, db') /\
  (forall req, Service.UpdateFeatureFlag (FeatureFlag.ID f) req db' =
               (Err FeatureFlagNotFound, db')) /\
  (forall userID,
     user_exists userID db' = true ->
     Service.AssignFeatureFlagToUser userID (FeatureFlag.Key f) db' =
       (Err FeatureFlagNotFound, db') /\
     Service.UnassignFeatureFlagFromUser userID (FeatureFlag.Key f) db' =
       (Err FeatureFlagNotFound, db')) /\
  (forall u g, isAssigned u g db' = isAssigned u g db) /\
  (forall userID flags,
     Service.GetUserFeatureFlags userID db' = (Ok flags, db') ->
     forall r, In r flags -> Dto.FeatureFlagResponse.ID r <> FeatureFlag.ID f).
Proof.
  intros Hf Hc Hin Hlive Hdel.
  destruct (DeleteFeatureFlag_Ok_inv _ _ _ Hf Hdel)
    as (Hex & Hdb & Hf' & Hgone & Hufs & Hus).
  assert (Hkey : key_in_use (FeatureFlag.Key f) db' = false).
  { rewrite Flag_Delete_eq in Hdb by assumption. cbn in Hdb. subst db'.
    unfold key_in_use. cbn.
    destruct (existsb _ (map _ (feature_flags db))) eqn:E; [|reflexivity].
    apply existsb_exists in E. destruct E as (r' & Hr' & Hcond).
    apply in_map_iff in Hr'. destruct Hr' as (r & <- & Hr).
    destruct ((FeatureFlag.ID r =? FeatureFlag.ID f)%N
              && FeatureFlagRepository.live r) eqn:Ehit.
    - cbn in Hcond. now rewrite andb_false_r in Hcond.
    - apply andb_true_iff in Hcond. destruct Hcond as [Hk Hl].
      apply String.eqb_eq in Hk.
      pose proof (unique_key _ _ _ _ (feature_flags_ok _ Hc) r f Hr Hin Hk) as Hid.
      rewrite Hid, N.eqb_refl, Hl in Ehit. discriminate. }
  assert (Hbyid : FeatureFlagRepository.GetByID (FeatureFlag.ID f) db' =
                  (Err ErrRecordNotFound, db')).
  { rewrite Flag_GetByID_eq by assumption. unfold flag_exists in Hgone.
    now rewrite First_missing. }
  assert (Hbykey := Flag_GetByKey_missing _ _ Hf' Hkey).
  split; [unfold Service.GetFeatureFlag; now rewrite Hbyid|].
  split; [unfold Service.GetFeatureFlagByKey; now rewrite Hbykey|].
  split; [intros req; unfold Service.UpdateFeatureFlag; now rewrite Hbyid|].
  split.
  { intros userID Hu.
    destruct (User_GetByID_found _ _ Hf' Hu) as (u & Hget & _). split.
    - unfold Service.AssignFeatureFlagToUser. now rewrite Hget, Hbykey.
    - unfold Service.UnassignFeatureFlagFromUser. now rewrite Hget, Hbykey. }
  split; [intros u g; unfold isAssigned; now rewrite Hufs|].
  intros userID flags Hflags r Hr Hid.
  unfold Service.GetUserFeatureFlags in Hflags.
  destruct (user_exists userID db') eqn:Hu.
  - destruct (User_GetByID_found _ _ Hf' Hu) as (u & Hget & _).
    rewrite Hget, GetUserFeatureFlags_eq in Hflags by assumption.
    injection Hflags as <-. apply in_map_iff in Hr.
    destruct Hr as (g & <- & Hg). cbn in Hid.
    apply joined_flags_In in Hg. destruct Hg as (Hg & Hglive & _).
    assert (flag_exists (FeatureFlag.ID f) db' = true).
    { unfold flag_exists. apply existsb_exists. exists g. split; [assumption|].
      rewrite Hid, N.eqb_refl. unfold FeatureFlagRepository.live.
      now rewrite Hglive. }
    congruence.
  - rewrite User_GetByID_missing in Hflags by assumption. discriminate.
Qed.

Lemma deleted_flag_is_gone_witness :
  faults db_assigned = [] /\ consistent db_assigned /\
  Service.DeleteFeatureFlag 1%N db_assigned = (Ok tt, db_beta_deleted) /\
  Service.UnassignFeatureFlagFromUser 1%N "beta" db_beta_deleted =
    (Err FeatureFlagNotFound, db_beta_deleted) /\
  isAssigned 1%N 1%N db_beta_deleted = true.
Proof.
  assert (Hc : consistent db_assigned)
    by (apply reachable_consistent; repeat constructor).
  split; [reflexivity | split; [exact Hc | split; [reflexivity|]]].
  destruct (deleted_flag_is_gone db_assigned db_beta_deleted
              (FeatureFlag.mk 1%N "beta" "" false 2%N 2%N None) eq_refl Hc)
    as (_ & _ & _ & Hops & Hufs & _).
  - left. reflexivity.
  - reflexivity.
  - reflexivity.
  - split.
    + apply (Hops 1%N). reflexivity.
    + rewrite Hufs. reflexivity.
Defined.

(** ** The assignment relation: round trips and the two queries *)

Lemma is_pair_other (u f u' f' : uint) (r : UserFeatureFlag.t) :
  (u', f') <> (u, f) ->
  UserFeatureFlagRepository.is_pair u f r = true ->
  UserFeatureFlagRepository.is_pair u' f' r = false.
Proof.
  unfold UserFeatureFlagRepository.is_pair. intros Hne Hr.
  apply andb_true_iff in Hr. destruct Hr as [E1 E2].
  apply N.eqb_eq in E1. apply N.eqb_eq in E2.
  destruct (UserFeatureFlag.UserID r =? u')%N eqn:Eu; [|reflexivity].
  destruct (UserFeatureFlag.FeatureFlagID r =? f')%N eqn:Ef; [|reflexivity].
  apply N.eqb_eq in Eu. apply N.eqb_eq in Ef. exfalso. apply Hne. congruence.
Qed.

Lemma existsb_other_pair (u f u' f' : uint) (rows : list UserFeatureFlag.t) :
  (u', f') <> (u, f) ->
  existsb (UserFeatureFlagRepository.is_pair u' f')
          (filter (fun r => negb (UserFeatureFlagRepository.is_pair u f r)) rows) =
  existsb (UserFeatureFlagRepository.is_pair u' f') rows.
Proof.
  intros Hne. induction rows as [|r rest IH]; [reflexivity|]. cbn.
  destruct (UserFeatureFlagRepository.is_pair u f r) eqn:Er; cbn.
  - now rewrite IH, (is_pair_other _ _ _ _ _ Hne Er).
  - now rewrite IH.
Qed.

Lemma existsb_own_pair (u f : uint) (rows : list UserFeatureFlag.t) :
  existsb (UserFeatureFlagRepository.is_pair u f)
          (filter (fun r => negb (UserFeatureFlagRepository.is_pair u f r)) rows) =
  false.
Proof.
  induction rows as [|r rest IH]; [reflexivity|]. cbn.
  destruct (UserFeatureFlagRepository.is_pair u f r) eqn:Er; cbn; [exact IH|].
  now rewrite Er, IH.
Qed.

(** Assigning and unassigning undo each other on a store that does not
    fail, for an existing user and a key that resolves: an unassigned pair
    that is assigned and then unassigned leaves the assignment table
    exactly as it was; an assigned pair that is unassigned and then
    assigned again leaves the relation with the same pairs. *)
Theorem assign_and_unassign_are_inverse
        (db : DB) (userID : uint) (key : string) (flag : FeatureFlag.t) :
  faults db = [] -> user_exists userID db = true ->
  FeatureFlagRepository.GetByKey key db = (Ok flag, db) ->
  (isAssigned userID (FeatureFlag.ID flag) db = false ->
   exists db1 db2,
     Service.AssignFeatureFlagToUser userID key db = (Ok tt, db1) /\
     Service.UnassignFeatureFlagFromUser userID key db1 = (Ok tt, db2) /\
     user_feature_flags db2 = user_feature_flags db /\
     users db2 = users db /\ feature_flags db2 = feature_flags db) /\
  (isAssigned userID (FeatureFlag.ID flag) db = true ->
   exists db1 db2,
     Service.UnassignFeatureFlagFromUser userID key db = (Ok tt, db1) /\
     isAssigned userID (FeatureFlag.ID flag) db1 = false /\
     Service.AssignFeatureFlagToUser userID key db1 = (Ok tt, db2) /\
     (forall u f, isAssigned u f db2 = isAssigned u f db) /\
     users db2 = users db /\ feature_flags db2 = feature_flags db).
Proof.
  intros Hf Hu Hk.
  assert (Hkeep : forall d, faults d = [] -> users d = users db ->
            feature_flags d = feature_flags db ->
            user_exists userID d = true /\
            FeatureFlagRepository.GetByKey key d = (Ok flag, d)).
  { intros d Hfd Hus Hfs. split.
    - unfold user_exists. now rewrite Hus.
    - rewrite Flag_GetByKey_eq in * by assumption. rewrite Hfs.
      injection Hk as Hk. now rewrite Hk. }
  split; intros Ha.
  - do 2 eexists. split.
    + rewrite (AssignFeatureFlagToUser_resolved db userID key flag Hf Hu Hk).
      rewrite Ha. reflexivity.
    + match goal with |- Service.UnassignFeatureFlagFromUser _ _ ?d = _ /\ _ =>
        destruct (Hkeep d Hf eq_refl eq_refl) as [Hu1 Hk1];
        rewrite (UnassignFeatureFlagFromUser_resolved d userID key flag Hf Hu1 Hk1)
      end.
      split; [reflexivity|]. cbn. split; [|split; reflexivity].
      rewrite filter_app. cbn. rewrite is_pair_refl. cbn.
      rewrite app_nil_r. now apply filter_none.
  - do 2 eexists. split.
    + now rewrite (UnassignFeatureFlagFromUser_resolved db userID key flag Hf Hu Hk).
    + split; [unfold isAssigned; cbn; apply existsb_own_pair|].
      match goal with |- Service.AssignFeatureFlagToUser _ _ ?d = _ /\ _ =>
        destruct (Hkeep d Hf eq_refl eq_refl) as [Hu1 Hk1];
        rewrite (AssignFeatureFlagToUser_resolved d userID key flag Hf Hu1 Hk1)
      end.
      unfold isAssigned at 1. cbn [user_feature_flags set_user_feature_flags].
      rewrite existsb_own_pair.
      split; [reflexivity|]. cbn. split; [|split; reflexivity].
      intros u f. unfold isAssigned. rewrite existsb_app. cbn.
      destruct (N.eq_dec u userID) as [->|Hnu].
      * destruct (N.eq_dec f (FeatureFlag.ID flag)) as [->|Hnf].
        -- rewrite is_pair_refl. unfold isAssigned in Ha.
           now rewrite Ha, orb_true_r.
        -- rewrite existsb_other_pair by congruence.
           unfold UserFeatureFlagRepository.is_pair. cbn.
           assert (E : (FeatureFlag.ID flag =? f)%N = false)
             by (apply N.eqb_neq; congruence).
           now rewrite E, andb_false_r, !orb_false_r.
      * rewrite existsb_other_pair by congruence.
        unfold UserFeatureFlagRepository.is_pair. cbn.
        assert (E : (userID =? u)%N = false) by (apply N.eqb_neq; congruence).
        now rewrite E, !orb_false_r.
Qed.

Lemma assign_and_unassign_are_inverse_witness :
  faults db_ann_beta = [] /\ user_exists 1%N db_ann_beta = true /\
  isAssigned 1%N 1%N db_ann_beta = false /\
  exists db2,
    Service.UnassignFeatureFlagFromUser 1%N "beta" db_assigned = (Ok tt, db2) /\
    user_feature_flags db2 = user_feature_flags db_ann_beta.
Proof.
  split; [reflexivity | split; [reflexivity | split; [reflexivity|]]].
  destruct (assign_and_unassign_are_inverse db_ann_beta 1%N "beta"
              (FeatureFlag.mk 1%N "beta" "" false 2%N 2%N None)
              eq_refl eq_refl eq_refl) as [H _].
  destruct (H eq_refl) as (db1 & db2 & Hass & Hun & Hufs & _).
  assert (Hdb1 : db1 = db_assigned).
  { apply (f_equal snd) in Hass. symmetry. exact Hass. }
  subst db1. exists db2. split; assumption.
Defined.

Lemma GetFeatureFlagUsers_eq (featureFlagID : uint) (db : DB) :
  faults db = [] ->
  UserFeatureFlagRepository.GetFeatureFlagUsers featureFlagID db =
  (Ok (flat_map
         (fun u =>
            map (fun _ => u)
                (filter (UserFeatureFlagRepository.is_pair (User.ID u) featureFlagID)
                        (user_feature_flags db)))
         (filter UserRepository.live (users db))), db).
Proof.
  intros Hf. unfold UserFeatureFlagRepository.GetFeatureFlagUsers.
  now rewrite exec_no_faults.
Qed.

Lemma joined_users_In (featureFlagID : uint) (db : DB) (u : User.t) :
  In u (flat_map
          (fun u =>
             map (fun _ => u)
                 (filter (UserFeatureFlagRepository.is_pair (User.ID u) featureFlagID)
                         (user_feature_flags db)))
          (filter UserRepository.live (users db))) <->
  In u (users db) /\ User.DeletedAt u = None /\
  isAssigned (User.ID u) featureFlagID db = true.
Proof.
  rewrite in_flat_map. split.
  - intros (x & Hx & Hin). apply filter_In in Hx. destruct Hx as [Hx Hlive].
    apply in_map_iff in Hin. destruct Hin as (r & -> & Hr).
    apply filter_In in Hr. destruct Hr as [Hr Hp].
    split; [assumption|]. split.
    + unfold UserRepository.live in Hlive.
      destruct (User.DeletedAt u); [discriminate | reflexivity].
    + unfold isAssigned. apply existsb_exists. eauto.
  - intros (Hin & Hlive & Ha). exists u. split.
    + apply filter_In. split; [assumption|].
      unfold UserRepository.live. now rewrite Hlive.
    + unfold isAssigned in Ha. apply existsb_exists in Ha.
      destruct Ha as (r & Hr & Hp). apply in_map_iff. exists r.
      split; [reflexivity|]. apply filter_In. auto.
Qed.

(** The two queries over the assignment table agree on a store that does
    not fail: an existing flag is among the flags of an existing user
    exactly when that user is among the users of the flag, which is exactly
    when the table holds the pair; neither query returns a soft-deleted
    row. *)
Theorem assignment_queries_agree (db : DB) (u : User.t) (f : FeatureFlag.t) :
  faults db = [] ->
  In u (users db) -> User.DeletedAt u = None ->
  In f (feature_flags db) -> FeatureFlag.DeletedAt f = None ->
  exists flags us,
    UserFeatureFlagRepository.GetUserFeatureFlags (User.ID u) db = (Ok flags, db) /\
    UserFeatureFlagRepository.GetFeatureFlagUsers (FeatureFlag.ID f) db =
      (Ok us, db) /\
    (In f flags <-> In u us) /\
    (In f flags <-> isAssigned (User.ID u) (FeatureFlag.ID f) db = true) /\
    (forall g, In g flags -> FeatureFlag.DeletedAt g = None) /\
    (forall v, In v us -> User.DeletedAt v = None).
Proof.
  intros Hf Hu Hul Hfl Hfll. do 2 eexists.
  split; [now apply GetUserFeatureFlags_eq|].
  split; [now apply GetFeatureFlagUsers_eq|].
  rewrite joined_flags_In, joined_users_In.
  split; [tauto|]. split; [tauto|]. split.
  - intros g Hg. apply joined_flags_In in Hg. tauto.
  - intros v Hv. apply joined_users_In in Hv. tauto.
Qed.

Lemma assignment_queries_agree_witness :
  faults db_assigned = [] /\
  exists us,
    UserFeatureFlagRepository.GetFeatureFlagUsers 1%N db_assigned = (Ok us, db_assigned) /\
    In (User.mk 1%N "Ann" "ann@x.com" true 1%N 1%N None None) us.
Proof.
  split; [reflexivity|].
  destruct (assignment_queries_agree db_assigned
              (User.mk 1%N "Ann" "ann@x.com" true 1%N 1%N None None)
              (FeatureFlag.mk 1%N "beta" "" false 2%N 2%N None) eq_refl)
    as (flags & us & Hflags & Hus & Hiff & Hass & _).
  - left. reflexivity.
  - reflexivity.
  - left. reflexivity.
  - reflexivity.
  - exists us. split; [exact Hus|]. apply Hiff. apply Hass. reflexivity.
Defined.

(** ** Listing users and flags *)

Lemma Offset_skipn {A : Type} (n : Z) (rows : list A) :
  0 <= n -> Offset n rows = skipn (Z.to_nat n) rows.
Proof.
  intros Hn. unfold Offset. destruct (n >? 0) eqn:E.
  - destruct (Z_le_gt_dec n (Z.of_nat (List.length rows))) as [Hle|Hgt].
    + now rewrite Z.min_l.
    + rewrite Z.min_r by lia. rewrite Nat2Z.id.
      rewrite skipn_all. symmetry. apply skipn_all2. lia.
  - assert (n = 0) by lia. subst n. reflexivity.
Qed.

Lemma Limit_firstn {A : Type} (n : Z) (rows : list A) :
  0 <= n -> Limit n rows = firstn (Z.to_nat n) rows.
Proof.
  intros Hn. unfold Limit.
  assert (E : (n >=? 0) = true) by (apply Z.geb_le; lia). rewrite E.
  destruct (Z_le_gt_dec n (Z.of_nat (List.length rows))) as [Hle|Hgt].
  - now rewrite Z.min_l.
  - rewrite Z.min_r by lia. rewrite Nat2Z.id.
    rewrite firstn_all. symmetry. apply firstn_all2. lia.
Qed.

Lemma User_GetAll_eq (limit offset : Z) (db : DB) :
  faults db = [] ->
  UserRepository.GetAll limit offset db =
  (Ok (Limit limit (Offset offset (live_users db)),
       Z.of_nat (List.length (live_users db))), db).
Proof.
  intros Hf. unfold UserRepository.GetAll.
  rewrite exec_no_faults by assumption. cbn.
  now rewrite exec_no_faults.
Qed.

Lemma Flag_GetAll_eq (limit offset : Z) (db : DB) :
  faults db = [] ->
  FeatureFlagRepository.GetAll limit offset db =
  (Ok (Limit limit (Offset offset (live_feature_flags db)),
       Z.of_nat (List.length (live_feature_flags db))), db).
Proof.
  intros Hf. unfold FeatureFlagRepository.GetAll.
  rewrite exec_no_faults by assumption. cbn.
  now rewrite exec_no_faults.
Qed.

Lemma page_slice {A : Type} (ps off : Z) (rows : list A) :
  1 <= ps -> 0 <= off ->
  let page := Limit ps (Offset off rows) in
  page = firstn (Z.to_nat ps) (skipn (Z.to_nat off) rows) /\
  Z.of_nat (List.length page) =
    Z.min ps (Z.max 0 (Z.of_nat (List.length rows) - off)) /\
  (forall i, (i < Z.to_nat ps)%nat ->
             nth_error page i = nth_error rows (Z.to_nat off + i)) /\
  (forall r, In r page -> In r rows).
Proof.
  intros Hps Hoff page. subst page.
  rewrite Offset_skipn, Limit_firstn by lia.
  split; [reflexivity|]. split; [|split].
  - rewrite length_firstn, length_skipn. lia.
  - intros i Hi. rewrite nth_error_firstn, nth_error_skipn.
    assert (E : (i <? Z.to_nat ps)%nat = true) by now apply Nat.ltb_lt.
    now rewrite E.
  - intros r Hr.
    rewrite <- (firstn_skipn (Z.to_nat off) rows). apply in_or_app. right.
    rewrite <- (firstn_skipn (Z.to_nat ps) (skipn (Z.to_nat off) rows)).
    apply in_or_app. now left.
Qed.

(** [GetUsers] on a store that does not fail, when (page - 1) * page_size
    of the effective values fits an [int]: the answer reports the
    effective page and page size and the number of non-deleted users as
    total, and lists the slice of the non-deleted users, in table order,
    that starts at the offset and has at most page_size entries: the i-th
    entry of the page is the (offset + i)-th non-deleted user, a page past
    the end is empty, and a soft-deleted user is never listed.  The store
    is unchanged. *)
Theorem get_users_lists_a_page (db : DB) (page page_size : Z) :
  faults db = [] -> GoInt.in_range page ->
  (effective_page page - 1) * effective_page_size page_size <= GoInt.max_int ->
  let pg := effective_page page in
  let ps := effective_page_size page_size in
  let off := (pg - 1) * ps in
  let total := Z.of_nat (List.length (live_users db)) in
  exists resp,
    Service.GetUsers (Dto.mkPagination page page_size) db = (Ok resp, db) /\
    Dto.UserListResponse.Total resp = total /\
    Dto.UserListResponse.Page resp = pg /\
    Dto.UserListResponse.PageSize resp = ps /\
    Dto.UserListResponse.TotalPages resp = Dto.CalculateTotalPages total ps /\
    Z.of_nat (List.length (Dto.UserListResponse.Users resp)) =
      Z.min ps (Z.max 0 (total - off)) /\
    (forall i, (i < Z.to_nat ps)%nat ->
       nth_error (Dto.UserListResponse.Users resp) i =
       option_map Service.toUserResponse
                  (nth_error (live_users db) (Z.to_nat off + i))) /\
    (forall r, In r (Dto.UserListResponse.Users resp) ->
       exists u, In u (users db) /\ User.DeletedAt u = None /\
                 r = Service.toUserResponse u).
Proof.
  intros Hf Hp Hfit pg ps off total.
  pose proof (effective_page_size_bounds page_size) as Hps.
  assert (Hpg : 1 <= pg).
  { unfold pg, effective_page. destruct (page <? 1) eqn:E; lia. }
  assert (Hoff : 0 <= off) by (unfold off; fold ps; nia).
  assert (Hwrap : GoInt.wrap ((effective_page page - 1)
                              * effective_page_size page_size) = off).
  { apply wrap_small. fold pg ps off.
    unfold GoInt.in_range, GoInt.min_int, GoInt.max_int in *.
    fold pg ps off in Hfit. lia. }
  rewrite GetUsers_effective by assumption.
  rewrite Hwrap, User_GetAll_eq by assumption.
  destruct (page_slice ps off (live_users db)) as (Hslice & Hlen & Hnth & Hin);
    [fold ps in Hps; lia | assumption |].
  eexists. split; [reflexivity|]. cbn.
  repeat split.
  - rewrite length_map. exact Hlen.
  - intros i Hi. rewrite nth_error_map. now rewrite Hnth.
  - intros r Hr. apply in_map_iff in Hr. destruct Hr as (u & <- & Hu).
    apply Hin in Hu. unfold live_users in Hu. apply filter_In in Hu.
    destruct Hu as [Hu Hlive]. exists u. repeat split; [assumption|].
    unfold UserRepository.live in Hlive.
    destruct (User.DeletedAt u); [discriminate | reflexivity].
Qed.

Lemma get_users_lists_a_page_witness :
  faults db_ann_deleted_bob = [] /\ GoInt.in_range 1 /\
  exists resp,
    Service.GetUsers (Dto.mkPagination 1 0) db_ann_deleted_bob =
      (Ok resp, db_ann_deleted_bob) /\
    Dto.UserListResponse.Total resp = 1 /\
    Dto.UserListResponse.PageSize resp = 10.
Proof.
  assert (Hr : GoInt.in_range 1) by (vm_compute; split; discriminate).
  split; [reflexivity | split; [exact Hr|]].
  destruct (get_users_lists_a_page db_ann_deleted_bob 1 0 eq_refl Hr)
    as (resp & Hget & Htotal & _ & Hps & _).
  - vm_compute. discriminate.
  - exists resp. repeat split; assumption.
Defined.

(** The defaults a list handler sets (page 0 becomes 1, page size 0 becomes
    10) never change the answer: the service normalises the same
    parameters to the same effective values, so [GetUsers] and
    [GetFeatureFlags] return the same result and store with and without
    them. *)
Theorem handler_defaults_are_redundant (p : Dto.PaginationParams) (db : DB) :
  GoInt.in_range (Dto.Page p) ->
  Service.GetUsers (Handler.set_defaults p) db = Service.GetUsers p db /\
  Service.GetFeatureFlags (Handler.set_defaults p) db =
    Service.GetFeatureFlags p db.
Proof.
  intros Hp. destruct p as [page size]. cbn in Hp.
  assert (Hd : exists page' size',
             Handler.set_defaults (Dto.mkPagination page size) =
             Dto.mkPagination page' size' /\
             GoInt.in_range page' /\
             effective_page page' = effective_page page /\
             effective_page_size size' = effective_page_size size).
  { assert (H1 : GoInt.in_range 1) by (split; discriminate).
    unfold Handler.set_defaults. cbn [Dto.Page Dto.PageSize].
    destruct (page =? 0) eqn:E1; cbn [Dto.Page Dto.PageSize];
      destruct (size =? 0) eqn:E2.
    - apply Z.eqb_eq in E1, E2. subst page size.
      exists 1, 10. split; [reflexivity | split; [exact H1 | split; reflexivity]].
    - apply Z.eqb_eq in E1. subst page.
      exists 1, size. split; [reflexivity | split; [exact H1 | split; reflexivity]].
    - apply Z.eqb_eq in E2. subst size.
      exists page, 10. split; [reflexivity | split; [exact Hp | split; reflexivity]].
    - exists page, size.
      split; [reflexivity | split; [exact Hp | split; reflexivity]]. }
  destruct Hd as (page' & size' & -> & Hp' & Hpg & Hps).
  rewrite !GetUsers_effective, !GetFeatureFlags_effective by assumption.
  now rewrite Hpg, Hps.
Qed.

Lemma handler_defaults_are_redundant_witness :
  GoInt.in_range 0 /\
  Service.GetUsers (Dto.mkPagination 1 10) db_ann =
  Service.GetUsers (Dto.mkPagination 0 0) db_ann.
Proof.
  assert (Hr : GoInt.in_range 0) by (vm_compute; split; discriminate).
  split; [exact Hr|].
  apply (handler_defaults_are_redundant (Dto.mkPagination 0 0) db_ann Hr).
Defined.

(** ** A failed call changes no table *)

Lemma unchanged_refl (db : DB) : unchanged db db.
Proof. exists (faults db). split; [now rewrite set_faults_same | auto]. Qed.

Lemma unchanged_trans (a b c : DB) : unchanged a b -> unchanged b c -> unchanged a c.
Proof.
  intros (fs1 & -> & H1) (fs2 & -> & H2). exists fs2. split; [reflexivity|].
  intros Ha. apply H2. cbn. now apply H1.
Qed.

Lemma unchanged_same_tables (db db' : DB) : unchanged db db' -> same_tables db db'.
Proof. intros (fs & -> & _). repeat split. Qed.

Lemma unchanged_no_faults (db db' : DB) :
  unchanged db db' -> faults db = [] -> db' = db.
Proof.
  intros (fs & -> & H) Hf. rewrite (H Hf), <- Hf. apply set_faults_same.
Qed.

Lemma same_tables_trans (a b c : DB) :
  same_tables a b -> same_tables b c -> same_tables a c.
Proof.
  intros (H1 & H2 & H3) (H4 & H5 & H6). repeat split; congruence.
Qed.

Lemma exec_unchanged {A : Type} (body : Stmt A) (db : DB) :
  (exists fs, exec body db = (Err ErrOther, set_faults fs db) /\
              (faults db = [] -> fs = [])) \/
  (exists fs, exec body db = body (set_faults fs db) /\
              (faults db = [] -> fs = [])).
Proof.
  unfold exec. destruct (faults db) as [|[] fs] eqn:E.
  - right. exists []. split; [|reflexivity]. rewrite <- E. now rewrite set_faults_same.
  - left. exists fs. split; [reflexivity | discriminate].
  - right. exists fs. split; [reflexivity | discriminate].
Qed.

Lemma exec_read_unchanged {A : Type} (f : DB -> result Gorm.error A) (db db1 : DB)
      (r : result Gorm.error A) :
  exec (fun d => (f d, d)) db = (r, db1) -> unchanged db db1.
Proof.
  destruct (exec_unchanged (fun d => (f d, d)) db) as [(fs & H & Hfs)|(fs & H & Hfs)];
    rewrite H; intros [= _ <-]; now exists fs.
Qed.

Lemma exec_write_failed {A : Type} (body : Stmt A) (db db1 : DB) (e : Gorm.error) :
  (forall d e' d1, body d = (Err e', d1) -> same_tables d d1) ->
  exec body db = (Err e, db1) -> same_tables db db1.
Proof.
  intros Hbody.
  destruct (exec_unchanged body db) as [(fs & H & _)|(fs & H & _)]; rewrite H.
  - intros [= _ <-]. repeat split.
  - intros Hb. apply Hbody in Hb. destruct Hb as (H1 & H2 & H3).
    repeat split; assumption.
Qed.

Lemma IsAssigned_unchanged (u f : uint) (db db1 : DB) (r : result Gorm.error bool) :
  UserFeatureFlagRepository.IsFeatureFlagAssignedToUser u f db = (r, db1) ->
  unchanged db db1.
Proof.
  unfold UserFeatureFlagRepository.IsFeatureFlagAssignedToUser.
  match goal with |- exec ?b db = _ -> _ =>
    destruct (exec_unchanged b db) as [(fs & H & Hfs)|(fs & H & Hfs)]; rewrite H end;
    cbn; intros [= _ <-]; now exists fs.
Qed.

Lemma User_GetAll_unchanged (limit offset : Z) (db db1 : DB)
      (r : result Gorm.error (list User.t * Z)) :
  UserRepository.GetAll limit offset db = (r, db1) -> unchanged db db1.
Proof.
  unfold UserRepository.GetAll.
  match goal with |- match exec ?b db with _ => _ end = _ -> _ =>
    destruct (exec b db) as [[total|e] d] eqn:E1 end.
  - apply exec_read_unchanged in E1. intros E2.
    apply exec_read_unchanged in E2. now apply (unchanged_trans _ d).
  - apply exec_read_unchanged in E1. now intros [= _ <-].
Qed.

Lemma Flag_GetAll_unchanged (limit offset : Z) (db db1 : DB)
      (r : result Gorm.error (list FeatureFlag.t * Z)) :
  FeatureFlagRepository.GetAll limit offset db = (r, db1) -> unchanged db db1.
Proof.
  unfold FeatureFlagRepository.GetAll.
  match goal with |- match exec ?b db with _ => _ end = _ -> _ =>
    destruct (exec b db) as [[total|e] d] eqn:E1 end.
  - apply exec_read_unchanged in E1. intros E2.
    apply exec_read_unchanged in E2. now apply (unchanged_trans _ d).
  - apply exec_read_unchanged in E1. now intros [= _ <-].
Qed.

Lemma User_Create_failed (user : User.t) (db db1 : DB) (e : Gorm.error) :
  UserRepository.Create user db = (Err e, db1) -> same_tables db db1.
Proof.
  apply exec_write_failed. intros d e' d1. cbn.
  destruct (User.ID user =? 0)%N; cbn;
    match goal with |- context [if ?c then _ else _] => destruct c end;
    intros [= _ <-]; repeat split.
Qed.

Lemma Flag_Create_failed (flag : FeatureFlag.t) (db db1 : DB) (e : Gorm.error) :
  FeatureFlagRepository.Create flag db = (Err e, db1) -> same_tables db db1.
Proof.
  apply exec_write_failed. intros d e' d1. cbn.
  destruct (FeatureFlag.ID flag =? 0)%N; cbn;
    match goal with |- context [if ?c then _ else _] => destruct c end;
    intros [= _ <-]; repeat split.
Qed.

Lemma User_Update_failed (user : User.t) (db db1 : DB) (e : Gorm.error) :
  UserRepository.Update user db = (Err e, db1) -> same_tables db db1.
Proof.
  unfold UserRepository.Update. destruct (User.ID user =? 0)%N.
  - apply User_Create_failed.
  - apply exec_write_failed. intros d e' d1. cbn.
    repeat match goal with |- context [if ?c then _ else _] => destruct c end;
      intros [= _ <-]; repeat split.
Qed.

Lemma Flag_Update_failed (flag : FeatureFlag.t) (db db1 : DB) (e : Gorm.error) :
  FeatureFlagRepository.Update flag db = (Err e, db1) -> same_tables db db1.
Proof.
  unfold FeatureFlagRepository.Update. destruct (FeatureFlag.ID flag =? 0)%N.
  - apply Flag_Create_failed.
  - apply exec_write_failed. intros d e' d1. cbn.
    repeat match goal with |- context [if ?c then _ else _] => destruct c end;
      intros [= _ <-]; repeat split.
Qed.

Lemma User_Delete_failed (id : uint) (db db1 : DB) (e : Gorm.error) :
  UserRepository.Delete id db = (Err e, db1) -> same_tables db db1.
Proof. apply exec_write_failed. intros d e' d1. cbn. discriminate. Qed.

Lemma Flag_Delete_failed (id : uint) (db db1 : DB) (e : Gorm.error) :
  FeatureFlagRepository.Delete id db = (Err e, db1) -> same_tables db db1.
Proof. apply exec_write_failed. intros d e' d1. cbn. discriminate. Qed.

Lemma Assign_failed (u f : uint) (db db1 : DB) (e : Gorm.error) :
  UserFeatureFlagRepository.AssignFeatureFlagToUser u f db = (Err e, db1) ->
  same_tables db db1.
Proof.
  apply exec_write_failed. intros d e' d1. cbn.
  repeat match goal with |- context [if ?c then _ else _] => destruct c end;
    intros [= _ <-]; repeat split.
Qed.

Lemma Unassign_failed (u f : uint) (db db1 : DB) (e : Gorm.error) :
  UserFeatureFlagRepository.UnassignFeatureFlagFromUser u f db = (Err e, db1) ->
  same_tables db db1.
Proof. apply exec_write_failed. intros d e' d1. cbn. discriminate. Qed.

Lemma User_GetByID_unchanged (id : uint) (db db1 : DB) (r : result Gorm.error User.t) :
  UserRepository.GetByID id db = (r, db1) -> unchanged db db1.
Proof. apply exec_read_unchanged. Qed.

Lemma User_GetByEmail_unchanged (email : string) (db db1 : DB)
      (r : result Gorm.error User.t) :
  UserRepository.GetByEmail email db = (r, db1) -> unchanged db db1.
Proof. apply exec_read_unchanged. Qed.

Lemma Flag_GetByID_unchanged (id : uint) (db db1 : DB)
      (r : result Gorm.error FeatureFlag.t) :
  FeatureFlagRepository.GetByID id db = (r, db1) -> unchanged db db1.
Proof. apply exec_read_unchanged. Qed.

Lemma Flag_GetByKey_unchanged (key : string) (db db1 : DB)
      (r : result Gorm.error FeatureFlag.t) :
  FeatureFlagRepository.GetByKey key db = (r, db1) -> unchanged db db1.
Proof. apply exec_read_unchanged. Qed.

Lemma GetUserFeatureFlags_unchanged (id : uint) (db db1 : DB)
      (r : result Gorm.error (list FeatureFlag.t)) :
  UserFeatureFlagRepository.GetUserFeatureFlags id db = (r, db1) -> unchanged db db1.
Proof. apply exec_read_unchanged. Qed.

Create HintDb tables.
#[local] Hint Resolve unchanged_refl unchanged_same_tables : tables.
#[local] Hint Resolve User_GetByID_unchanged User_GetByEmail_unchanged
  Flag_GetByID_unchanged Flag_GetByKey_unchanged GetUserFeatureFlags_unchanged
  IsAssigned_unchanged User_GetAll_unchanged Flag_GetAll_unchanged : tables.
#[local] Hint Resolve User_Create_failed Flag_Create_failed User_Update_failed
  Flag_Update_failed User_Delete_failed Flag_Delete_failed Assign_failed
  Unassign_failed : tables.

(** What a failed call owes the store. *)
Ltac failed_leaf :=
  cbn; intros Hout;
  first
    [ discriminate Hout
    | injection Hout as <- <-;
      split;
      [ eauto 6 using same_tables_trans, unchanged_trans with tables
      | intros msg Hmsg;
        first [ discriminate Hmsg
              | eauto 6 using unchanged_trans with tables ] ] ].

Ltac read_call m db r d E U lem :=
  destruct (m db) as [r d] eqn:E; pose proof (lem _ _ _ _ E) as U.

Lemma failed_CreateUser (req : Dto.CreateUserRequest.t) (db db' : DB)
      (err : Service.error) :
  outcome (Service.CreateUser req db) = (Some err, db') ->
  same_tables db db' /\ (forall msg, err = Service.New msg -> unchanged db db').
Proof.
  unfold Service.CreateUser.
  read_call (UserRepository.GetByEmail (Dto.CreateUserRequest.Email req)) db
            r d1 E1 U1 User_GetByEmail_unchanged.
  destruct r as [x|e]; [failed_leaf|].
  match goal with |- context [UserRepository.Create ?u d1] =>
    destruct (UserRepository.Create u d1) as [[y|e2] d2] eqn:E2 end;
    failed_leaf.
Qed.

Lemma failed_CreateFeatureFlag (req : Dto.CreateFeatureFlagRequest.t) (db db' : DB)
      (err : Service.error) :
  outcome (Service.CreateFeatureFlag req db) = (Some err, db') ->
  same_tables db db' /\ (forall msg, err = Service.New msg -> unchanged db db').
Proof.
  unfold Service.CreateFeatureFlag.
  read_call (FeatureFlagRepository.GetByKey (Dto.CreateFeatureFlagRequest.Key req))
            db r d1 E1 U1 Flag_GetByKey_unchanged.
  destruct r as [x|e]; [failed_leaf|].
  match goal with |- context [FeatureFlagRepository.Create ?u d1] =>
    destruct (FeatureFlagRepository.Create u d1) as [[y|e2] d2] eqn:E2 end;
    failed_leaf.
Qed.

Lemma failed_UpdateUser_save (req : Dto.UpdateUserRequest.t) (user : User.t)
      (db d db' : DB) (err : Service.error) :
  unchanged db d ->
  outcome (Service.UpdateUser_save req user d) = (Some err, db') ->
  same_tables db db' /\ (forall msg, err = Service.New msg -> unchanged db db').
Proof.
  intros U. unfold Service.UpdateUser_save.
  match goal with |- context [UserRepository.Update ?u d] =>
    destruct (UserRepository.Update u d) as [[y|e2] d2] eqn:E2 end;
    failed_leaf.
Qed.

Lemma failed_UpdateUser (id : uint) (req : Dto.UpdateUserRequest.t) (db db' : DB)
      (err : Service.error) :
  outcome (Service.UpdateUser id req db) = (Some err, db') ->
  same_tables db db' /\ (forall msg, err = Service.New msg -> unchanged db db').
Proof.
  unfold Service.UpdateUser.
  read_call (UserRepository.GetByID id) db r d1 E1 U1 User_GetByID_unchanged.
  destruct r as [u|[]]; try failed_leaf.
  destruct (Dto.UpdateUserRequest.Email req) as [email|].
  - read_call (UserRepository.GetByEmail email) d1 r2 d2 E2 U2
              User_GetByEmail_unchanged.
    pose proof (unchanged_trans _ _ _ U1 U2) as U12.
    match goal with |- context [if ?c then _ else _] => destruct c end.
    + failed_leaf.
    + now apply failed_UpdateUser_save.
  - now apply failed_UpdateUser_save.
Qed.

Lemma failed_UpdateFeatureFlag (id : uint) (req : Dto.UpdateFeatureFlagRequest.t)
      (db db' : DB) (err : Service.error) :
  outcome (Service.UpdateFeatureFlag id req db) = (Some err, db') ->
  same_tables db db' /\ (forall msg, err = Service.New msg -> unchanged db db').
Proof.
  unfold Service.UpdateFeatureFlag.
  read_call (FeatureFlagRepository.GetByID id) db r d1 E1 U1 Flag_GetByID_unchanged.
  destruct r as [u|[]]; try failed_leaf.
  match goal with |- context [FeatureFlagRepository.Update ?u d1] =>
    destruct (FeatureFlagRepository.Update u d1) as [[y|e2] d2] eqn:E2 end;
    failed_leaf.
Qed.

Lemma failed_DeleteUser (id : uint) (db db' : DB) (err : Service.error) :
  outcome (Service.DeleteUser id db) = (Some err, db') ->
  same_tables db db' /\ (forall msg, err = Service.New msg -> unchanged db db').
Proof.
  unfold Service.DeleteUser.
  read_call (UserRepository.GetByID id) db r d1 E1 U1 User_GetByID_unchanged.
  destruct r as [u|[]]; try failed_leaf.
  destruct (UserRepository.Delete id d1) as [[y|e2] d2] eqn:E2; failed_leaf.
Qed.

Lemma failed_DeleteFeatureFlag (id : uint) (db db' : DB) (err : Service.error) :
  outcome (Service.DeleteFeatureFlag id db) = (Some err, db') ->
  same_tables db db' /\ (forall msg, err = Service.New msg -> unchanged db db').
Proof.
  unfold Service.DeleteFeatureFlag.
  read_call (FeatureFlagRepository.GetByID id) db r d1 E1 U1 Flag_GetByID_unchanged.
  destruct r as [u|[]]; try failed_leaf.
  destruct (FeatureFlagRepository.Delete id d1) as [[y|e2] d2] eqn:E2; failed_leaf.
Qed.

Lemma failed_AssignFeatureFlagToUser (id : uint) (key : string) (db db' : DB)
      (err : Service.error) :
  outcome (Service.AssignFeatureFlagToUser id key db) = (Some err, db') ->
  same_tables db db' /\ (forall msg, err = Service.New msg -> unchanged db db').
Proof.
  unfold Service.AssignFeatureFlagToUser.
  read_call (UserRepository.GetByID id) db r d1 E1 U1 User_GetByID_unchanged.
  destruct r as [u|[]]; try failed_leaf.
  read_call (FeatureFlagRepository.GetByKey key) d1 r2 d2 E2 U2
            Flag_GetByKey_unchanged.
  pose proof (unchanged_trans _ _ _ U1 U2) as U12.
  destruct r2 as [f|[]]; try failed_leaf.
  destruct (UserFeatureFlagRepository.IsFeatureFlagAssignedToUser
              id (FeatureFlag.ID f) d2) as [r3 d3] eqn:E3.
  pose proof (IsAssigned_unchanged _ _ _ _ _ E3) as U3.
  pose proof (unchanged_trans _ _ _ U12 U3) as U123.
  destruct r3 as [[]|e3]; try failed_leaf.
  destruct (UserFeatureFlagRepository.AssignFeatureFlagToUser
              id (FeatureFlag.ID f) d3) as [[y|e4] d4] eqn:E4; failed_leaf.
Qed.

Lemma failed_UnassignFeatureFlagFromUser (id : uint) (key : string) (db db' : DB)
      (err : Service.error) :
  outcome (Service.UnassignFeatureFlagFromUser id key db) = (Some err, db') ->
  same_tables db db' /\ (forall msg, err = Service.New msg -> unchanged db db').
Proof.
  unfold Service.UnassignFeatureFlagFromUser.
  read_call (UserRepository.GetByID id) db r d1 E1 U1 User_GetByID_unchanged.
  destruct r as [u|[]]; try failed_leaf.
  read_call (FeatureFlagRepository.GetByKey key) d1 r2 d2 E2 U2
            Flag_GetByKey_unchanged.
  pose proof (unchanged_trans _ _ _ U1 U2) as U12.
  destruct r2 as [f|[]]; try failed_leaf.
  destruct (UserFeatureFlagRepository.UnassignFeatureFlagFromUser
              id (FeatureFlag.ID f) d2) as [[y|e4] d4] eqn:E4; failed_leaf.
Qed.

(** A service call that returns an error has changed no row of any table,
    whatever the store's failures: every operation reads first and writes
    once, last.  If the error is one of the domain errors (not found,
    already exists, already assigned) nothing but the consumed part of the
    fault schedule differs, so on a store that does not fail the store is
    exactly as before. *)
Theorem failed_call_changes_no_table (op : Op) (db db' : DB) (err : Service.error) :
  call op db = (Some err, db') ->
  same_tables db db' /\
  (forall msg, err = Service.New msg -> unchanged db db') /\
  (forall msg, err = Service.New msg -> faults db = [] -> db' = db).
Proof.
  intros Hcall.
  assert (H : same_tables db db' /\
              (forall msg, err = Service.New msg -> unchanged db db')).
  { destruct op; cbn [call] in Hcall.
    - now apply failed_CreateUser in Hcall.
    - revert Hcall. unfold Service.GetUser.
      read_call (UserRepository.GetByID id) db r d1 E1 U1 User_GetByID_unchanged.
      destruct r as [u|[]]; failed_leaf.
    - revert Hcall. unfold Service.GetUsers.
      destruct (Dto.GetLimit pagination) as [limit p1].
      destruct (Dto.GetOffset p1) as [offset p2].
      destruct (UserRepository.GetAll limit offset db) as [r d1] eqn:E1.
      pose proof (User_GetAll_unchanged _ _ _ _ _ E1) as U1.
      destruct r as [[us n]|e]; failed_leaf.
    - now apply failed_UpdateUser in Hcall.
    - now apply failed_DeleteUser in Hcall.
    - revert Hcall. unfold Service.GetUserFeatureFlags.
      read_call (UserRepository.GetByID userID) db r d1 E1 U1
                User_GetByID_unchanged.
      destruct r as [u|[]]; try failed_leaf.
      read_call (UserFeatureFlagRepository.GetUserFeatureFlags userID) d1 r2 d2
                E2 U2 GetUserFeatureFlags_unchanged.
      pose proof (unchanged_trans _ _ _ U1 U2) as U12.
      destruct r2; failed_leaf.
    - now apply failed_AssignFeatureFlagToUser in Hcall.
    - now apply failed_UnassignFeatureFlagFromUser in Hcall.
    - now apply failed_CreateFeatureFlag in Hcall.
    - revert Hcall. unfold Service.GetFeatureFlag.
      read_call (FeatureFlagRepository.GetByID id) db r d1 E1 U1
                Flag_GetByID_unchanged.
      destruct r as [u|[]]; failed_leaf.
    - revert Hcall. unfold Service.GetFeatureFlagByKey.
      read_call (FeatureFlagRepository.GetByKey key) db r d1 E1 U1
                Flag_GetByKey_unchanged.
      destruct r as [u|[]]; failed_leaf.
    - revert Hcall. unfold Service.GetFeatureFlags.
      destruct (Dto.GetLimit pagination) as [limit p1].
      destruct (Dto.GetOffset p1) as [offset p2].
      destruct (FeatureFlagRepository.GetAll limit offset db) as [r d1] eqn:E1.
      pose proof (Flag_GetAll_unchanged _ _ _ _ _ E1) as U1.
      destruct r as [[us n]|e]; failed_leaf.
    - now apply failed_UpdateFeatureFlag in Hcall.
    - now apply failed_DeleteFeatureFlag in Hcall. }
  destruct H as [Hs Hu]. split; [exact Hs|]. split; [exact Hu|].
  intros msg Hmsg Hf. apply unchanged_no_faults; [|exact Hf]. now apply (Hu msg).
Qed.

Lemma failed_call_changes_no_table_witness :
  call (OpCreateUser ann) db_ann_deleted =
    (Some (Service.Errorf "failed to create user" ErrUniqueViolation),
     set_users_id_seq 3%N db_ann_deleted) /\
  users (set_users_id_seq 3%N db_ann_deleted) = users db_ann_deleted.
Proof.
  split; [reflexivity|].
  destruct (failed_call_changes_no_table (OpCreateUser ann) db_ann_deleted
              (set_users_id_seq 3%N db_ann_deleted)
              (Service.Errorf "failed to create user" ErrUniqueViolation)
              eq_refl) as ((H & _) & _).
  exact H.
Defined.

(** ** Rows are kept *)

Lemma user_kept_refl (r : User.t) : user_kept r r.
Proof. repeat split. Qed.

Lemma flag_kept_refl (r : FeatureFlag.t) : flag_kept r r.
Proof. repeat split. Qed.

Lemma grows_refl (db : DB) : grows db db.
Proof.
  split; intros r Hr; exists r; split; try assumption;
    [apply user_kept_refl | apply flag_kept_refl].
Qed.

Lemma grows_trans (a b c : DB) : grows a b -> grows b c -> grows a c.
Proof.
  intros [Hu1 Hf1] [Hu2 Hf2]. split.
  - intros r Hr. destruct (Hu1 r Hr) as (r1 & Hin1 & Hid1 & Hc1 & Hd1).
    destruct (Hu2 r1 Hin1) as (r2 & Hin2 & Hid2 & Hc2 & Hd2).
    exists r2. split; [assumption|]. repeat split; try congruence.
    intros Hdel. rewrite <- (Hd1 Hdel). apply Hd2. now rewrite (Hd1 Hdel).
  - intros r Hr. destruct (Hf1 r Hr) as (r1 & Hin1 & Hid1 & Hk1 & Hc1 & Hd1).
    destruct (Hf2 r1 Hin1) as (r2 & Hin2 & Hid2 & Hk2 & Hc2 & Hd2).
    exists r2. split; [assumption|]. repeat split; try congruence.
    intros Hdel. rewrite <- (Hd1 Hdel). apply Hd2. now rewrite (Hd1 Hdel).
Qed.

Lemma grows_same_rows (db db' : DB) :
  users db' = users db -> feature_flags db' = feature_flags db -> grows db db'.
Proof.
  intros Hu Hf. split; intros r Hr; exists r.
  - rewrite Hu. split; [assumption | apply user_kept_refl].
  - rewrite Hf. split; [assumption | apply flag_kept_refl].
Qed.

Lemma grows_unchanged (db db' : DB) : unchanged db db' -> grows db db'.
Proof. intros (fs & -> & _). now apply grows_same_rows. Qed.

Lemma grows_users (db db' : DB) :
  feature_flags db' = feature_flags db ->
  (forall r, In r (users db) -> exists r', In r' (users db') /\ user_kept r r') ->
  grows db db'.
Proof.
  intros Hf Hu. split; [exact Hu|]. intros r Hr. exists r.
  rewrite Hf. split; [assumption | apply flag_kept_refl].
Qed.

Lemma grows_feature_flags (db db' : DB) :
  users db' = users db ->
  (forall r, In r (feature_flags db) ->
             exists r', In r' (feature_flags db') /\ flag_kept r r') ->
  grows db db'.
Proof.
  intros Hu Hf. split; [|exact Hf]. intros r Hr. exists r.
  rewrite Hu. split; [assumption | apply user_kept_refl].
Qed.

Lemma User_Create_grows (user : User.t) (db : DB) :
  grows db (snd (UserRepository.Create user db)).
Proof.
  unfold UserRepository.Create.
  match goal with |- context [exec ?b db] =>
    destruct (exec_cases b db) as [fs [H|H]]; rewrite H; clear H end;
    [now apply grows_same_rows|].
  cbn. destruct (User.ID user =? 0)%N; cbn;
    match goal with |- context [if ?c then _ else _] => destruct c end; cbn;
      try (now apply grows_same_rows);
      (apply grows_users; [reflexivity|]; cbn; intros r Hr; exists r;
       split; [apply in_or_app; now left | apply user_kept_refl]).
Qed.

Lemma Flag_Create_grows (flag : FeatureFlag.t) (db : DB) :
  grows db (snd (FeatureFlagRepository.Create flag db)).
Proof.
  unfold FeatureFlagRepository.Create.
  match goal with |- context [exec ?b db] =>
    destruct (exec_cases b db) as [fs [H|H]]; rewrite H; clear H end;
    [now apply grows_same_rows|].
  cbn. destruct (FeatureFlag.ID flag =? 0)%N; cbn;
    match goal with |- context [if ?c then _ else _] => destruct c end; cbn;
      try (now apply grows_same_rows);
      (apply grows_feature_flags; [reflexivity|]; cbn; intros r Hr; exists r;
       split; [apply in_or_app; now left | apply flag_kept_refl]).
Qed.

Lemma User_Delete_grows (id : uint) (db : DB) :
  grows db (snd (UserRepository.Delete id db)).
Proof.
  unfold UserRepository.Delete.
  match goal with |- context [exec ?b db] =>
    destruct (exec_cases b db) as [fs [H|H]]; rewrite H; clear H end;
    [now apply grows_same_rows|].
  cbn. apply grows_users; [reflexivity|]. cbn. intros r Hr.
  eexists. split; [apply in_map; exact Hr|].
  destruct ((User.ID r =? id)%N && UserRepository.live r) eqn:E;
    [|apply user_kept_refl].
  apply andb_true_iff in E. destruct E as [_ El]. unfold UserRepository.live in El.
  repeat split. cbn. intros Hd. destruct (User.DeletedAt r); [discriminate|].
  now contradiction Hd.
Qed.

Lemma Flag_Delete_grows (id : uint) (db : DB) :
  grows db (snd (FeatureFlagRepository.Delete id db)).
Proof.
  unfold FeatureFlagRepository.Delete.
  match goal with |- context [exec ?b db] =>
    destruct (exec_cases b db) as [fs [H|H]]; rewrite H; clear H end;
    [now apply grows_same_rows|].
  cbn. apply grows_feature_flags; [reflexivity|]. cbn. intros r Hr.
  eexists. split; [apply in_map; exact Hr|].
  destruct ((FeatureFlag.ID r =? id)%N && FeatureFlagRepository.live r) eqn:E;
    [|apply flag_kept_refl].
  apply andb_true_iff in E. destruct E as [_ El].
  unfold FeatureFlagRepository.live in El.
  repeat split. cbn. intros Hd. destruct (FeatureFlag.DeletedAt r); [discriminate|].
  now contradiction Hd.
Qed.

Lemma Assign_grows (u f : uint) (db : DB) :
  grows db (snd (UserFeatureFlagRepository.AssignFeatureFlagToUser u f db)).
Proof.
  unfold UserFeatureFlagRepository.AssignFeatureFlagToUser.
  match goal with |- context [exec ?b db] =>
    destruct (exec_cases b db) as [fs [H|H]]; rewrite H; clear H end;
    [now apply grows_same_rows|].
  cbn. repeat match goal with |- context [if ?c then _ else _] => destruct c end;
    now apply grows_same_rows.
Qed.

Lemma Unassign_grows (u f : uint) (db : DB) :
  grows db (snd (UserFeatureFlagRepository.UnassignFeatureFlagFromUser u f db)).
Proof.
  unfold UserFeatureFlagRepository.UnassignFeatureFlagFromUser.
  match goal with |- context [exec ?b db] =>
    destruct (exec_cases b db) as [fs [H|H]]; rewrite H; clear H end;
    now apply grows_same_rows.
Qed.

(** [Save] of a struct that was loaded from the live row with its key and
    kept that row's creation time. *)
Lemma User_Update_grows (user u : User.t) (db : DB) :
  consistent db -> In u (users db) -> User.DeletedAt u = None ->
  User.ID user = User.ID u -> User.CreatedAt user = User.CreatedAt u ->
  grows db (snd (UserRepository.Update user db)).
Proof.
  intros Hc Hin Hlive Hid Hct.
  assert (Hnz : (User.ID user =? 0)%N = false).
  { pose proof (serial _ _ _ _ (users_ok _ Hc) u Hin). apply N.eqb_neq. lia. }
  unfold UserRepository.Update. rewrite Hnz.
  match goal with |- context [exec ?b db] =>
    destruct (exec_cases b db) as [fs [H|H]]; rewrite H; clear H end;
    [now apply grows_same_rows|].
  cbn -[UserRepository.email_taken].
  destruct (UserRepository.email_taken (User.ID user) (User.Email user) (users db));
    cbn; [now apply grows_same_rows|].
  assert (Hex : existsb (fun r => (User.ID r =? User.ID user)%N
                                  && UserRepository.live r) (users db) = true).
  { apply existsb_exists. exists u. split; [assumption|].
    rewrite Hid, N.eqb_refl. unfold UserRepository.live. now rewrite Hlive. }
  rewrite Hex. cbn. apply grows_users; [reflexivity|]. cbn. intros r Hr.
  eexists. split; [apply in_map; exact Hr|].
  destruct ((User.ID r =? User.ID user)%N && UserRepository.live r) eqn:E;
    [|apply user_kept_refl].
  apply andb_true_iff in E. destruct E as [Ei El]. apply N.eqb_eq in Ei.
  assert (r = u).
  { apply (table_ok_same_row _ _ _ _ _ _ (users_ok _ Hc)); try assumption.
    congruence. }
  subst r. repeat split; cbn; congruence.
Qed.

Lemma Flag_Update_grows (flag f : FeatureFlag.t) (db : DB) :
  consistent db -> In f (feature_flags db) -> FeatureFlag.DeletedAt f = None ->
  FeatureFlag.ID flag = FeatureFlag.ID f ->
  FeatureFlag.Key flag = FeatureFlag.Key f ->
  FeatureFlag.CreatedAt flag = FeatureFlag.CreatedAt f ->
  grows db (snd (FeatureFlagRepository.Update flag db)).
Proof.
  intros Hc Hin Hlive Hid Hkey Hct.
  assert (Hnz : (FeatureFlag.ID flag =? 0)%N = false).
  { pose proof (serial _ _ _ _ (feature_flags_ok _ Hc) f Hin).
    apply N.eqb_neq. lia. }
  unfold FeatureFlagRepository.Update. rewrite Hnz.
  match goal with |- context [exec ?b db] =>
    destruct (exec_cases b db) as [fs [H|H]]; rewrite H; clear H end;
    [now apply grows_same_rows|].
  cbn -[FeatureFlagRepository.key_taken].
  destruct (FeatureFlagRepository.key_taken (FeatureFlag.ID flag)
              (FeatureFlag.Key flag) (feature_flags db));
    cbn; [now apply grows_same_rows|].
  assert (Hex : existsb (fun r => (FeatureFlag.ID r =? FeatureFlag.ID flag)%N
                                  && FeatureFlagRepository.live r)
                        (feature_flags db) = true).
  { apply existsb_exists. exists f. split; [assumption|].
    rewrite Hid, N.eqb_refl. unfold FeatureFlagRepository.live. now rewrite Hlive. }
  rewrite Hex. cbn. apply grows_feature_flags; [reflexivity|]. cbn. intros r Hr.
  eexists. split; [apply in_map; exact Hr|].
  destruct ((FeatureFlag.ID r =? FeatureFlag.ID flag)%N
            && FeatureFlagRepository.live r) eqn:E; [|apply flag_kept_refl].
  apply andb_true_iff in E. destruct E as [Ei El]. apply N.eqb_eq in Ei.
  assert (r = f).
  { apply (table_ok_same_row _ _ _ _ _ _ (feature_flags_ok _ Hc)); try assumption.
    congruence. }
  subst r. repeat split; cbn; congruence.
Qed.

Lemma exec_read_grows {A : Type} (f : DB -> result Gorm.error A) (db : DB) :
  grows db (snd (exec (fun d => (f d, d)) db)).
Proof.
  destruct (exec_read_tables f db) as [fs ->]. now apply grows_same_rows.
Qed.

Lemma User_GetByID_grows (id : uint) (db : DB) :
  grows db (snd (UserRepository.GetByID id db)).
Proof. apply exec_read_grows. Qed.

Lemma User_GetByEmail_grows (email : string) (db : DB) :
  grows db (snd (UserRepository.GetByEmail email db)).
Proof. apply exec_read_grows. Qed.

Lemma Flag_GetByID_grows (id : uint) (db : DB) :
  grows db (snd (FeatureFlagRepository.GetByID id db)).
Proof. apply exec_read_grows. Qed.

Lemma Flag_GetByKey_grows (key : string) (db : DB) :
  grows db (snd (FeatureFlagRepository.GetByKey key db)).
Proof. apply exec_read_grows. Qed.

Lemma GetUserFeatureFlags_grows (id : uint) (db : DB) :
  grows db (snd (UserFeatureFlagRepository.GetUserFeatureFlags id db)).
Proof. apply exec_read_grows. Qed.

Lemma IsAssigned_grows (u f : uint) (db : DB) :
  grows db (snd (UserFeatureFlagRepository.IsFeatureFlagAssignedToUser u f db)).
Proof.
  destruct (UserFeatureFlagRepository.IsFeatureFlagAssignedToUser u f db)
    as [r d] eqn:E.
  apply grows_unchanged. now apply (IsAssigned_unchanged _ _ _ _ _ E).
Qed.

Lemma User_GetAll_grows (limit offset : Z) (db : DB) :
  grows db (snd (UserRepository.GetAll limit offset db)).
Proof.
  destruct (UserRepository.GetAll limit offset db) as [r d] eqn:E.
  apply grows_unchanged. now apply (User_GetAll_unchanged _ _ _ _ _ E).
Qed.

Lemma Flag_GetAll_grows (limit offset : Z) (db : DB) :
  grows db (snd (FeatureFlagRepository.GetAll limit offset db)).
Proof.
  destruct (FeatureFlagRepository.GetAll limit offset db) as [r d] eqn:E.
  apply grows_unchanged. now apply (Flag_GetAll_unchanged _ _ _ _ _ E).
Qed.

(** Run a repository call of the goal, keeping what the store it returns
    keeps of the store it started from. *)
Ltac call_grows m d0 r d E G lem :=
  destruct (m d0) as [r d] eqn:E;
  assert (G : grows d0 d) by (rewrite <- (snd_of _ _ _ E); apply lem).

Lemma UpdateUser_save_grows
      (req : Dto.UpdateUserRequest.t) (user u : User.t) (db : DB) :
  consistent db -> In u (users db) -> User.DeletedAt u = None ->
  User.ID user = User.ID u -> User.CreatedAt user = User.CreatedAt u ->
  grows db (snd (Service.UpdateUser_save req user db)).
Proof.
  intros Hc Hin Hlive Hid Hct. unfold Service.UpdateUser_save.
  match goal with |- context [UserRepository.Update ?x db] =>
    destruct (UserRepository.Update x db) as [r d] eqn:E;
    assert (G : grows db d)
  end.
  { rewrite <- (snd_of _ _ _ E).
    apply (User_Update_grows _ u); try assumption;
      now destruct (Dto.UpdateUserRequest.Enabled req). }
  now destruct r.
Qed.

Lemma run_grows (op : Op) (db : DB) : consistent db -> grows db (run op db).
Proof.
  intros Hc. destruct op; cbn [run].
  - unfold Service.CreateUser.
    call_grows (UserRepository.GetByEmail (Dto.CreateUserRequest.Email req)) db
               r d1 E1 G1 User_GetByEmail_grows.
    destruct r as [x|e]; cbn; [assumption|].
    match goal with |- context [UserRepository.Create ?u d1] =>
      call_grows (UserRepository.Create u) d1 r2 d2 E2 G2 User_Create_grows end.
    destruct r2; cbn; now apply (grows_trans _ d1).
  - unfold Service.GetUser.
    call_grows (UserRepository.GetByID id) db r d1 E1 G1 User_GetByID_grows.
    now destruct r as [u|[]].
  - unfold Service.GetUsers.
    destruct (Dto.GetLimit pagination) as [limit p1].
    destruct (Dto.GetOffset p1) as [offset p2].
    call_grows (UserRepository.GetAll limit offset) db r d1 E1 G1
               User_GetAll_grows.
    now destruct r as [[us n]|e].
  - unfold Service.UpdateUser.
    call_grows (UserRepository.GetByID id) db r d1 E1 G1 User_GetByID_grows.
    destruct r as [u|[]]; cbn; try assumption.
    destruct (User_GetByID_Ok_any _ _ _ _ E1) as ([fs ->] & Hin & Hid & Hlive & _).
    pose proof (consistent_set_faults fs db Hc) as Hc1.
    destruct (Dto.UpdateUserRequest.Email req) as [email|].
    + destruct (UserRepository.GetByEmail email (set_faults fs db))
        as [r2 d2] eqn:E2.
      destruct (exec_read_tables
                  (fun d => First User.ID
                              (fun r => (User.Email r =? email)%string
                                        && UserRepository.live r) (users d))
                  (set_faults fs db)) as [fs2 Hd2].
      change (snd (UserRepository.GetByEmail email (set_faults fs db)) =
              set_faults fs2 (set_faults fs db)) in Hd2.
      rewrite E2 in Hd2. cbn in Hd2. subst d2.
      match goal with |- context [if ?c then _ else _] => destruct c end;
        cbn; [now apply grows_same_rows|].
      apply (grows_trans _ (set_faults fs2 (set_faults fs db)));
        [now apply grows_same_rows|].
      apply (UpdateUser_save_grows _ _ u); try assumption.
      * now apply consistent_set_faults.
      * now destruct (Dto.UpdateUserRequest.Name req).
      * now destruct (Dto.UpdateUserRequest.Name req).
    + apply (grows_trans _ (set_faults fs db)); [assumption|].
      apply (UpdateUser_save_grows _ _ u); try assumption;
        now destruct (Dto.UpdateUserRequest.Name req).
  - unfold Service.DeleteUser.
    call_grows (UserRepository.GetByID id) db r d1 E1 G1 User_GetByID_grows.
    destruct r as [u|[]]; cbn; try assumption.
    call_grows (UserRepository.Delete id) d1 r2 d2 E2 G2 User_Delete_grows.
    destruct r2; cbn; now apply (grows_trans _ d1).
  - unfold Service.GetUserFeatureFlags.
    call_grows (UserRepository.GetByID userID) db r d1 E1 G1 User_GetByID_grows.
    destruct r as [u|[]]; cbn; try assumption.
    call_grows (UserFeatureFlagRepository.GetUserFeatureFlags userID) d1 r2 d2
               E2 G2 GetUserFeatureFlags_grows.
    destruct r2; cbn; now apply (grows_trans _ d1).
  - unfold Service.AssignFeatureFlagToUser.
    call_grows (UserRepository.GetByID userID) db r d1 E1 G1 User_GetByID_grows.
    destruct r as [u|[]]; cbn; try assumption.
    call_grows (FeatureFlagRepository.GetByKey featureFlagKey) d1 r2 d2 E2 G2
               Flag_GetByKey_grows.
    pose proof (grows_trans _ _ _ G1 G2) as G12.
    destruct r2 as [f|[]]; cbn; try assumption.
    call_grows (UserFeatureFlagRepository.IsFeatureFlagAssignedToUser
                  userID (FeatureFlag.ID f)) d2 r3 d3 E3 G3 IsAssigned_grows.
    pose proof (grows_trans _ _ _ G12 G3) as G123.
    destruct r3 as [[]|e]; cbn; try assumption.
    call_grows (UserFeatureFlagRepository.AssignFeatureFlagToUser
                  userID (FeatureFlag.ID f)) d3 r4 d4 E4 G4 Assign_grows.
    destruct r4; cbn; now apply (grows_trans _ d3).
  - unfold Service.UnassignFeatureFlagFromUser.
    call_grows (UserRepository.GetByID userID) db r d1 E1 G1 User_GetByID_grows.
    destruct r as [u|[]]; cbn; try assumption.
    call_grows (FeatureFlagRepository.GetByKey featureFlagKey) d1 r2 d2 E2 G2
               Flag_GetByKey_grows.
    pose proof (grows_trans _ _ _ G1 G2) as G12.
    destruct r2 as [f|[]]; cbn; try assumption.
    call_grows (UserFeatureFlagRepository.UnassignFeatureFlagFromUser
                  userID (FeatureFlag.ID f)) d2 r3 d3 E3 G3 Unassign_grows.
    destruct r3; cbn; now apply (grows_trans _ d2).
  - unfold Service.CreateFeatureFlag.
    call_grows (FeatureFlagRepository.GetByKey
                  (Dto.CreateFeatureFlagRequest.Key req)) db
               r d1 E1 G1 Flag_GetByKey_grows.
    destruct r as [x|e]; cbn; [assumption|].
    match goal with |- context [FeatureFlagRepository.Create ?u d1] =>
      call_grows (FeatureFlagRepository.Create u) d1 r2 d2 E2 G2
                 Flag_Create_grows end.
    destruct r2; cbn; now apply (grows_trans _ d1).
  - unfold Service.GetFeatureFlag.
    call_grows (FeatureFlagRepository.GetByID id) db r d1 E1 G1 Flag_GetByID_grows.
    now destruct r as [u|[]].
  - unfold Service.GetFeatureFlagByKey.
    call_grows (FeatureFlagRepository.GetByKey key) db r d1 E1 G1
               Flag_GetByKey_grows.
    now destruct r as [u|[]].
  - unfold Service.GetFeatureFlags.
    destruct (Dto.GetLimit pagination) as [limit p1].
    destruct (Dto.GetOffset p1) as [offset p2].
    call_grows (FeatureFlagRepository.GetAll limit offset) db r d1 E1 G1
               Flag_GetAll_grows.
    now destruct r as [[us n]|e].
  - unfold Service.UpdateFeatureFlag.
    call_grows (FeatureFlagRepository.GetByID id) db r d1 E1 G1 Flag_GetByID_grows.
    destruct r as [f|[]]; cbn; try assumption.
    destruct (Flag_GetByID_Ok_any _ _ _ _ E1) as ([fs ->] & Hin & Hid & Hlive & _).
    pose proof (consistent_set_faults fs db Hc) as Hc1.
    match goal with |- context [FeatureFlagRepository.Update ?x ?d] =>
      destruct (FeatureFlagRepository.Update x d) as [r2 d2] eqn:E2;
      assert (G2 : grows (set_faults fs db) d2)
    end.
    { rewrite <- (snd_of _ _ _ E2).
      apply (Flag_Update_grows _ f); try assumption;
        now destruct (Dto.UpdateFeatureFlagRequest.Description req),
                     (Dto.UpdateFeatureFlagRequest.Enabled req). }
    destruct r2; cbn; now apply (grows_trans _ (set_faults fs db)).
  - unfold Service.DeleteFeatureFlag.
    call_grows (FeatureFlagRepository.GetByID id) db r d1 E1 G1 Flag_GetByID_grows.
    destruct r as [u|[]]; cbn; try assumption.
    call_grows (FeatureFlagRepository.Delete id) d1 r2 d2 E2 G2 Flag_Delete_grows.
    destruct r2; cbn; now apply (grows_trans _ d1).
Qed.

Lemma run_all_consistent (ops : list Op) (db : DB) :
  consistent db -> consistent (run_all ops db).
Proof.
  revert db. induction ops as [|op ops IH]; intros db Hc; [exact Hc|].
  cbn. apply IH. now apply run_consistent.
Qed.

(** Whatever service calls follow, whatever the store's failures, a
    consistent store never loses a row of [users] or [feature_flags]: the
    row stays under the same id with the same creation time, a flag keeps
    its key, and a soft-deleted row is never written again, so nothing
    brings a deleted user or flag back. *)
Theorem rows_are_kept (ops : list Op) (db : DB) :
  consistent db ->
  (forall r, In r (users db) ->
     exists r', In r' (users (run_all ops db)) /\
                User.ID r' = User.ID r /\ User.CreatedAt r' = User.CreatedAt r /\
                (User.DeletedAt r <> None -> r' = r)) /\
  (forall r, In r (feature_flags db) ->
     exists r', In r' (feature_flags (run_all ops db)) /\
                FeatureFlag.ID r' = FeatureFlag.ID r /\
                FeatureFlag.Key r' = FeatureFlag.Key r /\
                FeatureFlag.CreatedAt r' = FeatureFlag.CreatedAt r /\
                (FeatureFlag.DeletedAt r <> None -> r' = r)) /\
  (forall id, user_deleted id db = true ->
              user_exists id (run_all ops db) = false).
Proof.
  intros Hc.
  assert (G : grows db (run_all ops db)).
  { revert db Hc. induction ops as [|op ops IH]; intros db Hc; [apply grows_refl|].
    cbn. apply (grows_trans _ (run op db)); [now apply run_grows|].
    apply IH. now apply run_consistent. }
  split; [apply G|]. split; [apply G|].
  intros id Hdel. unfold user_deleted in Hdel. apply existsb_exists in Hdel.
  destruct Hdel as (r & Hin & Hcond). apply andb_true_iff in Hcond.
  destruct Hcond as [Hid Hdead]. apply N.eqb_eq in Hid.
  destruct G as [Gu _]. destruct (Gu r Hin) as (r' & Hin' & _ & _ & Hfrozen).
  assert (Hd : User.DeletedAt r <> None).
  { unfold UserRepository.live in Hdead.
    destruct (User.DeletedAt r); [discriminate | discriminate Hdead]. }
  rewrite (Hfrozen Hd) in Hin'.
  pose proof (run_all_consistent ops db Hc) as Hc'.
  destruct (user_exists id (run_all ops db)) eqn:E; [|reflexivity].
  unfold user_exists in E. apply existsb_exists in E.
  destruct E as (x & Hx & Hcondx). apply andb_true_iff in Hcondx.
  destruct Hcondx as [Hxid Hxlive]. apply N.eqb_eq in Hxid.
  assert (x = r).
  { apply (table_ok_same_row _ _ _ _ _ _ (users_ok _ Hc')); try assumption.
    congruence. }
  subst x. rewrite Hxlive in Hdead. discriminate.
Qed.

Lemma rows_are_kept_witness :
  consistent db_ann_deleted /\ user_deleted 1%N db_ann_deleted = true /\
  user_exists 1%N
    (run_all [OpCreateUser ann;
              OpUpdateUser 1%N (Dto.UpdateUserRequest.mk None None (Some true))]
             db_ann_deleted) = false.
Proof.
  assert (Hc : consistent db_ann_deleted)
    by (apply reachable_consistent; repeat constructor).
  split; [exact Hc | split; [reflexivity|]].
  destruct (rows_are_kept
              [OpCreateUser ann;
               OpUpdateUser 1%N (Dto.UpdateUserRequest.mk None None (Some true))]
              db_ann_deleted Hc) as (_ & _ & H).
  apply H. reflexivity.
Defined.

(** ** The schema's constraints, read off the tables *)

Lemma NoDup_map_inj_on {A B : Type} (g : A -> B) (l : list A) :
  NoDup l -> (forall x y, In x l -> In y l -> g x = g y -> x = y) ->
  NoDup (map g l).
Proof.
  induction 1 as [|x l Hx Hnd IH]; intros Hinj; cbn; constructor.
  - intros Hin. apply in_map_iff in Hin. destruct Hin as (y & Hy & Hin).
    assert (y = x) by (apply Hinj; cbn; auto). now subst y.
  - apply IH. intros a b Ha Hb. apply Hinj; cbn; auto.
Qed.

Lemma table_ok_rows_distinct {A : Type} (id : A -> N) (key : A -> string)
      (seq : N) (rows : list A) :
  table_ok id key seq rows -> NoDup rows.
Proof. intros [Hpk _ _ _]. now apply NoDup_map_inv in Hpk. Qed.

Lemma table_ok_keys_distinct {A : Type} (id : A -> N) (key : A -> string)
      (seq : N) (rows : list A) :
  table_ok id key seq rows -> NoDup (map key rows).
Proof.
  intros Hok. apply NoDup_map_inj_on.
  - now apply (table_ok_rows_distinct id key seq).
  - intros x y Hx Hy Hk. apply (table_ok_same_row id key seq rows); try assumption.
    now apply (unique_key _ _ _ _ Hok).
Qed.

(** Every store that service calls build from an empty one keeps what the
    migration declares, whatever calls failed on the way: ids are distinct
    in [users] and in [feature_flags], positive and below the table's
    sequence; no two user rows share an email and no two flag rows share a
    key, soft-deleted rows included; no pair of user and flag is assigned
    twice. *)
Theorem reachable_store_keeps_schema (db : DB) :
  reachable db ->
  NoDup (map User.ID (users db)) /\
  NoDup (map User.Email (users db)) /\
  NoDup (map FeatureFlag.ID (feature_flags db)) /\
  NoDup (map FeatureFlag.Key (feature_flags db)) /\
  NoDup (map (fun r => (UserFeatureFlag.UserID r, UserFeatureFlag.FeatureFlagID r))
             (user_feature_flags db)) /\
  (forall u, In u (users db) -> (0 < User.ID u < users_id_seq db)%N) /\
  (forall f, In f (feature_flags db) ->
             (0 < FeatureFlag.ID f < feature_flags_id_seq db)%N).
Proof.
  intros Hr. destruct (reachable_consistent db Hr) as [Hu Hf Hpk _].
  split; [apply (pkey _ _ _ _ Hu)|].
  split; [now apply (table_ok_keys_distinct User.ID _ (users_id_seq db))|].
  split; [apply (pkey _ _ _ _ Hf)|].
  split; [now apply (table_ok_keys_distinct FeatureFlag.ID _ (feature_flags_id_seq db))|].
  split; [exact Hpk|].
  split; [apply (serial _ _ _ _ Hu) | apply (serial _ _ _ _ Hf)].
Qed.

Lemma reachable_store_keeps_schema_witness :
  reachable db_ann_deleted_bob /\
  NoDup (map User.Email (users db_ann_deleted_bob)).
Proof.
  assert (Hr : reachable db_ann_deleted_bob) by (repeat constructor).
  split; [exact Hr|].
  apply (reachable_store_keeps_schema db_ann_deleted_bob Hr).
Defined.

(** ** The flags of a user, each once *)

Lemma pair_rows_at_most_one (u f : uint) (rows : list UserFeatureFlag.t) :
  NoDup (map (fun r => (UserFeatureFlag.UserID r, UserFeatureFlag.FeatureFlagID r))
             rows) ->
  (List.length (filter (UserFeatureFlagRepository.is_pair u f) rows) <= 1)%nat.
Proof.
  induction rows as [|x rest IH]; intros Hnd; cbn; [lia|].
  inversion Hnd as [|? ? Hx Hrest]; subst.
  destruct (UserFeatureFlagRepository.is_pair u f x) eqn:E; [|now apply IH].
  cbn. destruct (filter (UserFeatureFlagRepository.is_pair u f) rest)
    as [|y ys] eqn:F; [cbn; lia|].
  exfalso. apply Hx.
  assert (Hy : In y (filter (UserFeatureFlagRepository.is_pair u f) rest))
    by (rewrite F; now left).
  apply filter_In in Hy. destruct Hy as [Hy Hp].
  apply in_map_iff. exists y. split; [|assumption].
  unfold UserFeatureFlagRepository.is_pair in E, Hp.
  apply andb_true_iff in E. apply andb_true_iff in Hp.
  destruct E as [E1 E2]. destruct Hp as [P1 P2].
  apply N.eqb_eq in E1, E2, P1, P2. congruence.
Qed.

Lemma flat_map_copies_NoDup {A B : Type} (h : A -> list B) (l : list A) :
  NoDup l -> (forall x, (List.length (h x) <= 1)%nat) ->
  NoDup (flat_map (fun x => map (fun _ => x) (h x)) l).
Proof.
  intros Hnd Hone. induction Hnd as [|x l Hx Hnd IH]; cbn; [constructor|].
  assert (Hsub : forall y, In y (flat_map (fun x => map (fun _ => x) (h x)) l) ->
                           In y l).
  { intros y Hy. apply in_flat_map in Hy. destruct Hy as (z & Hz & Hy).
    apply in_map_iff in Hy. destruct Hy as (_ & -> & _). exact Hz. }
  specialize (Hone x). destruct (h x) as [|b [|b' bs]]; cbn in *.
  - exact IH.
  - constructor; [|exact IH]. intros Hin. apply Hx. now apply Hsub.
  - lia.
Qed.

(** [GetUserFeatureFlags] never lists a flag twice: on a consistent store
    the ids of the responses it returns are distinct and so are their
    keys, whatever failures the store has scheduled; the join of the
    repository returns one row for each assigned flag because the pair of
    ids is the primary key of the assignment table. *)
Theorem listed_flags_are_distinct
        (userID : uint) (db db' : DB) (flags : list Dto.FeatureFlagResponse.t) :
  consistent db ->
  Service.GetUserFeatureFlags userID db = (Ok flags, db') ->
  NoDup (map Dto.FeatureFlagResponse.ID flags) /\
  NoDup (map Dto.FeatureFlagResponse.Key flags) /\
  forall r, In r flags ->
    exists f, In f (feature_flags db) /\ r = Service.toFeatureFlagResponse f /\
              FeatureFlag.DeletedAt f = None /\
              isAssigned userID (FeatureFlag.ID f) db = true.
Proof.
  intros Hc. unfold Service.GetUserFeatureFlags.
  destruct (UserRepository.GetByID userID db) as [r d1] eqn:E1.
  destruct r as [u|[]]; try discriminate.
  destruct (User_GetByID_Ok_any _ _ _ _ E1) as ([fs ->] & _).
  unfold UserFeatureFlagRepository.GetUserFeatureFlags.
  match goal with |- context [exec ?b ?d] =>
    destruct (exec_cases b d) as [fs2 [H|H]]; rewrite H; clear H end;
    [discriminate|].
  cbn [set_faults user_feature_flags feature_flags].
  intros H. injection H as Hflags _. subst flags.
  destruct Hc as [_ Hf Hpk _].
  set (res := flat_map _ _).
  assert (Hres : forall f, In f res ->
            In f (feature_flags db) /\ FeatureFlag.DeletedAt f = None /\
            isAssigned userID (FeatureFlag.ID f) db = true).
  { intros f Hin. now apply joined_flags_In. }
  assert (Hnd : NoDup res).
  { apply (flat_map_copies_NoDup
             (fun f => filter (UserFeatureFlagRepository.is_pair userID
                                                                (FeatureFlag.ID f))
                              (user_feature_flags db))).
    - apply NoDup_filter.
      now apply (table_ok_rows_distinct FeatureFlag.ID FeatureFlag.Key
                                        (feature_flags_id_seq db)).
    - intros f. now apply pair_rows_at_most_one. }
  rewrite !map_map. cbn [Dto.FeatureFlagResponse.ID Dto.FeatureFlagResponse.Key].
  split; [|split].
  - apply NoDup_map_inj_on; [exact Hnd|]. intros x y Hx Hy Hid.
    apply (table_ok_same_row _ _ _ _ _ _ Hf); try assumption;
      [apply (Hres x Hx) | apply (Hres y Hy)].
  - apply NoDup_map_inj_on; [exact Hnd|]. intros x y Hx Hy Hk.
    apply (table_ok_same_row _ _ _ _ _ _ Hf);
      [apply (Hres x Hx) | apply (Hres y Hy) |].
    apply (unique_key _ _ _ _ Hf); [apply (Hres x Hx) | apply (Hres y Hy) | exact Hk].
  - intros r Hin. apply in_map_iff in Hin. destruct Hin as (f & <- & Hin).
    exists f. destruct (Hres f Hin) as (H1 & H2 & H3). repeat split; assumption.
Qed.

Lemma listed_flags_are_distinct_witness :
  consistent db_assigned /\
  Service.GetUserFeatureFlags 1%N db_assigned =
  (Ok [Service.toFeatureFlagResponse
         (FeatureFlag.mk 1%N "beta" "" false 2%N 2%N None)], db_assigned) /\
  NoDup (map Dto.FeatureFlagResponse.Key
             [Service.toFeatureFlagResponse
                (FeatureFlag.mk 1%N "beta" "" false 2%N 2%N None)]).
Proof.
  assert (Hc : consistent db_assigned)
    by (apply reachable_consistent; repeat constructor).
  split; [exact Hc|].
  assert (E : Service.GetUserFeatureFlags 1%N db_assigned =
              (Ok [Service.toFeatureFlagResponse
                     (FeatureFlag.mk 1%N "beta" "" false 2%N 2%N None)], db_assigned))
    by reflexivity.
  split; [exact E|].
  apply (listed_flags_are_distinct 1%N db_assigned db_assigned _ Hc E).
Defined.

(** ** GET /feature-flags *)

Lemma set_defaults_effective (page size : Z) :
  GoInt.in_range page ->
  exists page' size',
    Handler.set_defaults (Dto.mkPagination page size) =
    Dto.mkPagination page' size' /\
    GoInt.in_range page' /\
    effective_page page' = effective_page page /\
    effective_page_size size' = effective_page_size size.
Proof.
  intros Hp. assert (H1 : GoInt.in_range 1) by (split; discriminate).
  unfold Handler.set_defaults. cbn [Dto.Page Dto.PageSize].
  destruct (page =? 0) eqn:E1; cbn [Dto.Page Dto.PageSize];
    destruct (size =? 0) eqn:E2.
  - apply Z.eqb_eq in E1, E2. subst page size.
    exists 1, 10. split; [reflexivity | split; [exact H1 | split; reflexivity]].
  - apply Z.eqb_eq in E1. subst page.
    exists 1, size. split; [reflexivity | split; [exact H1 | split; reflexivity]].
  - apply Z.eqb_eq in E2. subst size.
    exists page, 10. split; [reflexivity | split; [exact Hp | split; reflexivity]].
  - exists page, size.
    split; [reflexivity | split; [exact Hp | split; reflexivity]].
Qed.

(** GET /feature-flags on a store that does not fail: a query that does
    not bind is a 400 [invalid_query]; otherwise, when (page - 1) *
    page_size of the effective values fits an [int], the answer is a 200
    with the effective page and page size, the number of non-deleted flags
    as total, and the slice of the non-deleted flags, in table order, that
    starts at the offset: at most page_size entries, each the response of
    a flag that is not deleted, and none when the page is past the end.
    The store is unchanged either way. *)
Theorem get_feature_flags_handler_lists_a_page
        (driver_text : Gorm.error -> string) (db : DB) (page page_size : Z) :
  faults db = [] -> GoInt.in_range page ->
  (effective_page page - 1) * effective_page_size page_size <= GoInt.max_int ->
  let pg := effective_page page in
  let ps := effective_page_size page_size in
  let off := (pg - 1) * ps in
  let total := Z.of_nat (List.length (live_feature_flags db)) in
  (forall msg, Handler.GetFeatureFlags driver_text (Err msg) db =
               (Handler.fail 400 "invalid_query" msg, db)) /\
  exists resp,
    Handler.GetFeatureFlags driver_text (Ok (Dto.mkPagination page page_size)) db =
      (Handler.JSON 200 (Handler.FeatureFlagListJSON resp), db) /\
    Dto.FeatureFlagListResponse.Total resp = total /\
    Dto.FeatureFlagListResponse.Page resp = pg /\
    Dto.FeatureFlagListResponse.PageSize resp = ps /\
    Dto.FeatureFlagListResponse.TotalPages resp = Dto.CalculateTotalPages total ps /\
    Z.of_nat (List.length (Dto.FeatureFlagListResponse.FeatureFlags resp)) =
      Z.min ps (Z.max 0 (total - off)) /\
    (forall i, (i < Z.to_nat ps)%nat ->
       nth_error (Dto.FeatureFlagListResponse.FeatureFlags resp) i =
       option_map Service.toFeatureFlagResponse
                  (nth_error (live_feature_flags db) (Z.to_nat off + i))) /\
    (total <= off -> Dto.FeatureFlagListResponse.FeatureFlags resp = []) /\
    (forall r, In r (Dto.FeatureFlagListResponse.FeatureFlags resp) ->
       exists f, In f (feature_flags db) /\ FeatureFlag.DeletedAt f = None /\
                 r = Service.toFeatureFlagResponse f).
Proof.
  intros Hf Hp Hfit pg ps off total. split; [reflexivity|].
  pose proof (effective_page_size_bounds page_size) as Hps.
  assert (Hpg : 1 <= pg).
  { unfold pg, effective_page. destruct (page <? 1) eqn:E; lia. }
  assert (Hoff : 0 <= off) by (unfold off; fold ps; nia).
  destruct (set_defaults_effective page page_size Hp)
    as (page' & size' & Hdef & Hp' & Epg & Eps).
  unfold Handler.GetFeatureFlags. rewrite Hdef.
  rewrite GetFeatureFlags_effective by assumption. rewrite Epg, Eps.
  assert (Hwrap : GoInt.wrap ((effective_page page - 1)
                              * effective_page_size page_size) = off).
  { apply wrap_small. fold pg ps off.
    unfold GoInt.in_range, GoInt.min_int, GoInt.max_int in *.
    fold pg ps off in Hfit. lia. }
  rewrite Hwrap, Flag_GetAll_eq by assumption.
  destruct (page_slice ps off (live_feature_flags db))
    as (Hslice & Hlen & Hnth & Hin); [fold ps in Hps; lia | assumption |].
  eexists. split; [reflexivity|]. cbn.
  split; [reflexivity|]. split; [reflexivity|]. split; [reflexivity|].
  split; [reflexivity|]. split; [|split; [|split]].
  - rewrite length_map. exact Hlen.
  - intros i Hi. rewrite nth_error_map. now rewrite Hnth.
  - intros Hpast.
    assert (Hz : List.length (Limit (effective_page_size page_size)
                                    (Offset off (live_feature_flags db))) = 0%nat).
    { fold ps. fold total in Hlen. lia. }
    apply length_zero_iff_nil in Hz. now rewrite Hz.
  - intros r Hr. apply in_map_iff in Hr. destruct Hr as (f & <- & Hu).
    apply Hin in Hu. unfold live_feature_flags in Hu. apply filter_In in Hu.
    destruct Hu as [Hu Hlive]. exists f. repeat split; [assumption|].
    unfold FeatureFlagRepository.live in Hlive.
    destruct (FeatureFlag.DeletedAt f); [discriminate | reflexivity].
Qed.

Lemma get_feature_flags_handler_lists_a_page_witness :
  faults db_beta_deleted = [] /\ GoInt.in_range 0 /\
  exists resp,
    Handler.GetFeatureFlags (fun _ => EmptyString) (Ok (Dto.mkPagination 0 0))
                            db_beta_deleted =
      (Handler.JSON 200 (Handler.FeatureFlagListJSON resp), db_beta_deleted) /\
    Dto.FeatureFlagListResponse.Total resp = 0 /\
    Dto.FeatureFlagListResponse.FeatureFlags resp = [].
Proof.
  assert (Hr : GoInt.in_range 0) by (vm_compute; split; discriminate).
  split; [reflexivity | split; [exact Hr|]].
  destruct (get_feature_flags_handler_lists_a_page
              (fun _ => EmptyString) db_beta_deleted 0 0 eq_refl Hr)
    as (_ & resp & Hget & Htotal & _ & _ & _ & _ & _ & Hempty & _).
  - vm_compute. discriminate.
  - exists resp. split; [exact Hget | split; [exact Htotal|]].
    apply Hempty. vm_compute. discriminate.
Defined.
